(** * Audio-video merge worker (src/app.py): a shallow embedding

    The Flask handler [process_variant] of src/app.py and the helpers it
    calls are embedded as programs over the operating-system calls they
    make.  A program is a finite tree of calls ([prog]); running it against
    an arbitrary environment ([handler]) yields the HTTP response together
    with the ordered trace of calls and of the answers they received.
    Python exceptions are [Raised] results, [try]/[except] is [try_except].
    Calls to [logger] have no influence on control flow and are left out. *)

From Stdlib Require Import String Ascii List ZArith NArith QArith Bool Lia.
From Stdlib Require Import DecimalString.
Import ListNotations.

Set Implicit Arguments.
Set Warnings "-register-all".
Local Open Scope list_scope.
Local Open Scope string_scope.

(* ================================================================== *)
(** ** Python values                                                    *)
(* ================================================================== *)

Module Py.

(** The value of [request.json]: [None] is [JNull], a [dict] is the
    association list of its items (the first binding of a key is the one
    the dict holds).  JSON numbers are kept to the integers; a float
    takes the same branches as an integer everywhere in the handler. *)
Inductive value : Type :=
| JNull
| JBool (b : bool)
| JNum (n : Z)
| JStr (s : string)
| JArr (items : list value)
| JObj (items : list (string * value)).

(** An exception: its class and what [str(e)] gives. *)
Record exn : Type := Exn { exn_class : string; exn_str : string }.

Inductive result (A : Type) : Type :=
| Ok (a : A)
| Raised (e : exn).
Arguments Ok {A} a.
Arguments Raised {A} e.

Definition TypeError (msg : string) : exn := Exn "TypeError" msg.
Definition KeyError (key : string) : exn := Exn "KeyError" ("'" ++ key ++ "'").

(** [needle in haystack] on two [str]: substring test. *)
Fixpoint is_substring (needle hay : string) : bool :=
  prefix needle hay ||
  match hay with
  | EmptyString => false
  | String _ rest => is_substring needle rest
  end.

Fixpoint assoc {A : Type} (key : string) (items : list (string * A)) : option A :=
  match items with
  | [] => None
  | (k, v) :: rest => if k =? key then Some v else assoc key rest
  end.

Definition has_key {A : Type} (key : string) (items : list (string * A)) : bool :=
  match assoc key items with Some _ => true | None => false end.

Definition type_name (v : value) : string :=
  match v with
  | JNull => "NoneType"
  | JBool _ => "bool"
  | JNum _ => "int"
  | JStr _ => "str"
  | JArr _ => "list"
  | JObj _ => "dict"
  end.

(** [field in data], for [field] a [str]. *)
Definition contains (field : string) (data : value) : result bool :=
  match data with
  | JObj items => Ok (has_key field items)
  | JArr items =>
      Ok (existsb (fun x => match x with JStr s => s =? field | _ => false end) items)
  | JStr s => Ok (is_substring field s)
  | _ => Raised (TypeError ("argument of type '" ++ type_name data ++ "' is not iterable"))
  end.

(** [all(field in data for field in fields)]: stops at the first
    [False], and at the first exception. *)
Fixpoint all_in (fields : list string) (data : value) : result bool :=
  match fields with
  | [] => Ok true
  | f :: fs =>
      match contains f data with
      | Raised e => Raised e
      | Ok false => Ok false
      | Ok true => all_in fs data
      end
  end.

(** [data[key]], for [key] a [str]. *)
Definition getitem (data : value) (key : string) : result value :=
  match data with
  | JObj items =>
      match assoc key items with
      | Some v => Ok v
      | None => Raised (KeyError key)
      end
  | JArr _ => Raised (TypeError "list indices must be integers or slices, not str")
  | JStr _ => Raised (TypeError "string indices must be integers, not 'str'")
  | _ => Raised (TypeError ("'" ++ type_name data ++ "' object is not subscriptable"))
  end.

(** The values Python can hash, hence look up in a [dict]. *)
Inductive scalar : Type :=
| SNone
| SBool (b : bool)
| SNum (n : Z)
| SStr (s : string).

Definition hash (v : value) : result scalar :=
  match v with
  | JNull => Ok SNone
  | JBool b => Ok (SBool b)
  | JNum n => Ok (SNum n)
  | JStr s => Ok (SStr s)
  | JArr _ | JObj _ => Raised (TypeError ("unhashable type: '" ++ type_name v ++ "'"))
  end.

(** [str(v)], as an f-string formats it. *)
Definition str (v : scalar) : string :=
  match v with
  | SNone => "None"
  | SBool true => "True"
  | SBool false => "False"
  | SNum n => NilZero.string_of_int (Z.to_int n)
  | SStr s => s
  end.

(** A component handed to [os.path.join]: only a [str] is a path, any
    other JSON value makes [join] raise. *)
Definition fspath (v : value) : result string :=
  match v with
  | JStr s => Ok s
  | _ => Raised (TypeError ("join() argument must be str, bytes, or os.PathLike object, not '"
                             ++ type_name v ++ "'"))
  end.

(** *** Floats

    A Python float is a binary64.  It is given here by a rational: the
    value of the float, or the decimal literal that denotes it. *)

(** [n / d] rounded to the nearest integer, halves to the even one
    ([0 <= n], [0 < d]). *)
Definition round_half_even (n d : Z) : Z :=
  let q := (n / d)%Z in
  let r := (n mod d)%Z in
  if (2 * r <? d)%Z then q
  else if (d <? 2 * r)%Z then (q + 1)%Z
  else if Z.even q then q else (q + 1)%Z.

(** [n / d * 2 ^ (- e)] as a fraction. *)
Definition scaled2 (n d e : Z) : Z * Z :=
  if (0 <=? e)%Z then (n, d * 2 ^ e)%Z else (n * 2 ^ (- e), d)%Z.

Definition scaled10 (n d e : Z) : Z * Z :=
  if (0 <=? e)%Z then (n, d * 10 ^ e)%Z else (n * 10 ^ (- e), d)%Z.

(** The binary64 nearest to [n / d] ([0 < n], [0 < d]), halves to the
    even mantissa: [(m, e)] stands for [m * 2 ^ e], with
    [2 ^ 52 <= m < 2 ^ 53], or [m < 2 ^ 52] and [e = -1074] for a
    subnormal; [None] is the overflow to infinity. *)
Definition binary64 (n d : Z) : option (Z * Z) :=
  let l0 := (Z.log2 n - Z.log2 d)%Z in
  let '(n0, d0) := scaled2 n d l0 in
  let l := if (n0 <? d0)%Z then (l0 - 1)%Z else l0 in
  let e := Z.max (l - 52) (-1074) in
  let '(n1, d1) := scaled2 n d e in
  let m := round_half_even n1 d1 in
  let '(m, e) := if (m =? 2 ^ 53)%Z then (2 ^ 52, e + 1)%Z else (m, e) in
  if (971 <? e)%Z then None else Some (m, e).

(** The number of decimal digits of [z] ([0 < z]). *)
Fixpoint digits10 (fuel : nat) (z : Z) : Z :=
  match fuel with
  | O => 1
  | S fuel' => if (z <? 10)%Z then 1 else (1 + digits10 fuel' (z / 10))%Z
  end.

Definition ndigits (z : Z) : Z := digits10 (Z.to_nat (Z.log2 z)) z.

(** [floor (log10 (n / d))] ([0 < n], [0 < d]). *)
Definition ilog10 (n d : Z) : Z :=
  if (d <=? n)%Z then (ndigits (n / d) - 1)%Z
  else
    let j := (ndigits (d / n) - 1)%Z in
    if (d =? n * 10 ^ j)%Z then (- j)%Z else (- (j + 1))%Z.

Fixpoint strip_zeros (fuel : nat) (c : Z) : Z :=
  match fuel with
  | O => c
  | S fuel' => if (c mod 10 =? 0)%Z then strip_zeros fuel' (c / 10)%Z else c
  end.

(** The shortest decimal that reads back as the binary64 [x = m * 2 ^ e]:
    its digits, as an integer without trailing zeros, and the position
    of the decimal point ([0.digits * 10 ^ decpt]).  With [count]
    digits there are two candidates, the decimals next to the value of
    [x] below and above; the nearer one that reads back as [x] wins. *)
Fixpoint shortest (fuel : nat) (count : Z) (n d : Z) (x : option (Z * Z)) (k : Z)
  : Z * Z :=
  let u := (k - count + 1)%Z in
  let '(n1, d1) := scaled10 n d u in
  let lo := (n1 / d1)%Z in
  let hi := (lo + 1)%Z in
  let back c :=
    let '(cn, cd) := scaled10 c 1 (- u) in
    match binary64 cn cd, x with
    | Some a, Some b => (fst a =? fst b)%Z && (snd a =? snd b)%Z
    | _, _ => false
    end in
  let r2 := (2 * (n1 mod d1))%Z in
  let pick c := (strip_zeros 20 c, (ndigits c + u)%Z) in
  let lo_ok := (0 <? lo)%Z && back lo in
  let hi_ok := back hi in
  let lo_nearer := (r2 <? d1)%Z || ((r2 =? d1)%Z && Z.even lo) in
  match fuel with
  | O => pick lo
  | S fuel' =>
      if lo_ok && hi_ok then (if lo_nearer then pick lo else pick hi)
      else if lo_ok then pick lo
      else if hi_ok then pick hi
      else shortest fuel' (count + 1)%Z n d x k
  end.

Definition zeros (n : Z) : string :=
  string_of_list_ascii (repeat "0"%char (Z.to_nat n)).

Definition digit_string (z : Z) : string := NilZero.string_of_int (Z.to_int z).

(** [repr] of a positive binary64, given by its shortest decimal: the
    exponent form for [decpt <= -4] and [16 < decpt], the positional one
    otherwise, with [.0] added to a whole number. *)
Definition format_short (digits decpt : Z) : string :=
  let ds := digit_string digits in
  let len := Z.of_nat (String.length ds) in
  if (decpt <=? -4)%Z || (16 <? decpt)%Z then
    let ex := (decpt - 1)%Z in
    let mant :=
      match ds with
      | String c EmptyString => ds
      | String c rest => String c ("." ++ rest)
      | EmptyString => ds
      end in
    let ea := digit_string (Z.abs ex) in
    mant ++ "e" ++ (if (ex <? 0)%Z then "-" else "+")
      ++ (if (String.length ea <? 2)%nat then "0" ++ ea else ea)
  else if (decpt <=? 0)%Z then "0." ++ zeros (- decpt) ++ ds
  else if (len <=? decpt)%Z then ds ++ zeros (decpt - len) ++ ".0"
  else substring 0 (Z.to_nat decpt) ds ++ "."
       ++ substring (Z.to_nat decpt) (Z.to_nat (len - decpt)) ds.

(** [str(x)], as an f-string formats it, for the float [x] nearest to
    the rational [q] (a float is itself a rational, and a decimal literal
    denotes the float nearest to it): [repr]'s shortest decimal that
    reads back as [x]. *)
Definition float_str (q : Q) : string :=
  let n := Z.abs (Qnum q) in
  let d := Zpos (Qden q) in
  let sign := if (Qnum q <? 0)%Z then "-" else "" in
  if (n =? 0)%Z then "0.0" else
  match binary64 n d with
  | None => sign ++ "inf"
  | Some (m, e) =>
      if (m =? 0)%Z then sign ++ "0.0" else
      let '(xn, xd) := scaled2 m 1 (- e) in
      let '(digits, decpt) := shortest 17 1 xn xd (Some (m, e)) (ilog10 xn xd) in
      sign ++ format_short digits decpt
  end.

End Py.

(* ================================================================== *)
(** ** posixpath                                                        *)
(* ================================================================== *)

Module PosixPath.

Definition sep : ascii := "/"%char.

Definition starts_with_sep (s : string) : bool :=
  match s with
  | String c _ => Ascii.eqb c sep
  | EmptyString => false
  end.

Fixpoint ends_with_sep (s : string) : bool :=
  match s with
  | EmptyString => false
  | String c EmptyString => Ascii.eqb c sep
  | String _ rest => ends_with_sep rest
  end.

(** One turn of the loop of [posixpath.join]: an absolute component
    restarts the path, otherwise it is appended after one separator. *)
Definition join_step (path b : string) : string :=
  if starts_with_sep b then b
  else if (path =? "") || ends_with_sep path then path ++ b
  else path ++ "/" ++ b.

(** [os.path.join(a, *p)] on [str] arguments. *)
Definition join (a : string) (p : list string) : string :=
  fold_left join_step p a.

(** The components of a path, cut at every separator. *)
Fixpoint split (s : string) : list string :=
  match s with
  | EmptyString => [""]
  | String c rest =>
      if Ascii.eqb c sep then "" :: split rest
      else match split rest with
           | [] => [String c ""]
           | h :: t => String c h :: t
           end
  end.

(** How the kernel walks an absolute path (no symbolic links): empty
    components and "." stay in place, ".." steps back to the parent.
    The directory reached is given by its components from the root. *)
Fixpoint walk (rev_dir : list string) (comps : list string) : list string :=
  match comps with
  | [] => rev rev_dir
  | c :: rest =>
      if (c =? "") || (c =? ".") then walk rev_dir rest
      else if c =? ".." then walk (tl rev_dir) rest
      else walk (c :: rev_dir) rest
  end.

Definition resolve (path : string) : list string := walk [] (split path).

(** [is_prefix p q]: the location [p] is [q] or one of its ancestors. *)
Fixpoint is_prefix (p q : list string) : bool :=
  match p, q with
  | [], _ => true
  | x :: p', y :: q' => (x =? y) && is_prefix p' q'
  | _ :: _, [] => false
  end.

(** Two locations overlap when one lies inside (or is) the other. *)
Definition overlap (p q : string) : bool :=
  is_prefix (resolve p) (resolve q) || is_prefix (resolve q) (resolve p).

Fixpoint has_sep (s : string) : bool :=
  match s with
  | EmptyString => false
  | String c rest => Ascii.eqb c sep || has_sep rest
  end.

(** A plain name: one component of a path, and not the directory
    itself. *)
Definition plain (s : string) : bool :=
  negb (has_sep s) && negb (s =? "") && negb (s =? ".").

End PosixPath.

(* ================================================================== *)
(** ** Calls to the outside world, and programs over them               *)
(* ================================================================== *)

Module OS.
Import Py.

(** What [requests.get(url, timeout=..., stream=True)] hands back: the
    status line, then the body as [iter_content] will deliver it, chunk
    by chunk, possibly broken off by an error. *)
Record response : Type := Response {
  status_code : Z;
  chunks : list string;
  broken : option exn
}.

(** What [subprocess.run(..., capture_output=True, text=True)] returns. *)
Record completed : Type := Completed {
  returncode : Z;
  stdout : string;
  stderr : string
}.

(** One call, indexed by the type of its answer. *)
Inductive call : Type -> Type :=
| Makedirs (path : string) : call (result unit)
    (* os.makedirs(path, exist_ok=True) *)
| RequestsGet (url : value) (timeout : Z) : call (result response)
| OpenWb (path : string) : call (result unit)
| FileWrite (path : string) (chunk : string) : call (result unit)
| FileClose (path : string) : call (result unit)
| SubprocessRun (cmd : list string) (timeout : Z) : call (result completed)
| PathExists (path : string) : call bool
| PathGetsize (path : string) : call (result N)
| Rmtree (path : string) : call (result unit)
| Now : call string.
    (* datetime.now().isoformat() *)

Inductive prog (A : Type) : Type :=
| Ret (a : A)
| Vis (X : Type) (c : call X) (k : X -> prog A).
Arguments Ret {A} a.
Arguments Vis {A X} c k.

Fixpoint bind {A B : Type} (p : prog A) (f : A -> prog B) : prog B :=
  match p with
  | Ret a => f a
  | Vis c k => Vis c (fun x => bind (k x) f)
  end.

(** Programs that may raise. *)
Definition py (A : Type) : Type := prog (result A).

Definition ret {A : Type} (a : A) : py A := Ret (Ok a).
Definition raise {A : Type} (e : exn) : py A := Ret (Raised e).

Definition pbind {A B : Type} (p : py A) (f : A -> py B) : py B :=
  bind p (fun r => match r with Ok a => f a | Raised e => Ret (Raised e) end).

(** A call that may raise, and one that cannot. *)
Definition perform {X : Type} (c : call (result X)) : py X := Vis c Ret.
Definition ask {X : Type} (c : call X) : py X := Vis c (fun x => Ret (Ok x)).

(** A pure computation that may raise. *)
Definition lift {A : Type} (r : result A) : py A := Ret r.

(** [try: body / except Exception as e: on_error e]. *)
Definition try_except {A : Type} (body : py A) (on_error : exn -> prog A) : prog A :=
  bind body (fun r => match r with Ok a => Ret a | Raised e => on_error e end).

(** [try: body / finally: cleanup]: the cleanup runs on both exits, and
    an exception of its own replaces the outcome of the body. *)
Definition try_finally {A : Type} (body : py A) (cleanup : py unit) : py A :=
  bind body (fun r =>
    bind cleanup (fun c =>
      match c with
      | Raised e => Ret (Raised e)
      | Ok _ => Ret r
      end)).

(** An entry of the trace: a call and the answer it received. *)
Inductive event : Type :=
| Event (X : Type) (c : call X) (answer : X).
Arguments Event {X} c answer.

(** An environment: a state and the answer it gives to each call. *)
Definition handler (W : Type) : Type := forall X : Type, call X -> W -> X * W.

Fixpoint interp {W A : Type} (h : handler W) (p : prog A) (w : W)
  : A * W * list event :=
  match p with
  | Ret a => (a, w, [])
  | Vis c k =>
      let '(x, w1) := h _ c w in
      let '(a, w2, tr) := interp h (k x) w1 in
      (a, w2, Event c x :: tr)
  end.

Definition outcome {W A : Type} (h : handler W) (p : prog A) (w : W) : A :=
  fst (fst (interp h p w)).
Definition trace {W A : Type} (h : handler W) (p : prog A) (w : W) : list event :=
  snd (interp h p w).

End OS.

Declare Scope py_scope.
Delimit Scope py_scope with py.
Notation "x <- c ;; k" := (OS.pbind c (fun x => k))
  (at level 61, c at next level, right associativity) : py_scope.
Notation "c ;;; k" := (OS.pbind c (fun _ => k))
  (at level 61, right associativity) : py_scope.

(* ================================================================== *)
(** ** src/app.py                                                       *)
(* ================================================================== *)

Module App.
Import Py OS.
Local Open Scope py_scope.

Definition UPLOAD_FOLDER : string := "/tmp/downloads".
Definition TEMP_FOLDER : string := "/tmp/n8n_video_processing".

(** An entry of [VARIANTS].  The speed is the exact value of the decimal
    literal of the source; Python rounds it to the nearest binary64, and
    that rounding keeps the order of the literals. *)
Record variant : Type := Variant {
  voice_id : string;
  speed : Q;
  filter : string
}.

Definition VARIANTS : list (string * variant) :=
  [ ("pablo",   Variant "OhisAd2u8Q6qSA4xXAAT" 1.00 "none");
    ("josh",    Variant "Rsz5u2Huh1hPlPr0oxRQ" 1.01 "eq=contrast=1.02");
    ("michael", Variant "dfpTJ8gngbfXIon7bId3" 0.99 "eq=saturation=1.015");
    ("ryan",    Variant "4e32WqNVWRquDa1OcRYZ" 1.02 "unsharp=5:5:1.5");
    ("brad",    Variant "f5HLTX707KIM4SzJYzSz" 0.98 "eq=gamma=1.01") ].

(** [VARIANTS[name]]. *)
Definition VARIANTS_getitem (name : string) : result variant :=
  match assoc name VARIANTS with
  | Some v => Ok v
  | None => Raised (KeyError name)
  end.

(** [key in VARIANTS], the key already hashed. *)
Definition in_VARIANTS (key : scalar) : bool :=
  match key with
  | SStr s => has_key s VARIANTS
  | _ => false
  end.

(** A program that cannot raise, run where one that may is expected. *)
Definition total {A : Type} (p : prog A) : py A := bind p (fun a => Ret (Ok a)).

(** [response.raise_for_status()]: an [HTTPError] for a 4xx or 5xx
    status. *)
Definition is_error_status (code : Z) : bool := (400 <=? code)%Z && (code <? 600)%Z.

Definition raise_for_status (r : response) : py unit :=
  if is_error_status (status_code r)
  then raise (Exn "HTTPError" (NilZero.string_of_int (Z.to_int (status_code r)) ++ " Error"))
  else ret tt.

(** [for chunk in response.iter_content(chunk_size=8192): f.write(chunk)] *)
Fixpoint write_chunks (path : string) (cs : list string) : py unit :=
  match cs with
  | [] => ret tt
  | c :: rest => perform (FileWrite path c) ;;; write_chunks path rest
  end.

Definition end_of_body (r : response) : py unit :=
  match broken r with
  | Some e => raise e
  | None => ret tt
  end.

Definition download_file (url : value) (dest_path : string) : prog bool :=
  try_except
    (response <- perform (RequestsGet url 300) ;;
     raise_for_status response ;;;
     perform (OpenWb dest_path) ;;;
     try_finally
       (write_chunks dest_path (chunks response) ;;; end_of_body response)
       (perform (FileClose dest_path)) ;;;
     ret true)
    (fun _ => Ret false).

Definition adjust_audio_speed_cmd (audio_path : string) (speed : Q) (output_path : string)
  : list string :=
  [ "ffmpeg"; "-i"; audio_path;
    "-af"; "atempo=" ++ float_str speed;
    "-y"; output_path ].

Definition adjust_audio_speed (audio_path : string) (speed : Q) (output_path : string)
  : prog bool :=
  try_except
    (result <- perform (SubprocessRun (adjust_audio_speed_cmd audio_path speed output_path) 300) ;;
     if negb (returncode result =? 0)%Z then ret false else ret true)
    (fun _ => Ret false).

Definition apply_video_filter_cmd (video_path filter_spec output_path : string)
  : list string :=
  if filter_spec =? "none" then
    [ "ffmpeg"; "-i"; video_path;
      "-c:v"; "libx264"; "-crf"; "23"; "-preset"; "fast";
      "-y"; output_path ]
  else
    [ "ffmpeg"; "-i"; video_path;
      "-vf"; filter_spec;
      "-c:v"; "libx264"; "-crf"; "23"; "-preset"; "fast";
      "-y"; output_path ].

Definition apply_video_filter (video_path filter_spec output_path : string) : prog bool :=
  try_except
    (result <- perform (SubprocessRun (apply_video_filter_cmd video_path filter_spec output_path) 600) ;;
     if negb (returncode result =? 0)%Z then ret false else ret true)
    (fun _ => Ret false).

Definition merge_audio_video_cmd (video_path audio_path output_path : string)
  : list string :=
  [ "ffmpeg";
    "-i"; video_path;
    "-i"; audio_path;
    "-c:v"; "copy";
    "-c:a"; "aac";
    "-map"; "0:v:0";
    "-map"; "1:a:0";
    "-shortest";
    "-y"; output_path ].

Definition merge_audio_video (video_path audio_path output_path : string) : prog bool :=
  try_except
    (result <- perform (SubprocessRun (merge_audio_video_cmd video_path audio_path output_path) 600) ;;
     if negb (returncode result =? 0)%Z then ret false else ret true)
    (fun _ => Ret false).

(** The Flask request, as far as the handler reads it: [request.json]
    (which raises on a body that is not JSON) and [request.host]. *)
Record request : Type := Request {
  json : result value;
  host : string
}.

(** What [jsonify] is given. *)
Inductive body : Type :=
| ErrorBody (error : string)
| SuccessBody (status variant output_file download_url : string)
              (file_size : N) (timestamp : string).

Definition http_response : Type := (body * Z)%type.

Definition required_fields : list string :=
  [ "video_url"; "audio_url"; "variant_name"; "workflow_id" ].

Definition work_dir_of (workflow_id variant_name : string) : string :=
  PosixPath.join TEMP_FOLDER [workflow_id; variant_name].

Definition output_filename_of (workflow_id variant_name : string) : string :=
  workflow_id ++ "_" ++ variant_name ++ ".mp4".

Definition output_file_of (workflow_id variant_name : string) : string :=
  PosixPath.join UPLOAD_FOLDER [output_filename_of workflow_id variant_name].

(** The body of the [try] of [process_variant].  [variant_name not in
    VARIANTS] hashes the key before it looks it up; [os.path.join] takes
    only [str] components. *)
Definition process_variant_try (request : request) : py http_response :=
  data <- lift (json request) ;;
  present <- lift (all_in required_fields data) ;;
  if negb present then ret (ErrorBody "Missing required fields", 400%Z) else
  video_url <- lift (getitem data "video_url") ;;
  audio_url <- lift (getitem data "audio_url") ;;
  variant_name <- lift (getitem data "variant_name") ;;
  workflow_id <- lift (getitem data "workflow_id") ;;
  key <- lift (hash variant_name) ;;
  if negb (in_VARIANTS key)
  then ret (ErrorBody ("Unknown variant: " ++ str key), 400%Z) else
  workflow_id <- lift (fspath workflow_id) ;;
  variant_name <- lift (fspath variant_name) ;;
  let work_dir := work_dir_of workflow_id variant_name in
  perform (Makedirs work_dir) ;;;
  let video_file := PosixPath.join work_dir ["source_video.mp4"] in
  let audio_file := PosixPath.join work_dir ["source_audio.mp3"] in
  let audio_speed_file := PosixPath.join work_dir ["audio_speed.mp3"] in
  let video_filtered_file := PosixPath.join work_dir ["video_filtered.mp4"] in
  let output_filename := output_filename_of workflow_id variant_name in
  let output_file := output_file_of workflow_id variant_name in
  ok <- total (download_file video_url video_file) ;;
  if negb ok then ret (ErrorBody "Failed to download video", 400%Z) else
  ok <- total (download_file audio_url audio_file) ;;
  if negb ok then ret (ErrorBody "Failed to download audio", 400%Z) else
  variant_config <- lift (VARIANTS_getitem variant_name) ;;
  let speed := speed variant_config in
  let filter_spec := filter variant_config in
  ok <- total (adjust_audio_speed audio_file speed audio_speed_file) ;;
  if negb ok then ret (ErrorBody "Failed to adjust audio speed", 400%Z) else
  ok <- total (apply_video_filter video_file filter_spec video_filtered_file) ;;
  if negb ok then ret (ErrorBody "Failed to apply video filter", 400%Z) else
  ok <- total (merge_audio_video video_filtered_file audio_speed_file output_file) ;;
  if negb ok then ret (ErrorBody "Failed to merge audio and video", 400%Z) else
  found <- ask (PathExists output_file) ;;
  if negb found then ret (ErrorBody "Output file not created", 400%Z) else
  file_size <- perform (PathGetsize output_file) ;;
  let download_url := "https://" ++ host request ++ "/download/" ++ output_filename in
  total (try_except (perform (Rmtree work_dir)) (fun _ => Ret tt)) ;;;
  timestamp <- ask Now ;;
  ret (SuccessBody "success" variant_name output_file download_url file_size timestamp,
       200%Z).

Definition process_variant (request : request) : prog http_response :=
  try_except (process_variant_try request)
             (fun e => Ret (ErrorBody (exn_str e), 500%Z)).

End App.

(* ================================================================== *)
(** ** Reading a trace                                                  *)
(* ================================================================== *)

Module Trace.
Import Py OS.

Definition raised {A : Type} (r : result A) : bool :=
  match r with Raised _ => true | Ok _ => false end.

(** The calls [download_file] makes. *)
Definition is_fetch (ev : event) : bool :=
  match ev with
  | Event c _ =>
      match c with
      | RequestsGet _ _ | OpenWb _ | FileWrite _ _ | FileClose _ => true
      | _ => false
      end
  end.

(** The answers that make a fetch fail: [requests.get] raises (no
    connection, timeout, bad URL), the status is an error status, the
    body breaks off, or the destination cannot be opened, written or
    closed. *)
Definition fetch_failed (ev : event) : bool :=
  match ev with
  | Event c x =>
      match c in call X return X -> bool with
      | RequestsGet _ _ => fun r =>
          match r with
          | Raised _ => true
          | Ok resp =>
              App.is_error_status (status_code resp)
              || match broken resp with Some _ => true | None => false end
          end
      | OpenWb _ => fun r => raised r
      | FileWrite _ _ => fun r => raised r
      | FileClose _ => fun r => raised r
      | _ => fun _ => false
      end x
  end.

(** The entries of a trace that [pick] selects, in order. *)
Fixpoint collect {A : Type} (pick : event -> option A) (tr : list event) : list A :=
  match tr with
  | [] => []
  | ev :: rest =>
      match pick ev with
      | Some a => a :: collect pick rest
      | None => collect pick rest
      end
  end.

Definition pick_url (ev : event) : option value :=
  match ev with
  | Event c _ => match c with RequestsGet url _ => Some url | _ => None end
  end.

Definition pick_run (ev : event) : option (list string * Z * result completed) :=
  match ev with
  | Event c x =>
      match c in call X return X -> option (list string * Z * result completed) with
      | SubprocessRun cmd t => fun a => Some (cmd, t, a)
      | _ => fun _ => None
      end x
  end.

Definition pick_created (ev : event) : option string :=
  match ev with
  | Event c _ => match c with Makedirs p => Some p | _ => None end
  end.

Definition pick_removed (ev : event) : option string :=
  match ev with
  | Event c _ => match c with Rmtree p => Some p | _ => None end
  end.

Definition pick_exists (ev : event) : option (string * bool) :=
  match ev with
  | Event c x =>
      match c in call X return X -> option (string * bool) with
      | PathExists p => fun a => Some (p, a)
      | _ => fun _ => None
      end x
  end.

Definition pick_getsize (ev : event) : option (string * result N) :=
  match ev with
  | Event c x =>
      match c in call X return X -> option (string * result N) with
      | PathGetsize p => fun a => Some (p, a)
      | _ => fun _ => None
      end x
  end.

(** The URLs fetched, in order. *)
Definition urls : list event -> list value := collect pick_url.

(** The commands spawned, with their timeouts and what came back. *)
Definition runs : list event -> list (list string * Z * result completed) :=
  collect pick_run.

(** The directories created and the trees removed. *)
Definition created : list event -> list string := collect pick_created.
Definition removed : list event -> list string := collect pick_removed.

(** The paths probed with [os.path.exists] and [os.path.getsize], with
    the answers. *)
Definition probes : list event -> list (string * bool) := collect pick_exists.
Definition sizes : list event -> list (string * result N) := collect pick_getsize.

(** The stage of the handler a call belongs to. *)
Definition stage (ev : event) : nat :=
  match ev with
  | Event c _ =>
      match c with
      | Makedirs _ => 0
      | RequestsGet _ _ | OpenWb _ | FileWrite _ _ | FileClose _ => 1
      | SubprocessRun _ _ => 2
      | PathExists _ => 3
      | PathGetsize _ => 4
      | Rmtree _ => 5
      | Now => 6
      end
  end.

(** No call of the trace belongs to an earlier stage than the call
    before it ([lo] bounds the first one). *)
Fixpoint ordered_from (lo : nat) (tr : list event) : bool :=
  match tr with
  | [] => true
  | ev :: rest => (lo <=? stage ev)%nat && ordered_from (stage ev) rest
  end.

Definition ordered (tr : list event) : bool := ordered_from 0 tr.

(** Whether [subprocess.run] came back with exit status 0. *)
Definition exited_zero (r : result completed) : bool :=
  match r with
  | Ok c => (returncode c =? 0)%Z
  | Raised _ => false
  end.

(** Some stage of the pipeline reported a failure: a fetch failed, a
    spawned command did not exit with status 0 (or never came back), or
    a probed path is missing. *)
Definition stage_failed (tr : list event) : bool :=
  existsb fetch_failed tr
  || existsb (fun r => negb (exited_zero (snd r))) (runs tr)
  || existsb (fun p => negb (snd p)) (probes tr).

(** An exception no stage check catches: the workspace could not be
    created, or the size of the output could not be read. *)
Definition call_raised (ev : event) : bool :=
  match ev with
  | Event c x =>
      match c in call X return X -> bool with
      | Makedirs _ => fun r => raised r
      | PathGetsize _ => fun r => raised r
      | _ => fun _ => false
      end x
  end.

Definition crashed (tr : list event) : bool := existsb call_raised tr.

(** An environment whose files take every write: opening, writing and
    closing a destination never fail. *)
Definition accepts_writes {W : Type} (h : handler W) : Prop :=
  forall w : W,
    (forall path, fst (h _ (OpenWb path) w) = Ok tt)
    /\ (forall path chunk, fst (h _ (FileWrite path chunk) w) = Ok tt)
    /\ (forall path, fst (h _ (FileClose path) w) = Ok tt).

End Trace.

(* ================================================================== *)
(** ** A small simulated machine, for running the handler on examples   *)
(* ================================================================== *)

Module Sim.
Import Py OS.

Inductive node : Type :=
| Dir
| File (size : N).

(** The paths that exist, most recent binding first. *)
Definition disk : Type := list (string * node).

Definition lookup (path : string) (d : disk) : option node := assoc path d.

(** [path] is [root] or lies below it. *)
Definition below (root path : string) : bool :=
  (path =? root) || prefix (root ++ "/") path.

(** The rest of the world: what each URL serves, and what each spawned
    command answers and writes. *)
Record world : Type := World {
  net : value -> result response;
  exec : list string -> result completed * list (string * N);
  clock : string
}.

Definition machine (env : world) : handler disk :=
  fun X c =>
    match c in call X return disk -> X * disk with
    | Makedirs path => fun d => (Ok tt, (path, Dir) :: d)
    | RequestsGet url _ => fun d => (net env url, d)
    | OpenWb path => fun d => (Ok tt, (path, File 0) :: d)
    | FileWrite path chunk => fun d =>
        match lookup path d with
        | Some (File n) =>
            (Ok tt, (path, File (n + N.of_nat (String.length chunk))) :: d)
        | _ => (Raised (Exn "OSError" "not a file"), d)
        end
    | FileClose _ => fun d => (Ok tt, d)
    | SubprocessRun cmd _ => fun d =>
        let '(answer, written) := exec env cmd in
        (answer, (map (fun pn => (fst pn, File (snd pn))) written ++ d)%list)
    | PathExists path => fun d =>
        (match lookup path d with Some _ => true | None => false end, d)
    | PathGetsize path => fun d =>
        match lookup path d with
        | Some (File n) => (Ok n, d)
        | Some Dir => (Ok 4096%N, d)
        | None => (Raised (Exn "FileNotFoundError" path), d)
        end
    | Rmtree path => fun d =>
        (Ok tt, filter (fun pn => negb (below path (fst pn))) d)
    | Now => fun d => (clock env, d)
    end.

(** ffmpeg as it should behave: exit status 0 and an output of [size]
    bytes at the last argument of the command. *)
Definition ffmpeg_writes (size : N) (cmd : list string)
  : result completed * list (string * N) :=
  (Ok (Completed 0 "" ""), [(last cmd "", size)]).

(** ffmpeg failing on the commands that carry [flag]: exit status 1
    and no output; or never coming back within the timeout. *)
Definition ffmpeg_rejects (flag : string) (size : N) (cmd : list string)
  : result completed * list (string * N) :=
  if existsb (String.eqb flag) cmd
  then (Ok (Completed 1 "" "Conversion failed!"), [])
  else ffmpeg_writes size cmd.

Definition ffmpeg_hangs (flag : string) (size : N) (cmd : list string)
  : result completed * list (string * N) :=
  if existsb (String.eqb flag) cmd
  then (Raised (Exn "TimeoutExpired" "Command timed out"), [])
  else ffmpeg_writes size cmd.

Definition serves (body : list string) (_ : value) : result response :=
  Ok (Response 200 body None).

Definition unreachable (_ : value) : result response :=
  Raised (Exn "ConnectionError" "Failed to establish a new connection").

Definition answers_status (code : Z) (_ : value) : result response :=
  Ok (Response code ["<html>error</html>"] None).

(** A machine without a disk: every file operation succeeds and nothing
    is kept; the network and the commands answer as on [machine]. *)
Definition sink (env : world) : handler unit :=
  fun X c =>
    match c in call X return unit -> X * unit with
    | Makedirs _ => fun u => (Ok tt, u)
    | RequestsGet url _ => fun u => (net env url, u)
    | OpenWb _ => fun u => (Ok tt, u)
    | FileWrite _ _ => fun u => (Ok tt, u)
    | FileClose _ => fun u => (Ok tt, u)
    | SubprocessRun cmd _ => fun u => (fst (exec env cmd), u)
    | PathExists _ => fun u => (true, u)
    | PathGetsize _ => fun u => (Ok 0%N, u)
    | Rmtree _ => fun u => (Ok tt, u)
    | Now => fun u => (clock env, u)
    end.

Definition merge_request (video_url audio_url variant_name workflow_id : value)
  : App.request :=
  App.Request
    (Ok (JObj [ ("video_url", video_url); ("audio_url", audio_url);
                ("variant_name", variant_name); ("workflow_id", workflow_id) ]))
    "worker.example".

End Sim.

(* ================================================================== *)
(** ** The exits of the pipeline                                        *)
(* ================================================================== *)

Module Pipeline.
Import Py OS App Trace.

(** A request the validation lets through: a JSON object holding the
    four fields, with a catalog key as variant name and a [str] as
    workflow id. *)
Definition accepted (req : request) (video_url audio_url : value)
           (workflow_id variant_name : string) : Prop :=
  exists items,
    json req = Ok (JObj items)
    /\ assoc "video_url" items = Some video_url
    /\ assoc "audio_url" items = Some audio_url
    /\ assoc "variant_name" items = Some (JStr variant_name)
    /\ assoc "workflow_id" items = Some (JStr workflow_id)
    /\ has_key variant_name VARIANTS = true.

(** A run of [download_file]: it requests the URL, once, makes only
    calls of its own kind, and succeeds exactly when none of them
    fails. *)
Definition fetch_run (url : value) (ok : bool) (tr : list event) : Prop :=
  urls tr = [url]
  /\ forallb is_fetch tr = true
  /\ existsb fetch_failed tr = negb ok.

Section Job.
Variables (host_name : string) (video_url audio_url : value).
Variables (workflow_id variant_name : string) (config : variant).

Definition work_dir : string := work_dir_of workflow_id variant_name.
Definition video_file : string := PosixPath.join work_dir ["source_video.mp4"].
Definition audio_file : string := PosixPath.join work_dir ["source_audio.mp3"].
Definition audio_speed_file : string := PosixPath.join work_dir ["audio_speed.mp3"].
Definition video_filtered_file : string :=
  PosixPath.join work_dir ["video_filtered.mp4"].
Definition output_file : string := output_file_of workflow_id variant_name.

Definition adjust_event (a : result completed) : event :=
  Event (SubprocessRun
           (adjust_audio_speed_cmd audio_file (speed config) audio_speed_file) 300) a.
Definition filter_event (a : result completed) : event :=
  Event (SubprocessRun
           (apply_video_filter_cmd video_file (filter config) video_filtered_file) 600) a.
Definition merge_event (a : result completed) : event :=
  Event (SubprocessRun
           (merge_audio_video_cmd video_filtered_file audio_speed_file output_file) 600) a.

(** The workspace is there and both assets have been fetched; [rest]
    is what follows. *)
Definition fetched (tv ta rest : list event) : list event :=
  (Event (Makedirs work_dir) (Ok tt) :: tv ++ ta ++ rest)%list.

(** The nine ways out of the handler once the request is accepted,
    each with the trace that leads to it. *)
Inductive job_run : result http_response -> list event -> Prop :=
| run_makedirs_raised e :
    job_run (Raised e) [Event (Makedirs work_dir) (Raised e)]
| run_video_failed tv :
    fetch_run video_url false tv ->
    job_run (Ok (ErrorBody "Failed to download video", 400%Z))
            (Event (Makedirs work_dir) (Ok tt) :: tv)
| run_audio_failed tv ta :
    fetch_run video_url true tv ->
    fetch_run audio_url false ta ->
    job_run (Ok (ErrorBody "Failed to download audio", 400%Z))
            (fetched tv ta [])
| run_adjust_failed tv ta a1 :
    fetch_run video_url true tv ->
    fetch_run audio_url true ta ->
    exited_zero a1 = false ->
    job_run (Ok (ErrorBody "Failed to adjust audio speed", 400%Z))
            (fetched tv ta [adjust_event a1])
| run_filter_failed tv ta a1 a2 :
    fetch_run video_url true tv ->
    fetch_run audio_url true ta ->
    exited_zero a1 = true ->
    exited_zero a2 = false ->
    job_run (Ok (ErrorBody "Failed to apply video filter", 400%Z))
            (fetched tv ta [adjust_event a1; filter_event a2])
| run_merge_failed tv ta a1 a2 a3 :
    fetch_run video_url true tv ->
    fetch_run audio_url true ta ->
    exited_zero a1 = true ->
    exited_zero a2 = true ->
    exited_zero a3 = false ->
    job_run (Ok (ErrorBody "Failed to merge audio and video", 400%Z))
            (fetched tv ta [adjust_event a1; filter_event a2; merge_event a3])
| run_output_missing tv ta a1 a2 a3 :
    fetch_run video_url true tv ->
    fetch_run audio_url true ta ->
    exited_zero a1 = true ->
    exited_zero a2 = true ->
    exited_zero a3 = true ->
    job_run (Ok (ErrorBody "Output file not created", 400%Z))
            (fetched tv ta
               [adjust_event a1; filter_event a2; merge_event a3;
                 Event (PathExists output_file) false])
| run_getsize_raised tv ta a1 a2 a3 e :
    fetch_run video_url true tv ->
    fetch_run audio_url true ta ->
    exited_zero a1 = true ->
    exited_zero a2 = true ->
    exited_zero a3 = true ->
    job_run (Raised e)
            (fetched tv ta
               [adjust_event a1; filter_event a2; merge_event a3;
                 Event (PathExists output_file) true;
                 Event (PathGetsize output_file) (Raised e)])
| run_success tv ta a1 a2 a3 size rm timestamp :
    fetch_run video_url true tv ->
    fetch_run audio_url true ta ->
    exited_zero a1 = true ->
    exited_zero a2 = true ->
    exited_zero a3 = true ->
    job_run (Ok (SuccessBody "success" variant_name output_file
                   ("https://" ++ host_name ++ "/download/"
                      ++ output_filename_of workflow_id variant_name)
                   size timestamp, 200%Z))
            (fetched tv ta
               [adjust_event a1; filter_event a2; merge_event a3;
                 Event (PathExists output_file) true;
                 Event (PathGetsize output_file) (Ok size);
                 Event (Rmtree work_dir) rm;
                 Event Now timestamp]).

End Job.

(** The messages of the failures the handler classifies. *)
Inductive failure_message : string -> Prop :=
| msg_missing_fields : failure_message "Missing required fields"
| msg_unknown_variant key : failure_message ("Unknown variant: " ++ str key)
| msg_download_video : failure_message "Failed to download video"
| msg_download_audio : failure_message "Failed to download audio"
| msg_adjust_speed : failure_message "Failed to adjust audio speed"
| msg_video_filter : failure_message "Failed to apply video filter"
| msg_merge : failure_message "Failed to merge audio and video"
| msg_output_missing : failure_message "Output file not created".

(** The ways out of the handler before it touches anything. *)
Inductive early_exit : result http_response -> Prop :=
| early_raised e : early_exit (Raised e)
| early_missing : early_exit (Ok (ErrorBody "Missing required fields", 400%Z))
| early_unknown key :
    in_VARIANTS key = false ->
    early_exit (Ok (ErrorBody ("Unknown variant: " ++ str key), 400%Z)).

(** A JSON value that names a variant of the catalog. *)
Definition catalog_key (v : value) : bool :=
  match v with
  | JStr s => has_key s VARIANTS
  | _ => false
  end.

(** What the catch-all of [process_variant] makes of an outcome. *)
Definition respond (r : result http_response) : http_response :=
  match r with
  | Ok resp => resp
  | Raised e => (ErrorBody (exn_str e), 500%Z)
  end.

End Pipeline.

(* ================================================================== *)
(** ** Example requests and environments                                *)
(* ================================================================== *)

Module Examples.
Import Py OS App.

(** Two environments to run examples in: one where both URLs serve a
    short body and ffmpeg writes a ten-byte output, one where no URL can
    be reached. *)
Definition healthy : Sim.world :=
  Sim.World (Sim.serves ["abc"; "de"]) (Sim.ffmpeg_writes 10) "2024-01-01T00:00:00".

Definition offline : Sim.world :=
  Sim.World Sim.unreachable (Sim.ffmpeg_writes 10) "2024-01-01T00:00:00".

(** A request for the variant josh, one for a variant the catalog does
    not have, and one whose variant name is a JSON array. *)
Definition josh_request : request :=
  Sim.merge_request (JStr "http://cdn/v.mp4") (JStr "http://cdn/a.mp3")
                    (JStr "josh") (JStr "wf1").

Definition nope_request : request :=
  Sim.merge_request (JStr "http://cdn/v.mp4") (JStr "http://cdn/a.mp3")
                    (JStr "nope") (JStr "wf1").

Definition list_variant_request : request :=
  Sim.merge_request (JStr "http://cdn/v.mp4") (JStr "http://cdn/a.mp3")
                    (JArr [JStr "josh"]) (JStr "wf1").

(** The keys of [VARIANTS]. *)
Definition catalog_names : list string := ["pablo"; "josh"; "michael"; "ryan"; "brad"].

End Examples.

(* ================================================================== *)
(** ** The other endpoints of src/app.py                                *)
(* ================================================================== *)

Module Endpoints.
Import Py OS App.
Local Open Scope py_scope.

(** What [health] hands to [jsonify]. *)
Record health_body : Type := HealthBody {
  health_status : string;
  ffmpeg_available : bool;
  health_timestamp : string
}.

(** [GET /health].  The bare [except:] turns any exception of
    [subprocess.run] into [ffmpeg_available = False]; a view that returns
    only a body is answered with status 200. *)
Definition health : prog (health_body * Z) :=
  bind (try_except
          (result <- perform (SubprocessRun ["ffmpeg"; "-version"] 5) ;;
           ret (returncode result =? 0)%Z)
          (fun _ => Ret false))
       (fun available =>
          bind (Vis Now Ret)
               (fun timestamp => Ret (HealthBody "ok" available timestamp, 200%Z))).

(** [GET /variants]: the keys of the table, and the table. *)
Definition get_variants : (list string * list (string * variant)) * Z :=
  ((map fst VARIANTS, VARIANTS), 200%Z).

(** What [download_file_endpoint] returns: the response [send_file] built,
    or an error body with its status. *)
Inductive download_reply (R : Type) : Type :=
| Attachment (r : R)
| DownloadError (error : string) (status : Z).
Arguments Attachment {R} r.
Arguments DownloadError {R} error status.

(** [GET /download/<filename>].  Flask's [send_file(path, as_attachment=True,
    download_name=name)] is taken as a parameter: it gives a response or
    raises. *)
Definition download_file_endpoint {R : Type}
           (send_file : string -> string -> result R) (filename : string)
  : prog (download_reply R) :=
  try_except
    (let file_path := PosixPath.join UPLOAD_FOLDER [filename] in
     found <- ask (PathExists file_path) ;;
     if found
     then (r <- lift (send_file file_path filename) ;; ret (Attachment r))
     else ret (DownloadError "File not found" 404%Z))
    (fun e => Ret (DownloadError (exn_str e) 500%Z)).

(** A name the route [/download/<filename>] hands over and that names an
    entry of a directory: no separator, not empty, neither "." nor "..". *)
Definition entry_name (s : string) : bool :=
  negb (PosixPath.has_sep s) && negb (s =? "") && negb (s =? ".") && negb (s =? "..").

End Endpoints.

(* ================================================================== *)
(** ** From a download URL back to the download route                  *)
(* ================================================================== *)

Module Url.

(** A client that is handed [download_url] requests its path; the WSGI
    server percent-decodes the path and the rule [/download/<filename>]
    takes the text after the prefix as [filename].  Strings are byte
    strings. *)

Definition in_range (lo hi : nat) (c : ascii) : bool :=
  (lo <=? nat_of_ascii c)%nat && (nat_of_ascii c <=? hi)%nat.

Definition is_alpha (c : ascii) : bool := in_range 65 90 c || in_range 97 122 c.
Definition is_digit (c : ascii) : bool := in_range 48 57 c.

(** The characters a URL carries as they are (RFC 3986, unreserved). *)
Definition unreserved (c : ascii) : bool :=
  is_alpha c || is_digit c
  || Ascii.eqb c "-" || Ascii.eqb c "." || Ascii.eqb c "_" || Ascii.eqb c "~".

(** The characters of a host name, with a port. *)
Definition host_char (c : ascii) : bool :=
  is_alpha c || is_digit c || Ascii.eqb c "-" || Ascii.eqb c "." || Ascii.eqb c ":".

Fixpoint all_chars (P : ascii -> bool) (s : string) : bool :=
  match s with
  | EmptyString => true
  | String c rest => P c && all_chars P rest
  end.

(** A host as a request names it: a name or an address, with or without
    a port; it starts with a letter or a digit. *)
Definition is_host (s : string) : bool :=
  match s with
  | EmptyString => false
  | String c _ => (is_alpha c || is_digit c) && all_chars host_char s
  end.

(** The part of [s] before the first character that [stop] selects, and
    the part from that character on. *)
Fixpoint take_until (stop : ascii -> bool) (s : string) : string :=
  match s with
  | EmptyString => EmptyString
  | String c rest => if stop c then EmptyString else String c (take_until stop rest)
  end.

Fixpoint drop_until (stop : ascii -> bool) (s : string) : string :=
  match s with
  | EmptyString => EmptyString
  | String c rest => if stop c then s else drop_until stop rest
  end.

Fixpoint drop (n : nat) (s : string) : string :=
  match n, s with
  | S n', String _ rest => drop n' rest
  | _, _ => s
  end.

Definition ends_authority (c : ascii) : bool :=
  Ascii.eqb c "/" || Ascii.eqb c "?" || Ascii.eqb c "#".

Definition ends_path (c : ascii) : bool := Ascii.eqb c "?" || Ascii.eqb c "#".

(** The path of an https URL: what follows the authority, up to the
    query or the fragment. *)
Definition path_of (url : string) : option string :=
  if prefix "https://" url
  then Some (take_until ends_path (drop_until ends_authority (drop 8 url)))
  else None.

Definition hex_digit (c : ascii) : option nat :=
  if in_range 48 57 c then Some (nat_of_ascii c - 48)%nat
  else if in_range 65 70 c then Some (nat_of_ascii c - 55)%nat
  else if in_range 97 102 c then Some (nat_of_ascii c - 87)%nat
  else None.

(** Percent-decoding: [%] followed by two hex digits is the byte they
    name; any other [%] stays as it is. *)
Fixpoint unquote (s : string) : string :=
  match s with
  | EmptyString => EmptyString
  | String c rest =>
      if Ascii.eqb c "%" then
        match rest with
        | String a (String b rest') =>
            match hex_digit a, hex_digit b with
            | Some x, Some y => String (ascii_of_nat (16 * x + y)) (unquote rest')
            | _, _ => String c (unquote rest)
            end
        | _ => String c (unquote rest)
        end
      else String c (unquote rest)
  end.

(** The rule [/download/<filename>]: [<filename>] takes a text that is
    not empty and holds no slash. *)
Definition match_download (path : string) : option string :=
  if prefix "/download/" path then
    let name := drop 10 path in
    if (name =? "") || PosixPath.has_sep name then None else Some name
  else None.

(** The [filename] that [download_file_endpoint] is called with when
    [url] is requested; [None] when the URL does not reach that route. *)
Definition requested_filename (url : string) : option string :=
  match path_of url with
  | Some path => match_download (unquote path)
  | None => None
  end.

End Url.

(* ================================================================== *)
(** ** What a program may touch                                         *)
(* ================================================================== *)

Module Footprint.
Import Py OS App Trace Pipeline.

(** Every call the program can make, whatever it is answered, satisfies
    [P]. *)
Inductive all_calls {A : Type} (P : forall X : Type, call X -> Prop) : prog A -> Prop :=
| all_ret (a : A) : all_calls P (Ret a)
| all_vis (X : Type) (c : call X) (k : X -> prog A) :
    P X c -> (forall x, all_calls P (k x)) -> all_calls P (Vis c k).

Definition on_call (P : forall X : Type, call X -> Prop) (ev : event) : Prop :=
  match ev with Event c _ => P _ c end.

(** The calls of a fetch of [url] into [dest]. *)
Definition fetch_call (url : value) (dest : string) (X : Type) (c : call X) : Prop :=
  match c with
  | RequestsGet u t => u = url /\ t = 300%Z
  | OpenWb p => p = dest
  | FileWrite p _ => p = dest
  | FileClose p => p = dest
  | _ => False
  end.

(** The calls of a job: its workspace, its two source files, its output
    file, and ffmpeg under a timeout. *)
Definition job_call (video_url audio_url : value) (workflow_id variant_name : string)
           (X : Type) (c : call X) : Prop :=
  match c with
  | Makedirs p => p = work_dir workflow_id variant_name
  | SubprocessRun cmd t => hd "" cmd = "ffmpeg" /\ (t = 300%Z \/ t = 600%Z)
  | PathExists p => p = output_file workflow_id variant_name
  | PathGetsize p => p = output_file workflow_id variant_name
  | Rmtree p => p = work_dir workflow_id variant_name
  | Now => True
  | _ => fetch_call video_url (video_file workflow_id variant_name) c
         \/ fetch_call audio_url (audio_file workflow_id variant_name) c
  end.

(** The trace of a fetch that saved the whole body. *)
Definition saved (url : value) (dest : string) (resp : response) : list event :=
  (Event (RequestsGet url 300) (Ok resp)
   :: Event (OpenWb dest) (Ok tt)
   :: map (fun chunk => Event (FileWrite dest chunk) (Ok tt)) (chunks resp)
   ++ [Event (FileClose dest) (Ok tt)])%list.

(** The files opened with success, the files closed, the chunks handed to
    [write]. *)
Definition pick_opened (ev : event) : option string :=
  match ev with
  | Event c x =>
      match c in call X return X -> option string with
      | OpenWb p => fun r => match r with Ok _ => Some p | Raised _ => None end
      | _ => fun _ => None
      end x
  end.

Definition pick_closed (ev : event) : option string :=
  match ev with
  | Event c _ => match c with FileClose p => Some p | _ => None end
  end.

Definition pick_written (ev : event) : option (string * string) :=
  match ev with
  | Event c _ => match c with FileWrite p chunk => Some (p, chunk) | _ => None end
  end.

Definition pick_rmtree (ev : event) : option (string * result unit) :=
  match ev with
  | Event c x =>
      match c in call X return X -> option (string * result unit) with
      | Rmtree p => fun r => Some (p, r)
      | _ => fun _ => None
      end x
  end.

Definition opened : list event -> list string := collect pick_opened.
Definition closed : list event -> list string := collect pick_closed.
Definition written : list event -> list (string * string) := collect pick_written.
Definition cleanups : list event -> list (string * result unit) := collect pick_rmtree.

(** The three encoder commands of a job, in the order the handler spawns
    them, each with its timeout. *)
Definition encoder_commands (workflow_id variant_name : string) (config : variant)
  : list (list string * Z) :=
  [ (adjust_audio_speed_cmd (audio_file workflow_id variant_name) (speed config)
                            (audio_speed_file workflow_id variant_name), 300%Z);
    (apply_video_filter_cmd (video_file workflow_id variant_name) (filter config)
                            (video_filtered_file workflow_id variant_name), 600%Z);
    (merge_audio_video_cmd (video_filtered_file workflow_id variant_name)
                           (audio_speed_file workflow_id variant_name)
                           (output_file workflow_id variant_name), 600%Z) ].

(** The simulated machine with a workspace that cannot be removed. *)
Definition stubborn (env : Sim.world) : handler Sim.disk :=
  fun X c =>
    match c in call X return Sim.disk -> X * Sim.disk with
    | Rmtree _ => fun d => (Raised (Exn "PermissionError" "Permission denied"), d)
    | Makedirs p => Sim.machine env (Makedirs p)
    | RequestsGet u t => Sim.machine env (RequestsGet u t)
    | OpenWb p => Sim.machine env (OpenWb p)
    | FileWrite p chunk => Sim.machine env (FileWrite p chunk)
    | FileClose p => Sim.machine env (FileClose p)
    | SubprocessRun cmd t => Sim.machine env (SubprocessRun cmd t)
    | PathExists p => Sim.machine env (PathExists p)
    | PathGetsize p => Sim.machine env (PathGetsize p)
    | Now => Sim.machine env Now
    end.

(** The simulated machine on a read-only file system: no directory can
    be created. *)
Definition read_only (env : Sim.world) : handler Sim.disk :=
  fun X c =>
    match c in call X return Sim.disk -> X * Sim.disk with
    | Makedirs _ => fun d => (Raised (Exn "OSError" "Read-only file system"), d)
    | Rmtree p => Sim.machine env (Rmtree p)
    | RequestsGet u t => Sim.machine env (RequestsGet u t)
    | OpenWb p => Sim.machine env (OpenWb p)
    | FileWrite p chunk => Sim.machine env (FileWrite p chunk)
    | FileClose p => Sim.machine env (FileClose p)
    | SubprocessRun cmd t => Sim.machine env (SubprocessRun cmd t)
    | PathExists p => Sim.machine env (PathExists p)
    | PathGetsize p => Sim.machine env (PathGetsize p)
    | Now => Sim.machine env Now
    end.

(** The simulated machine on which the output file vanishes between the
    probe and the measure. *)
Definition racing (env : Sim.world) : handler Sim.disk :=
  fun X c =>
    match c in call X return Sim.disk -> X * Sim.disk with
    | PathGetsize p => fun d => (Raised (Exn "FileNotFoundError" p), d)
    | Makedirs p => Sim.machine env (Makedirs p)
    | Rmtree p => Sim.machine env (Rmtree p)
    | RequestsGet u t => Sim.machine env (RequestsGet u t)
    | OpenWb p => Sim.machine env (OpenWb p)
    | FileWrite p chunk => Sim.machine env (FileWrite p chunk)
    | FileClose p => Sim.machine env (FileClose p)
    | SubprocessRun cmd t => Sim.machine env (SubprocessRun cmd t)
    | PathExists p => Sim.machine env (PathExists p)
    | Now => Sim.machine env Now
    end.

End Footprint.

(* ================================================================== *)
(** * Proofs                                                            *)
(* ================================================================== *)

Import Py OS App Trace Pipeline Examples Endpoints Footprint.

(** ** Projections of traces *)

Lemma collect_app {A : Type} (pick : event -> option A) (t1 t2 : list event) :
  collect pick (t1 ++ t2) = (collect pick t1 ++ collect pick t2)%list.
Proof.
  induction t1 as [| ev t1 IH]; cbn; [reflexivity |].
  destruct (pick ev); cbn; rewrite IH; reflexivity.
Qed.

Lemma collect_none {A : Type} (pick : event -> option A) (tr : list event) :
  (forall ev, is_fetch ev = true -> pick ev = None) ->
  forallb is_fetch tr = true ->
  collect pick tr = [].
Proof.
  intros Hpick. induction tr as [| ev tr IH]; cbn; [reflexivity |].
  intros Hall. apply andb_true_iff in Hall as [Hev Htr].
  rewrite (Hpick ev Hev). exact (IH Htr).
Qed.

Lemma fetch_pick_run ev : is_fetch ev = true -> pick_run ev = None.
Proof. destruct ev as [X c x]; destruct c; cbn; congruence. Qed.

Lemma fetch_pick_created ev : is_fetch ev = true -> pick_created ev = None.
Proof. destruct ev as [X c x]; destruct c; cbn; congruence. Qed.

Lemma fetch_pick_removed ev : is_fetch ev = true -> pick_removed ev = None.
Proof. destruct ev as [X c x]; destruct c; cbn; congruence. Qed.

Lemma fetch_pick_exists ev : is_fetch ev = true -> pick_exists ev = None.
Proof. destruct ev as [X c x]; destruct c; cbn; congruence. Qed.

Lemma fetch_pick_getsize ev : is_fetch ev = true -> pick_getsize ev = None.
Proof. destruct ev as [X c x]; destruct c; cbn; congruence. Qed.

Lemma fetch_stage ev : is_fetch ev = true -> stage ev = 1%nat.
Proof. destruct ev as [X c x]; destruct c; cbn; congruence. Qed.

Lemma fetch_run_only (url : value) (ok : bool) (tr : list event) :
  fetch_run url ok tr -> forallb is_fetch tr = true.
Proof. intros (_ & H & _). exact H. Qed.

Lemma fetch_run_urls (url : value) (ok : bool) (tr : list event) :
  fetch_run url ok tr -> urls tr = [url].
Proof. intros (H & _ & _). exact H. Qed.

Lemma fetch_run_failed (url : value) (ok : bool) (tr : list event) :
  fetch_run url ok tr -> existsb fetch_failed tr = negb ok.
Proof. intros (_ & _ & H). exact H. Qed.

Lemma ordered_from_weaken (lo lo' : nat) (tr : list event) :
  (lo <= lo')%nat -> ordered_from lo' tr = true -> ordered_from lo tr = true.
Proof.
  intros Hlo. destruct tr as [| ev rest]; [reflexivity |].
  cbn [ordered_from]. intros H. apply andb_true_iff in H as [H1 H2].
  apply Nat.leb_le in H1. apply andb_true_iff. split; [| exact H2].
  apply Nat.leb_le. lia.
Qed.

Lemma ordered_from_fetch (lo : nat) (tr rest : list event) :
  (lo <= 1)%nat ->
  forallb is_fetch tr = true ->
  ordered_from 1 rest = true ->
  ordered_from lo (tr ++ rest) = true.
Proof.
  revert lo. induction tr as [| ev tr IH]; intros lo Hlo Hall Hrest.
  - exact (ordered_from_weaken rest Hlo Hrest).
  - cbn [forallb] in Hall. apply andb_true_iff in Hall as [Hev Htr].
    cbn [app ordered_from]. rewrite (fetch_stage ev Hev).
    apply andb_true_iff. split; [apply Nat.leb_le; exact Hlo |].
    apply IH; [lia | exact Htr | exact Hrest].
Qed.

(** ** Running programs *)

Section Running.
Context {W : Type} (h : handler W).

Lemma interp_bind {A B : Type} (p : prog A) (f : A -> prog B) (w : W) :
  interp h (bind p f) w =
  let '(a, w1, t1) := interp h p w in
  let '(b, w2, t2) := interp h (f a) w1 in
  (b, w2, (t1 ++ t2)%list).
Proof.
  revert w. induction p as [a | X c k IH]; intros w; cbn.
  - destruct (interp h (f a) w) as [[b w2] t2]. reflexivity.
  - destruct (@h X c w) as [x w1]. rewrite IH.
    destruct (interp h (k x) w1) as [[a w2] t1].
    destruct (interp h (f a) w2) as [[b w3] t2]. reflexivity.
Qed.

Lemma write_chunks_run (path : string) (cs : list string) (w : W) :
  urls (trace h (write_chunks path cs) w) = []
  /\ forallb is_fetch (trace h (write_chunks path cs) w) = true
  /\ existsb fetch_failed (trace h (write_chunks path cs) w)
     = raised (outcome h (write_chunks path cs) w).
Proof.
  unfold trace, outcome. revert w.
  induction cs as [| c rest IH]; intros w; cbn.
  - repeat split; reflexivity.
  - destruct (@h _ (FileWrite path c) w) as [[[] | e] w1]; cbn.
    + specialize (IH w1).
      destruct (interp h (write_chunks path rest) w1) as [[r w2] tr].
      cbn in *. exact IH.
    + repeat split; reflexivity.
Qed.

Lemma download_file_run (url : value) (dest : string) (w : W) :
  fetch_run url (outcome h (download_file url dest) w)
            (trace h (download_file url dest) w).
Proof.
  unfold fetch_run, trace, outcome, download_file, try_except.
  cbn.
  destruct (@h _ (RequestsGet url 300) w) as [[resp | e] w1]; cbn;
    [| repeat split; reflexivity].
  unfold raise_for_status.
  destruct (is_error_status (status_code resp)) eqn:Hst; cbn.
  { rewrite Hst. repeat split; reflexivity. }
  destruct (@h _ (OpenWb dest) w1) as [[[] | e] w2]; cbn;
    [| rewrite Hst, ?orb_true_r; repeat split; reflexivity].
  unfold pbind, try_finally. rewrite !interp_bind.
  destruct (write_chunks_run dest (chunks resp) w2) as (Hurls & Hfetch & Hfail).
  unfold trace, outcome in Hurls, Hfetch, Hfail.
  destruct (interp h (write_chunks dest (chunks resp)) w2) as [[r w3] twc].
  cbn in Hurls, Hfetch, Hfail.
  unfold end_of_body.
  destruct r as [[] | e]; cbn;
    [destruct (broken resp) as [e |] eqn:Hb; cbn |];
    (destruct (@h _ (FileClose dest) w3) as [[[] | e'] w4]; cbn;
     unfold urls in *;
     rewrite ?app_nil_r, ?collect_app, ?forallb_app, ?existsb_app,
             ?Hb, Hst, Hurls, Hfetch, Hfail; cbn;
     rewrite ?orb_true_r; repeat split; reflexivity).
Qed.

Lemma adjust_audio_speed_run (audio_path : string) (speed : Q) (output_path : string) (w : W) :
  interp h (adjust_audio_speed audio_path speed output_path) w =
  let c := SubprocessRun (adjust_audio_speed_cmd audio_path speed output_path) 300 in
  let '(x, w1) := @h _ c w in
  (exited_zero x, w1, [Event c x]).
Proof.
  unfold adjust_audio_speed, try_except. cbn.
  destruct (@h _ _ w) as [[r | e] w1]; cbn; [| reflexivity].
  destruct (returncode r =? 0)%Z; reflexivity.
Qed.

Lemma apply_video_filter_run (video_path filter_spec output_path : string) (w : W) :
  interp h (apply_video_filter video_path filter_spec output_path) w =
  let c := SubprocessRun (apply_video_filter_cmd video_path filter_spec output_path) 600 in
  let '(x, w1) := @h _ c w in
  (exited_zero x, w1, [Event c x]).
Proof.
  unfold apply_video_filter, try_except. cbn.
  destruct (@h _ _ w) as [[r | e] w1]; cbn; [| reflexivity].
  destruct (returncode r =? 0)%Z; reflexivity.
Qed.

Lemma merge_audio_video_run (video_path audio_path output_path : string) (w : W) :
  interp h (merge_audio_video video_path audio_path output_path) w =
  let c := SubprocessRun (merge_audio_video_cmd video_path audio_path output_path) 600 in
  let '(x, w1) := @h _ c w in
  (exited_zero x, w1, [Event c x]).
Proof.
  unfold merge_audio_video, try_except. cbn.
  destruct (@h _ _ w) as [[r | e] w1]; cbn; [| reflexivity].
  destruct (returncode r =? 0)%Z; reflexivity.
Qed.

Lemma interp_pbind_total {A B : Type} (p : prog A) (f : A -> py B) (w : W) :
  interp h (pbind (total p) f) w =
  let '(a, w1, t1) := interp h p w in
  let '(b, w2, t2) := interp h (f a) w1 in
  (b, w2, (t1 ++ t2)%list).
Proof.
  unfold pbind, total. rewrite !interp_bind.
  destruct (interp h p w) as [[a w1] t1]. cbn.
  destruct (interp h (f a) w1) as [[b w2] t2].
  rewrite app_nil_r. reflexivity.
Qed.

Lemma interp_pbind_perform {X B : Type} (c : call (result X)) (f : X -> py B) (w : W) :
  interp h (pbind (perform c) f) w =
  let '(x, w1) := @h _ c w in
  match x with
  | Ok a => let '(b, w2, t) := interp h (f a) w1 in (b, w2, Event c x :: t)
  | Raised e => (Raised e, w1, [Event c x])
  end.
Proof.
  cbn. destruct (@h _ c w) as [[a | e] w1]; cbn; reflexivity.
Qed.

Lemma interp_pbind_ask {X B : Type} (c : call X) (f : X -> py B) (w : W) :
  interp h (pbind (ask c) f) w =
  let '(x, w1) := @h _ c w in
  let '(b, w2, t) := interp h (f x) w1 in (b, w2, Event c x :: t).
Proof.
  cbn. destruct (@h _ c w) as [x w1]; cbn; reflexivity.
Qed.

Lemma interp_pbind_lift {A B : Type} (r : result A) (f : A -> py B) (w : W) :
  interp h (pbind (lift r) f) w =
  match r with
  | Ok a => interp h (f a) w
  | Raised e => (Raised e, w, [])
  end.
Proof.
  destruct r; reflexivity.
Qed.

Lemma process_variant_try_run (req : request) (video_url audio_url : value)
      (workflow_id variant_name : string) (config : variant) (w : W) :
  accepted req video_url audio_url workflow_id variant_name ->
  assoc variant_name VARIANTS = Some config ->
  job_run (host req) video_url audio_url workflow_id variant_name config
          (outcome h (process_variant_try req) w)
          (trace h (process_variant_try req) w).
Proof.
  intros (items & Hjson & Hv & Ha & Hn & Hw & Hkey) Hcfg.
  unfold outcome, trace, process_variant_try.
  assert (Hall : all_in required_fields (JObj items) = Ok true).
  { cbn. unfold has_key. rewrite Hv, Ha, Hn, Hw. reflexivity. }
  unfold getitem.
  rewrite Hjson, interp_pbind_lift; cbv beta iota.
  rewrite Hall, interp_pbind_lift; cbv beta iota. cbn [negb].
  rewrite Hv, interp_pbind_lift; cbv beta iota.
  rewrite Ha, interp_pbind_lift; cbv beta iota.
  rewrite Hn, interp_pbind_lift; cbv beta iota.
  rewrite Hw, interp_pbind_lift; cbv beta iota.
  cbn [hash fspath]. rewrite interp_pbind_lift; cbv beta iota.
  cbn [in_VARIANTS]. rewrite Hkey. cbn [negb].
  rewrite !interp_pbind_lift; cbv beta iota.
  rewrite interp_pbind_perform.
  destruct (@h _ (Makedirs _) w) as [[[] | e] w1]; cbv beta iota;
    [| apply run_makedirs_raised].
  rewrite interp_pbind_total.
  pose proof (download_file_run video_url
                (PosixPath.join (work_dir_of workflow_id variant_name)
                                ["source_video.mp4"]) w1) as Hvideo.
  unfold outcome, trace in Hvideo.
  destruct (interp h (download_file video_url _) w1) as [[ok w2] tv].
  cbn [fst snd] in Hvideo.
  destruct ok; cbn [negb]; cbv beta iota;
    [| cbn [interp ret fst snd]; rewrite app_nil_r; apply run_video_failed; exact Hvideo].
  rewrite interp_pbind_total.
  pose proof (download_file_run audio_url
                (PosixPath.join (work_dir_of workflow_id variant_name)
                                ["source_audio.mp3"]) w2) as Haudio.
  unfold outcome, trace in Haudio.
  destruct (interp h (download_file audio_url _) w2) as [[ok w3] ta].
  cbn [fst snd] in Haudio.
  destruct ok; cbn [negb]; cbv beta iota;
    [| cbn [interp ret fst snd]; apply run_audio_failed; assumption].
  unfold VARIANTS_getitem. rewrite Hcfg, interp_pbind_lift; cbv beta iota.
  rewrite interp_pbind_total, adjust_audio_speed_run; cbv beta iota zeta.
  destruct (@h _ (SubprocessRun _ 300) w3) as [a1 w4].
  destruct (exited_zero a1) eqn:H1; cbn [negb]; cbv beta iota;
    [| cbn [interp ret fst snd app]; apply run_adjust_failed; assumption].
  rewrite interp_pbind_total, apply_video_filter_run; cbv beta iota zeta.
  destruct (@h _ (SubprocessRun _ 600) w4) as [a2 w5].
  destruct (exited_zero a2) eqn:H2; cbn [negb]; cbv beta iota;
    [| cbn [interp ret fst snd app]; apply run_filter_failed; assumption].
  rewrite interp_pbind_total, merge_audio_video_run; cbv beta iota zeta.
  destruct (@h _ (SubprocessRun _ 600) w5) as [a3 w6].
  destruct (exited_zero a3) eqn:H3; cbn [negb]; cbv beta iota;
    [| cbn [interp ret fst snd app]; apply run_merge_failed; assumption].
  rewrite interp_pbind_ask.
  destruct (@h _ (PathExists _) w6) as [found w7].
  destruct found; cbn [negb]; cbv beta iota;
    [| cbn [interp ret fst snd app]; apply run_output_missing; assumption].
  rewrite interp_pbind_perform.
  destruct (@h _ (PathGetsize _) w7) as [[size | e] w8]; cbv beta iota;
    [| cbn [interp ret fst snd app]; apply run_getsize_raised; assumption].
  rewrite interp_pbind_total. unfold try_except. cbn [perform bind interp].
  destruct (@h _ (Rmtree _) w8) as [rm w9].
  assert (Hrm : interp h match rm with Ok a => Ret a | Raised _ => Ret tt end w9
                = (tt, w9, [])).
  { destruct rm as [[] | e]; reflexivity. }
  rewrite Hrm; cbv beta iota.
  rewrite interp_pbind_ask.
  destruct (@h _ Now w9) as [timestamp w10].
  cbn [interp ret fst snd app].
  apply run_success; assumption.
Qed.
End Running.

(** ** The handler as a whole *)

Lemma assoc_has_key {A : Type} (key : string) (items : list (string * A)) :
  has_key key items = true -> exists v, assoc key items = Some v.
Proof.
  unfold has_key. destruct (assoc key items) as [v |]; [eauto | discriminate].
Qed.

Lemma process_variant_try_cases (req : request) :
  (exists r, process_variant_try req = Ret r /\ early_exit r)
  \/ (exists video_url audio_url workflow_id variant_name config,
        accepted req video_url audio_url workflow_id variant_name
        /\ assoc variant_name VARIANTS = Some config).
Proof.
  unfold process_variant_try, lift.
  destruct (json req) as [data | e] eqn:Hjson; cbn [pbind bind];
    [| left; eexists; split; [reflexivity | constructor]].
  destruct (all_in required_fields data) as [[|] | e] eqn:Hall; cbn [pbind bind negb];
    [| left; eexists; split; [reflexivity | constructor]
     | left; eexists; split; [reflexivity | constructor]].
  destruct data as [| b | n | s | l | items];
    try (left; eexists; split; [reflexivity | constructor]).
  cbn in Hall. unfold getitem.
  destruct (has_key "video_url" items) eqn:Kv; [| discriminate].
  destruct (has_key "audio_url" items) eqn:Ka; [| discriminate].
  destruct (has_key "variant_name" items) eqn:Kn; [| discriminate].
  destruct (has_key "workflow_id" items) eqn:Kw; [| discriminate].
  apply assoc_has_key in Kv, Ka, Kn, Kw.
  destruct Kv as [video_url Kv], Ka as [audio_url Ka],
           Kn as [variant_name Kn], Kw as [workflow_id Kw].
  rewrite Kv, Ka, Kn, Kw. cbn [pbind bind].
  destruct variant_name as [| b | n | vn | l | o]; cbn [hash pbind bind in_VARIANTS negb];
    try (left; eexists; split; [reflexivity | constructor; reflexivity]).
  destruct (has_key vn VARIANTS) eqn:Hkey; cbn [negb];
    [| left; eexists; split; [reflexivity | apply (early_unknown (SStr vn)); exact Hkey]].
  destruct workflow_id as [| b | n | wf | l | o]; cbn [fspath pbind bind];
    try (left; eexists; split; [reflexivity | constructor]).
  right. destruct (assoc_has_key _ _ Hkey) as [config Hcfg].
  exists video_url, audio_url, wf, vn, config. split; [| exact Hcfg].
  exists items. repeat split; assumption.
Qed.

Section Whole.
Context {W : Type} (h : handler W).

Lemma process_variant_respond (req : request) (w : W) :
  interp h (process_variant req) w =
  let '(r, w', tr) := interp h (process_variant_try req) w in
  (respond r, w', tr).
Proof.
  unfold process_variant, try_except. rewrite interp_bind.
  destruct (interp h (process_variant_try req) w) as [[[resp | e] w'] tr];
    cbn; rewrite app_nil_r; reflexivity.
Qed.

Lemma outcome_respond (req : request) (w : W) :
  outcome h (process_variant req) w = respond (outcome h (process_variant_try req) w).
Proof.
  unfold outcome. rewrite process_variant_respond.
  destruct (interp h (process_variant_try req) w) as [[r w'] tr]. reflexivity.
Qed.

Lemma trace_respond (req : request) (w : W) :
  trace h (process_variant req) w = trace h (process_variant_try req) w.
Proof.
  unfold trace. rewrite process_variant_respond.
  destruct (interp h (process_variant_try req) w) as [[r w'] tr]. reflexivity.
Qed.

(** Every run of the handler leaves either before its first call, or
    through one of the exits of [job_run]. *)
Lemma process_variant_exits (req : request) (w : W) :
  (exists r, early_exit r
             /\ outcome h (process_variant_try req) w = r
             /\ interp h (process_variant req) w = (respond r, w, []))
  \/ (exists video_url audio_url workflow_id variant_name config,
        accepted req video_url audio_url workflow_id variant_name
        /\ assoc variant_name VARIANTS = Some config
        /\ job_run (host req) video_url audio_url workflow_id variant_name config
                   (outcome h (process_variant_try req) w)
                   (trace h (process_variant req) w)).
Proof.
  destruct (process_variant_try_cases req)
    as [(r & Hret & Hearly) | (vu & au & wf & vn & cfg & Hacc & Hcfg)].
  - left. exists r. split; [exact Hearly |].
    rewrite process_variant_respond. unfold outcome. rewrite Hret.
    split; reflexivity.
  - right. exists vu, au, wf, vn, cfg. split; [exact Hacc | split; [exact Hcfg |]].
    rewrite trace_respond. apply process_variant_try_run; assumption.
Qed.

End Whole.

(** ** Traces of accepted requests *)

Lemma fetch_not_raised (tr : list event) :
  forallb is_fetch tr = true -> existsb call_raised tr = false.
Proof.
  induction tr as [| ev tr IH]; cbn [forallb existsb]; [reflexivity |].
  intros H. apply andb_true_iff in H as [Hev Htr]. rewrite (IH Htr), orb_false_r.
  destruct ev as [X c x]; destruct c; cbn in Hev |- *; congruence.
Qed.

Lemma fetched_app (workflow_id variant_name : string) (tv ta r1 r2 : list event) :
  fetched workflow_id variant_name tv ta (r1 ++ r2)
  = (fetched workflow_id variant_name tv ta r1 ++ r2)%list.
Proof.
  unfold fetched. rewrite <- app_comm_cons, <- !app_assoc. reflexivity.
Qed.

Section JobTraces.
Variables (video_url audio_url : value) (workflow_id variant_name : string).
Variables (tv ta rest : list event) (okv oka : bool).
Hypothesis Hvideo : fetch_run video_url okv tv.
Hypothesis Haudio : fetch_run audio_url oka ta.

Let tr := fetched workflow_id variant_name tv ta rest.

Lemma fetched_collect {A : Type} (pick : event -> option A) :
  (forall ev, is_fetch ev = true -> pick ev = None) ->
  collect pick tr =
  (collect pick [Event (Makedirs (work_dir workflow_id variant_name)) (Ok tt)]
     ++ collect pick rest)%list.
Proof.
  intros Hpick. unfold tr, fetched.
  change (?ev :: ?l) with ([ev] ++ l)%list at 1.
  rewrite !collect_app.
  rewrite (collect_none pick tv Hpick (fetch_run_only Hvideo)).
  rewrite (collect_none pick ta Hpick (fetch_run_only Haudio)).
  reflexivity.
Qed.

Lemma fetched_urls : urls tr = (video_url :: audio_url :: urls rest)%list.
Proof.
  unfold tr, fetched, urls. cbn [collect pick_url].
  rewrite !collect_app.
  fold (urls tv). fold (urls ta).
  rewrite (fetch_run_urls Hvideo), (fetch_run_urls Haudio). reflexivity.
Qed.

Lemma fetched_runs : runs tr = runs rest.
Proof. unfold runs. rewrite (fetched_collect _ fetch_pick_run). reflexivity. Qed.

Lemma fetched_created : created tr = (work_dir workflow_id variant_name :: created rest)%list.
Proof. unfold created. rewrite (fetched_collect _ fetch_pick_created). reflexivity. Qed.

Lemma fetched_removed : removed tr = removed rest.
Proof. unfold removed. rewrite (fetched_collect _ fetch_pick_removed). reflexivity. Qed.

Lemma fetched_probes : probes tr = probes rest.
Proof. unfold probes. rewrite (fetched_collect _ fetch_pick_exists). reflexivity. Qed.

Lemma fetched_sizes : sizes tr = sizes rest.
Proof. unfold sizes. rewrite (fetched_collect _ fetch_pick_getsize). reflexivity. Qed.

Lemma fetched_failed :
  existsb fetch_failed tr = negb okv || negb oka || existsb fetch_failed rest.
Proof.
  unfold tr, fetched. cbn [existsb fetch_failed]. rewrite !existsb_app.
  rewrite (fetch_run_failed Hvideo), (fetch_run_failed Haudio).
  cbn. rewrite orb_assoc. reflexivity.
Qed.

Lemma fetched_crashed : crashed tr = crashed rest.
Proof.
  unfold tr, fetched, crashed. cbn [existsb call_raised raised]. rewrite !existsb_app.
  rewrite (fetch_not_raised tv (fetch_run_only Hvideo)).
  rewrite (fetch_not_raised ta (fetch_run_only Haudio)).
  reflexivity.
Qed.

Lemma fetched_ordered : ordered_from 1 rest = true -> ordered tr = true.
Proof.
  intros Hrest. unfold tr, fetched, ordered. cbn [ordered_from stage].
  cbn [Nat.leb andb].
  apply ordered_from_fetch; [lia | exact (fetch_run_only Hvideo) |].
  apply ordered_from_fetch; [lia | exact (fetch_run_only Haudio) | exact Hrest].
Qed.

End JobTraces.

(** ** What each exit looks like *)

Section Exits.
Variables (host_name : string) (video_url audio_url : value).
Variables (workflow_id variant_name : string) (config : variant).
Variables (r : result http_response) (tr : list event).
Hypothesis Hrun :
  job_run host_name video_url audio_url workflow_id variant_name config r tr.

Ltac project :=
  repeat first
    [ erewrite fetched_failed by eassumption
    | erewrite fetched_runs by eassumption
    | erewrite fetched_probes by eassumption
    | erewrite fetched_sizes by eassumption
    | erewrite fetched_removed by eassumption
    | erewrite fetched_created by eassumption
    | erewrite fetched_urls by eassumption ].

Ltac exit_zero :=
  repeat match goal with
         | H : exited_zero ?a = _ |- _ => rewrite H; clear H
         end.

Lemma job_run_stage_failed :
  stage_failed tr = true ->
  exists msg, failure_message msg /\ r = Ok (ErrorBody msg, 400%Z).
Proof.
  destruct Hrun; intros Hfail;
    try (eexists; split; [constructor | reflexivity]);
    exfalso; unfold stage_failed in Hfail; revert Hfail; project;
    cbn; exit_zero; cbn; discriminate.
Qed.

Lemma job_run_classified :
  (exists e, r = Raised e)
  \/ (exists msg, failure_message msg /\ r = Ok (ErrorBody msg, 400%Z)
                  /\ stage_failed tr = true)
  \/ (exists size timestamp,
        r = Ok (SuccessBody "success" variant_name
                  (output_file workflow_id variant_name)
                  ("https://" ++ host_name ++ "/download/"
                     ++ output_filename_of workflow_id variant_name)
                  size timestamp, 200%Z)
        /\ stage_failed tr = false).
Proof.
  destruct Hrun;
    try (left; eexists; reflexivity);
    try (right; right; do 2 eexists; split; [reflexivity |]);
    try (right; left; eexists; split; [constructor | split; [reflexivity |]]);
    unfold stage_failed; project; cbn; exit_zero; cbn;
    try reflexivity.
  match goal with
  | H : fetch_run _ false _ |- _ => rewrite (fetch_run_failed H)
  end.
  reflexivity.
Qed.

Lemma job_run_ordered : ordered tr = true.
Proof.
  destruct Hrun;
    try (eapply fetched_ordered; [eassumption | eassumption | reflexivity]).
  - reflexivity.
  - unfold ordered. cbn [ordered_from stage Nat.leb andb].
    rewrite <- (app_nil_r tv).
    apply ordered_from_fetch; [lia | eapply fetch_run_only; eassumption | reflexivity].
Qed.

(** Video first, audio second, and no command before both are there. *)
Lemma job_run_urls :
  (urls tr = [] /\ runs tr = [])
  \/ (urls tr = [video_url] /\ runs tr = [])
  \/ urls tr = [video_url; audio_url].
Proof.
  destruct Hrun;
    try (right; right; project; reflexivity).
  - left. split; reflexivity.
  - right; left. unfold urls, runs. cbn [collect pick_url pick_run].
    fold (urls tv). erewrite fetch_run_urls by eassumption.
    rewrite (collect_none pick_run tv fetch_pick_run) by (eapply fetch_run_only; eassumption).
    split; reflexivity.
Qed.

Lemma job_run_created :
  created tr = [work_dir workflow_id variant_name].
Proof.
  destruct Hrun; try (project; reflexivity).
  unfold created. cbn [collect pick_created].
    rewrite (collect_none pick_created tv fetch_pick_created)
      by (eapply fetch_run_only; eassumption).
    reflexivity.
Qed.

(** The workspace is removed on the way to a success, and on no other
    way out. *)
Lemma job_run_removed :
  removed tr =
  match r with
  | Ok (SuccessBody _ _ _ _ _ _, _) => [work_dir workflow_id variant_name]
  | _ => []
  end.
Proof.
  destruct Hrun; try (project; reflexivity).
  unfold removed. cbn [collect pick_removed].
    rewrite (collect_none pick_removed tv fetch_pick_removed)
      by (eapply fetch_run_only; eassumption).
    reflexivity.
Qed.

Lemma job_run_fetch_failed :
  existsb fetch_failed tr = true ->
  (r = Ok (ErrorBody "Failed to download video", 400%Z)
   \/ r = Ok (ErrorBody "Failed to download audio", 400%Z))
  /\ runs tr = [].
Proof.
  destruct Hrun; intros Hfail;
    try (exfalso; revert Hfail; project; cbn; discriminate).
  - split; [left; reflexivity |]. unfold runs. cbn [collect pick_run].
    apply collect_none; [exact fetch_pick_run | eapply fetch_run_only; eassumption].
  - split; [right; reflexivity |]. project. reflexivity.
Qed.

(** The verification step: the only path probed is the output file;
    a missing file ends the job, a present one is measured and the
    size measured is the size reported. *)
Lemma job_run_verified :
  (probes tr = [(output_file workflow_id variant_name, false)] ->
   r = Ok (ErrorBody "Output file not created", 400%Z))
  /\ (forall status variant out url size timestamp,
        r = Ok (SuccessBody status variant out url size timestamp, 200%Z) ->
        out = output_file workflow_id variant_name
        /\ probes tr = [(out, true)]
        /\ sizes tr = [(out, Ok size)]
        /\ forallb (fun x => exited_zero (snd x)) (runs tr) = true).
Proof.
  destruct Hrun; (split; [intros Hp | intros st va ou ur si ti Hr]);
    try discriminate Hr;
    try (exfalso; revert Hp; project; cbn; discriminate);
    try reflexivity.
  - exfalso. revert Hp. unfold probes. cbn [collect pick_exists].
    rewrite (collect_none pick_exists tv fetch_pick_exists)
      by (eapply fetch_run_only; eassumption).
    discriminate.
  - injection Hr as E1 E2 E3 E4 E5 E6. subst st va ou ur si ti.
    project. cbn. exit_zero.
    repeat split; reflexivity.
Qed.

(** The merge command is the only command of its shape in a run: when
    it fails the job ends as a merge failure. *)
Lemma job_run_merge_failed (answer : result completed) :
  In (merge_audio_video_cmd (video_filtered_file workflow_id variant_name)
                            (audio_speed_file workflow_id variant_name)
                            (output_file workflow_id variant_name),
      600%Z, answer) (runs tr) ->
  exited_zero answer = false ->
  respond r = (ErrorBody "Failed to merge audio and video", 400%Z).
Proof.
  assert (Hfilter : forall a b c x y z,
             apply_video_filter_cmd a b c <> merge_audio_video_cmd x y z).
  { intros a b c x y z. unfold apply_video_filter_cmd, merge_audio_video_cmd.
    destruct (b =? "none"); discriminate. }
  destruct Hrun; intros Hin Hfail; revert Hin; project;
    unfold runs, adjust_event, filter_event, merge_event;
    cbn [collect pick_run In];
    try (rewrite (collect_none pick_run tv fetch_pick_run)
          by (eapply fetch_run_only; eassumption));
    cbn [In];
    intros Hin;
    repeat match goal with
           | H : _ \/ _ |- _ => destruct H
           | H : False |- _ => destruct H
           | H : (_, _, _) = (_, _, _) |- _ => injection H; clear H; intros
           end;
    try reflexivity;
    try discriminate;
    try (exfalso; eapply Hfilter; eassumption);
    try congruence.
Qed.

Lemma job_run_filter_failed (answer : result completed) :
  In (apply_video_filter_cmd (video_file workflow_id variant_name)
                             (filter config)
                             (video_filtered_file workflow_id variant_name),
      600%Z, answer) (runs tr) ->
  exited_zero answer = false ->
  respond r = (ErrorBody "Failed to apply video filter", 400%Z).
Proof.
  assert (Hfilter : forall a b c x y z,
             merge_audio_video_cmd x y z <> apply_video_filter_cmd a b c).
  { intros a b c x y z. unfold apply_video_filter_cmd, merge_audio_video_cmd.
    destruct (b =? "none"); discriminate. }
  destruct Hrun; intros Hin Hfail; revert Hin; project;
    unfold runs, adjust_event, filter_event, merge_event;
    cbn [collect pick_run In];
    try (rewrite (collect_none pick_run tv fetch_pick_run)
          by (eapply fetch_run_only; eassumption));
    cbn [In];
    intros Hin;
    repeat match goal with
           | H : _ \/ _ |- _ => destruct H
           | H : False |- _ => destruct H
           | H : (_, _, _) = (_, _, _) |- _ => injection H; clear H; intros
           end;
    try reflexivity;
    try discriminate;
    try (exfalso; eapply Hfilter; eassumption);
    try congruence.
Qed.

(** The three kinds of exit, told apart by the trace alone. *)
Lemma job_run_status :
  (exists e, r = Raised e /\ crashed tr = true /\ stage_failed tr = false)
  \/ (exists msg, failure_message msg /\ r = Ok (ErrorBody msg, 400%Z)
                  /\ stage_failed tr = true /\ crashed tr = false)
  \/ (exists size timestamp,
        r = Ok (SuccessBody "success" variant_name
                  (output_file workflow_id variant_name)
                  ("https://" ++ host_name ++ "/download/"
                     ++ output_filename_of workflow_id variant_name)
                  size timestamp, 200%Z)
        /\ stage_failed tr = false /\ crashed tr = false).
Proof.
  destruct job_run_classified
    as [(e & Hr) | [(msg & Hmsg & Hr & Hfail) | (size & ts & Hr & Hfail)]].
  - left. exists e. split; [exact Hr |]. subst r.
    inversion Hrun; subst; unfold stage_failed; project; erewrite ?fetched_crashed by eassumption;
      cbn; exit_zero; cbn; split; reflexivity.
  - right; left. exists msg. split; [exact Hmsg | split; [exact Hr | split; [exact Hfail |]]].
    subst r.
    inversion Hrun; subst; erewrite ?fetched_crashed by eassumption; try reflexivity.
    unfold crashed. cbn [existsb call_raised raised orb].
    apply fetch_not_raised. eapply fetch_run_only; eassumption.
  - right; right. exists size, ts. split; [exact Hr | split; [exact Hfail |]].
    subst r. inversion Hrun; subst. erewrite fetched_crashed by eassumption. reflexivity.
Qed.

(** The run that ends in a success, call by call. *)
Lemma job_run_success_trace (status variant out url : string) (size : N)
      (timestamp : string) :
  r = Ok (SuccessBody status variant out url size timestamp, 200%Z) ->
  exists tv ta a1 a2 a3 rm,
    fetch_run video_url true tv
    /\ fetch_run audio_url true ta
    /\ exited_zero a1 = true /\ exited_zero a2 = true /\ exited_zero a3 = true
    /\ tr = fetched workflow_id variant_name tv ta
              [adjust_event workflow_id variant_name config a1;
               filter_event workflow_id variant_name config a2;
               merge_event workflow_id variant_name a3;
               Event (PathExists (output_file workflow_id variant_name)) true;
               Event (PathGetsize (output_file workflow_id variant_name)) (Ok size);
               Event (Rmtree (work_dir workflow_id variant_name)) rm;
               Event Now timestamp].
Proof.
  destruct Hrun; intros Hr; try discriminate Hr.
  injection Hr; clear Hr; intros; subst.
  exists tv, ta, a1, a2, a3, rm. do 5 (split; [assumption |]). reflexivity.
Qed.

(** A merge that exited with status 0 is followed by the probe. *)
Lemma job_run_merged_probed (answer : result completed) :
  In (merge_audio_video_cmd (video_filtered_file workflow_id variant_name)
                            (audio_speed_file workflow_id variant_name)
                            (output_file workflow_id variant_name),
      600%Z, answer) (runs tr) ->
  exited_zero answer = true ->
  probes tr <> [].
Proof.
  assert (Hfilter : forall a b c x y z,
             apply_video_filter_cmd a b c <> merge_audio_video_cmd x y z).
  { intros a b c x y z. unfold apply_video_filter_cmd, merge_audio_video_cmd.
    destruct (b =? "none"); discriminate. }
  destruct Hrun; intros Hin Hzero; revert Hin; project;
    unfold runs, probes, adjust_event, filter_event, merge_event;
    cbn [collect pick_run pick_exists In];
    try (rewrite (collect_none pick_run tv fetch_pick_run)
          by (eapply fetch_run_only; eassumption));
    cbn [In];
    intros Hin;
    repeat match goal with
           | H : _ \/ _ |- _ => destruct H
           | H : False |- _ => destruct H
           | H : (_, _, _) = (_, _, _) |- _ => injection H; clear H; intros
           end;
    try discriminate;
    try (exfalso; eapply Hfilter; eassumption);
    try congruence.
Qed.

(** Where the probe stands in a run: directly after the merge, which
    exited with status 0, and nothing was probed or measured before. *)
Lemma job_run_probed :
  probes tr <> [] ->
  exists before answer found after,
    tr = (before ++ merge_event workflow_id variant_name answer
                 :: Event (PathExists (output_file workflow_id variant_name)) found
                 :: after)%list
    /\ exited_zero answer = true
    /\ probes before = [] /\ sizes before = []
    /\ length (runs before) = 2%nat
    /\ forallb (fun x => exited_zero (snd x)) (runs before) = true
    /\ if found
       then (exists e,
                after = [Event (PathGetsize (output_file workflow_id variant_name))
                               (Raised e)]
                /\ r = Raised e)
            \/ (exists size rm timestamp,
                   after = [Event (PathGetsize (output_file workflow_id variant_name))
                                  (Ok size);
                            Event (Rmtree (work_dir workflow_id variant_name)) rm;
                            Event Now timestamp]
                   /\ r = Ok (SuccessBody "success" variant_name
                                (output_file workflow_id variant_name)
                                ("https://" ++ host_name ++ "/download/"
                                   ++ output_filename_of workflow_id variant_name)
                                size timestamp, 200%Z))
       else after = [] /\ r = Ok (ErrorBody "Output file not created", 400%Z).
Proof.
  destruct Hrun; intros Hp;
    try (exfalso; apply Hp; project; reflexivity).
  - exfalso. apply Hp. unfold probes. cbn [collect pick_exists].
    apply collect_none; [exact fetch_pick_exists | eapply fetch_run_only; eassumption].
  - exists (fetched workflow_id variant_name tv ta
              [adjust_event workflow_id variant_name config a1;
               filter_event workflow_id variant_name config a2]), a3, false, [].
    rewrite <- fetched_app. split; [reflexivity |]. split; [assumption |].
    project. cbn. exit_zero. repeat split; reflexivity.
  - exists (fetched workflow_id variant_name tv ta
              [adjust_event workflow_id variant_name config a1;
               filter_event workflow_id variant_name config a2]), a3, true,
           [Event (PathGetsize (output_file workflow_id variant_name)) (Raised e)].
    rewrite <- fetched_app. split; [reflexivity |]. split; [assumption |].
    project. cbn. exit_zero. repeat split; try reflexivity.
    left. exists e. split; reflexivity.
  - exists (fetched workflow_id variant_name tv ta
              [adjust_event workflow_id variant_name config a1;
               filter_event workflow_id variant_name config a2]), a3, true,
           [Event (PathGetsize (output_file workflow_id variant_name)) (Ok size);
            Event (Rmtree (work_dir workflow_id variant_name)) rm;
            Event Now timestamp].
    rewrite <- fetched_app. split; [reflexivity |]. split; [assumption |].
    project. cbn. exit_zero. repeat split; try reflexivity.
    right. exists size, rm, timestamp. split; reflexivity.
Qed.

End Exits.

(** ** Requests turned away before the first call *)

Lemma all_in_obj (fields : list string) (items : list (string * value)) :
  all_in fields (JObj items) = Ok (forallb (fun f => has_key f items) fields).
Proof.
  induction fields as [| f fs IH]; cbn; [reflexivity |].
  destruct (has_key f items); cbn; [exact IH | reflexivity].
Qed.

Lemma accepted_config (req : request) (video_url audio_url : value)
      (workflow_id variant_name : string) :
  accepted req video_url audio_url workflow_id variant_name ->
  exists config, assoc variant_name VARIANTS = Some config.
Proof.
  intros (items & _ & _ & _ & _ & _ & Hkey). exact (assoc_has_key _ _ Hkey).
Qed.

Section Early.
Context {W : Type} (h : handler W).

Lemma missing_fields_exit (req : request) (data : value) (w : W) :
  json req = Ok data ->
  all_in required_fields data = Ok false ->
  interp h (process_variant req) w =
  ((ErrorBody "Missing required fields", 400%Z), w, []).
Proof.
  intros Hjson Hall.
  unfold process_variant, process_variant_try, try_except, lift.
  rewrite Hjson. cbn [pbind bind]. rewrite Hall. reflexivity.
Qed.

Lemma variant_name_exit (req : request) (items : list (string * value))
      (v : value) (w : W) :
  json req = Ok (JObj items) ->
  all_in required_fields (JObj items) = Ok true ->
  assoc "variant_name" items = Some v ->
  match hash v with
  | Ok key =>
      in_VARIANTS key = false ->
      interp h (process_variant req) w =
      ((ErrorBody ("Unknown variant: " ++ str key), 400%Z), w, [])
  | Raised e =>
      interp h (process_variant req) w = ((ErrorBody (exn_str e), 500%Z), w, [])
  end.
Proof.
  intros Hjson Hall Hn.
  pose proof Hall as Hkeys. rewrite all_in_obj in Hkeys.
  injection Hkeys as Hkeys. cbn [forallb required_fields] in Hkeys.
  repeat (apply andb_true_iff in Hkeys as [?K Hkeys]).
  apply assoc_has_key in K as [vu Kv], K0 as [au Ka], K2 as [wf Kw].
  unfold process_variant, process_variant_try, try_except, lift, getitem.
  rewrite Hjson. cbn [pbind bind]. rewrite Hall. cbn [pbind bind negb].
  rewrite Kv, Ka, Hn, Kw. cbn [pbind bind].
  destruct (hash v) as [key | e]; cbn [pbind bind]; [| reflexivity].
  intros Hunknown. rewrite Hunknown. reflexivity.
Qed.

Lemma not_catalog_key_exit (req : request) (items : list (string * value))
      (v : value) (w : W) :
  json req = Ok (JObj items) ->
  assoc "variant_name" items = Some v ->
  catalog_key v = false ->
  interp h (process_variant req) w = (outcome h (process_variant req) w, w, []).
Proof.
  intros Hjson Hn Hcat.
  destruct (process_variant_exits h req w)
    as [(r & _ & _ & Hrun) | (vu & au & wf & vn & cfg & Hacc & _)].
  - unfold outcome. rewrite Hrun. reflexivity.
  - exfalso. destruct Hacc as (items' & Hjson' & _ & _ & Hn' & _ & Hkey).
    rewrite Hjson in Hjson'. injection Hjson' as <-.
    rewrite Hn in Hn'. injection Hn' as ->.
    cbn in Hcat. congruence.
Qed.

Lemma accepted_run (req : request) (video_url audio_url : value)
      (workflow_id variant_name : string) (w : W) :
  accepted req video_url audio_url workflow_id variant_name ->
  exists config,
    assoc variant_name VARIANTS = Some config
    /\ job_run (host req) video_url audio_url workflow_id variant_name config
               (outcome h (process_variant_try req) w)
               (trace h (process_variant req) w).
Proof.
  intros Hacc. destruct (accepted_config Hacc) as [config Hcfg].
  exists config. split; [exact Hcfg |].
  rewrite trace_respond. apply process_variant_try_run; assumption.
Qed.

End Early.

(* ================================================================== *)
(** * The claims                                                        *)
(* ================================================================== *)

Lemma josh_request_accepted :
  accepted josh_request (JStr "http://cdn/v.mp4") (JStr "http://cdn/a.mp3") "wf1" "josh".
Proof.
  exists [ ("video_url", JStr "http://cdn/v.mp4"); ("audio_url", JStr "http://cdn/a.mp3");
           ("variant_name", JStr "josh"); ("workflow_id", JStr "wf1") ].
  repeat split; reflexivity.
Defined.

(** ** C1 *)

(** For every accepted request and every environment, the workspace is
    created, and [shutil.rmtree] is called on it on the way to the
    success response only: no other exit removes it. *)
Lemma workspace_removed_on_success_only {W : Type} (h : handler W) (w : W)
      (req : request) (video_url audio_url : value) (workflow_id variant_name : string) :
  accepted req video_url audio_url workflow_id variant_name ->
  created (trace h (process_variant req) w) = [work_dir_of workflow_id variant_name]
  /\ removed (trace h (process_variant req) w) =
     (if (snd (outcome h (process_variant req) w) =? 200)%Z
      then [work_dir_of workflow_id variant_name] else []).
Proof.
  intros Hacc. destruct (accepted_run h w Hacc) as (config & _ & Hrun).
  split; [exact (job_run_created Hrun) |].
  rewrite (job_run_removed Hrun), outcome_respond.
  destruct (job_run_classified Hrun)
    as [(e & ->) | [(msg & _ & -> & _) | (size & ts & -> & _)]]; reflexivity.
Qed.

(** C1 (code defect): a /merge job whose video cannot be downloaded
    answers 400 "Failed to download video" and returns at once; the
    workspace directory it created is still on the disk afterwards and
    [shutil.rmtree] was never called.  The claim asks for the workspace
    to be removed on every failure exit as it is on success. *)
Theorem failed_download_leaves_workspace :
  interp (Sim.machine offline) (process_variant josh_request) [] =
  ((ErrorBody "Failed to download video", 400%Z),
   [("/tmp/n8n_video_processing/wf1/josh", Sim.Dir)],
   [ Event (Makedirs "/tmp/n8n_video_processing/wf1/josh") (Ok tt);
     Event (RequestsGet (JStr "http://cdn/v.mp4") 300)
           (Raised (Exn "ConnectionError" "Failed to establish a new connection")) ])
  /\ removed (trace (Sim.machine offline) (process_variant josh_request) []) = []
  /\ removed (trace (Sim.machine healthy) (process_variant josh_request) [])
     = ["/tmp/n8n_video_processing/wf1/josh"].
Proof.
  repeat split; vm_compute; reflexivity.
Qed.

(** ** C2 *)

(** C2 as stated fails: ffmpeg exits with status 0 and leaves an empty
    output file; the handler answers 200 with [file_size] 0. *)
Lemma empty_output_reported_as_success :
  outcome (Sim.machine (Sim.World (Sim.serves ["abc"]) (Sim.ffmpeg_writes 0) "T"))
          (process_variant josh_request) []
  = (SuccessBody "success" "josh" "/tmp/downloads/wf1_josh.mp4"
                 "https://worker.example/download/wf1_josh.mp4" 0 "T", 200%Z).
Proof. vm_compute. reflexivity. Qed.

(** C2 (amended): the handler verifies the output after the merge, and
    only then.  A merge that exited with status 0 is followed by a probe;
    the probe, when there is one, is the call made directly after that
    merge, on the output path, and no path was probed or measured before
    it.  When the probe says the file is missing the run ends there, with
    400 "Output file not created".  When it says the file is there, the
    next call measures the output path: if that raises, the answer is 500;
    otherwise the workspace is removed, the clock is read, and the answer
    is the success record whose [file_size] is the size measured, a size
    of zero included.  A success response is given on no other way. *)
Theorem output_verified_before_success {W : Type} (h : handler W) (w : W)
        (req : request) (video_url audio_url : value) (workflow_id variant_name : string) :
  accepted req video_url audio_url workflow_id variant_name ->
  let tr := trace h (process_variant req) w in
  let resp := outcome h (process_variant req) w in
  let out := output_file_of workflow_id variant_name in
  let merge := merge_audio_video_cmd (video_filtered_file workflow_id variant_name)
                                     (audio_speed_file workflow_id variant_name) out in
  (probes tr = [(out, false)] -> resp = (ErrorBody "Output file not created", 400%Z))
  /\ (forall status variant o url size timestamp,
        resp = (SuccessBody status variant o url size timestamp, 200%Z) ->
        o = out
        /\ probes tr = [(out, true)]
        /\ sizes tr = [(out, Ok size)]
        /\ forallb (fun x => exited_zero (snd x)) (runs tr) = true)
  /\ (forall answer,
        In (merge, 600%Z, answer) (runs tr) -> exited_zero answer = true ->
        probes tr <> [])
  /\ ((probes tr <> [] \/ snd resp = 200%Z) ->
      exists before answer found after,
        tr = (before ++ Event (SubprocessRun merge 600) answer
                     :: Event (PathExists out) found :: after)%list
        /\ exited_zero answer = true
        /\ probes before = [] /\ sizes before = []
        /\ length (runs before) = 2%nat
        /\ forallb (fun x => exited_zero (snd x)) (runs before) = true
        /\ if found
           then (exists e,
                    after = [Event (PathGetsize out) (Raised e)]
                    /\ resp = (ErrorBody (exn_str e), 500%Z))
                \/ (exists size rm timestamp,
                       after = [Event (PathGetsize out) (Ok size);
                                Event (Rmtree (work_dir_of workflow_id variant_name)) rm;
                                Event Now timestamp]
                       /\ resp = (SuccessBody "success" variant_name out
                                    ("https://" ++ host req ++ "/download/"
                                       ++ output_filename_of workflow_id variant_name)
                                    size timestamp, 200%Z))
           else after = [] /\ resp = (ErrorBody "Output file not created", 400%Z)).
Proof.
  intros Hacc tr resp out merge. destruct (accepted_run h w Hacc) as (config & _ & Hrun).
  destruct (job_run_verified Hrun) as [Hmissing Hfound].
  subst resp. rewrite outcome_respond.
  split; [| split; [| split]].
  - intros Hp. rewrite (Hmissing Hp). reflexivity.
  - intros status variant o url size timestamp Hr.
    destruct (outcome h (process_variant_try req) w) as [resp | e];
      [| discriminate Hr].
    cbn in Hr. subst resp.
    destruct (Hfound _ _ _ _ _ _ eq_refl) as (Ho & Hp & Hs & Hz).
    subst o. repeat split; assumption.
  - intros answer Hin Hz. exact (job_run_merged_probed Hrun answer Hin Hz).
  - intros Hp.
    assert (Hprobed : probes tr <> []).
    { destruct Hp as [Hp | H200]; [exact Hp |].
      destruct (outcome h (process_variant_try req) w) as [[[msg | st va o ur si ti] code] | e];
        cbn in H200; try discriminate H200.
      - subst code.
        destruct (job_run_classified Hrun)
          as [(e & He) | [(m & _ & He & _) | (size & ts & He & _)]]; discriminate He.
      - subst code. destruct (Hfound _ _ _ _ _ _ eq_refl) as (_ & Hpr & _).
        fold tr in Hpr. rewrite Hpr. discriminate. }
    destruct (job_run_probed Hrun Hprobed)
      as (before & answer & found & after & Htr & Hz & Hpb & Hsb & Hlen & Hall & Hafter).
    exists before, answer, found, after.
    split; [exact Htr |]. split; [exact Hz |]. split; [exact Hpb |].
    split; [exact Hsb |]. split; [exact Hlen |]. split; [exact Hall |].
    destruct found.
    + destruct Hafter as [(e & Ha & Hr) | (size & rm & ts & Ha & Hr)].
      * left. exists e. rewrite Hr. split; [exact Ha | reflexivity].
      * right. exists size, rm, ts. rewrite Hr. split; [exact Ha | reflexivity].
    + destruct Hafter as [Ha Hr]. rewrite Hr. split; [exact Ha | reflexivity].
Qed.

Lemma output_verified_before_success_witness :
  probes (trace (Sim.machine healthy) (process_variant josh_request) [])
  = [("/tmp/downloads/wf1_josh.mp4", true)]
  /\ sizes (trace (Sim.machine healthy) (process_variant josh_request) [])
     = [("/tmp/downloads/wf1_josh.mp4", Ok 10%N)]
  /\ exists before answer found after,
       trace (Sim.machine healthy) (process_variant josh_request) []
       = (before
            ++ Event (SubprocessRun
                        (merge_audio_video_cmd
                           "/tmp/n8n_video_processing/wf1/josh/video_filtered.mp4"
                           "/tmp/n8n_video_processing/wf1/josh/audio_speed.mp3"
                           "/tmp/downloads/wf1_josh.mp4") 600) answer
            :: Event (PathExists "/tmp/downloads/wf1_josh.mp4") found :: after)%list.
Proof.
  destruct (output_verified_before_success (Sim.machine healthy) [] josh_request_accepted)
    as (_ & H & _ & Hshape).
  destruct (H "success" "josh" "/tmp/downloads/wf1_josh.mp4"
              "https://worker.example/download/wf1_josh.mp4" 10%N
              "2024-01-01T00:00:00" eq_refl) as (_ & Hp & Hs & _).
  split; [exact Hp | split; [exact Hs |]].
  destruct (Hshape (or_intror eq_refl))
    as (before & answer & found & after & Htr & _).
  exists before, answer, found, after. exact Htr.
Defined.

(** ** C3 *)

(** C3 as stated fails: a job whose variant name is not in the catalog
    is answered 400 "Unknown variant" without a single call: no
    workspace, no fetch. *)
Lemma unknown_variant_fetches_nothing :
  catalog_key (JStr "nope") = false
  /\ interp (Sim.machine healthy) (process_variant nope_request) []
     = ((ErrorBody "Unknown variant: nope", 400%Z), [], [])
  /\ urls (trace (Sim.machine healthy) (process_variant nope_request) []) = []
  /\ created (trace (Sim.machine healthy) (process_variant nope_request) []) = [].
Proof. repeat split; vm_compute; reflexivity. Qed.

(** C3 (amended): the variant name is looked up in the catalog before
    the workspace is acquired: a request whose variant name is not a
    catalog key is answered without any call.  For a request that passes
    the validation the workspace is acquired first, then the video is
    fetched, then the audio; no encoder command is spawned before both
    fetches, and the calls of every run follow the order workspace, fetch,
    encoder, probe, size, cleanup, timestamp. *)
Theorem variant_checked_before_workspace {W : Type} (h : handler W) (w : W)
        (req : request) :
  ordered (trace h (process_variant req) w) = true
  /\ (forall items v,
        json req = Ok (JObj items) ->
        assoc "variant_name" items = Some v ->
        catalog_key v = false ->
        interp h (process_variant req) w = (outcome h (process_variant req) w, w, []))
  /\ (forall video_url audio_url workflow_id variant_name,
        accepted req video_url audio_url workflow_id variant_name ->
        let tr := trace h (process_variant req) w in
        created tr = [work_dir_of workflow_id variant_name]
        /\ ((urls tr = [] /\ runs tr = [])
            \/ (urls tr = [video_url] /\ runs tr = [])
            \/ urls tr = [video_url; audio_url])).
Proof.
  split; [| split].
  - destruct (process_variant_exits h req w)
      as [(r & _ & _ & Hrun) | (vu & au & wf & vn & cfg & _ & _ & Hrun)].
    + unfold trace. rewrite Hrun. reflexivity.
    + exact (job_run_ordered Hrun).
  - intros items v. apply not_catalog_key_exit.
  - intros vu au wf vn Hacc tr.
    destruct (accepted_run h w Hacc) as (config & _ & Hrun).
    split; [exact (job_run_created Hrun) | exact (job_run_urls Hrun)].
Qed.

Lemma variant_checked_before_workspace_witness :
  interp (Sim.machine healthy) (process_variant nope_request) []
  = ((ErrorBody "Unknown variant: nope", 400%Z), [], [])
  /\ urls (trace (Sim.machine healthy) (process_variant josh_request) [])
     = [JStr "http://cdn/v.mp4"; JStr "http://cdn/a.mp3"].
Proof.
  destruct (variant_checked_before_workspace (Sim.machine healthy) [] nope_request)
    as (_ & Hunknown & _).
  destruct (variant_checked_before_workspace (Sim.machine healthy) [] josh_request)
    as (_ & _ & Hknown).
  split.
  - exact (Hunknown _ (JStr "nope") eq_refl eq_refl eq_refl).
  - destruct (Hknown _ _ _ _ josh_request_accepted) as [_ [[H _] | [[H _] | H]]];
      [discriminate H | discriminate H | exact H].
Defined.

(** ** C5 *)

(** C5: the answer of /merge is one of three kinds.  Either an exception
    reached the catch-all handler and the answer is 500 with [str(e)] as
    error; or the handler returned one of its classified failures and
    the answer is 400 with that message as error; or it is 200 with the
    success record.  Whenever a stage failed (a fetch, an encoder run,
    the probe of the output) the status is 400; so it is for a body with
    a missing field and for a variant name that hashes and is not in the
    catalog.  A request that is not accepted by the validation is never
    answered 200.  For an accepted request the status is decided by what
    the environment answered: 500 exactly when creating the workspace or
    measuring the output raised, 400 exactly when a stage failed, and 200
    exactly when neither happened; and a 200 answer is the success record
    of the complete run: workspace, both fetches, the three encoder
    commands all exiting with status 0, the output found, its size
    measured and reported, the workspace removed, the clock read. *)
Theorem status_codes {W : Type} (h : handler W) (w : W) (req : request) :
  let r := outcome h (process_variant_try req) w in
  let resp := outcome h (process_variant req) w in
  let tr := trace h (process_variant req) w in
  ((exists e, r = Raised e /\ resp = (ErrorBody (exn_str e), 500%Z))
   \/ (exists msg, failure_message msg
                   /\ r = Ok (ErrorBody msg, 400%Z) /\ resp = (ErrorBody msg, 400%Z))
   \/ (exists variant out url size timestamp,
         r = Ok (SuccessBody "success" variant out url size timestamp, 200%Z)
         /\ resp = (SuccessBody "success" variant out url size timestamp, 200%Z)))
  /\ (stage_failed tr = true -> snd resp = 400%Z)
  /\ (forall data,
        json req = Ok data ->
        all_in required_fields data = Ok false ->
        resp = (ErrorBody "Missing required fields", 400%Z))
  /\ (forall items v key,
        json req = Ok (JObj items) ->
        all_in required_fields (JObj items) = Ok true ->
        assoc "variant_name" items = Some v ->
        hash v = Ok key ->
        in_VARIANTS key = false ->
        resp = (ErrorBody ("Unknown variant: " ++ str key), 400%Z))
  /\ (snd resp = 200%Z ->
      exists video_url audio_url workflow_id variant_name,
        accepted req video_url audio_url workflow_id variant_name)
  /\ (forall video_url audio_url workflow_id variant_name,
        accepted req video_url audio_url workflow_id variant_name ->
        (snd resp = 500%Z <-> crashed tr = true)
        /\ (snd resp = 400%Z <-> stage_failed tr = true)
        /\ (snd resp = 200%Z <-> stage_failed tr = false /\ crashed tr = false)
        /\ (snd resp = 200%Z ->
            exists config tv ta a1 a2 a3 size rm timestamp,
              assoc variant_name VARIANTS = Some config
              /\ fetch_run video_url true tv
              /\ fetch_run audio_url true ta
              /\ exited_zero a1 = true /\ exited_zero a2 = true /\ exited_zero a3 = true
              /\ tr = fetched workflow_id variant_name tv ta
                        [adjust_event workflow_id variant_name config a1;
                         filter_event workflow_id variant_name config a2;
                         merge_event workflow_id variant_name a3;
                         Event (PathExists (output_file_of workflow_id variant_name)) true;
                         Event (PathGetsize (output_file_of workflow_id variant_name))
                               (Ok size);
                         Event (Rmtree (work_dir_of workflow_id variant_name)) rm;
                         Event Now timestamp]
              /\ resp = (SuccessBody "success" variant_name
                           (output_file_of workflow_id variant_name)
                           ("https://" ++ host req ++ "/download/"
                              ++ output_filename_of workflow_id variant_name)
                           size timestamp, 200%Z))).
Proof.
  intros r resp tr. subst r resp tr. rewrite outcome_respond.
  split; [| split; [| split; [| split; [| split]]]].
  - destruct (process_variant_exits h req w)
      as [(r & Hearly & Hr & _) | (vu & au & wf & vn & cfg & _ & _ & Hrun)].
    + rewrite Hr. destruct Hearly as [e | | key Hkey].
      * left. exists e. split; reflexivity.
      * right; left. eexists. split; [constructor | split; reflexivity].
      * right; left. eexists. split; [constructor | split; reflexivity].
    + destruct (job_run_classified Hrun)
        as [(e & ->) | [(msg & Hmsg & -> & _) | (size & ts & -> & _)]].
      * left. exists e. split; reflexivity.
      * right; left. exists msg. split; [exact Hmsg | split; reflexivity].
      * right; right. do 5 eexists. split; reflexivity.
  - destruct (process_variant_exits h req w)
      as [(r & _ & _ & Hrun) | (vu & au & wf & vn & cfg & _ & _ & Hrun)].
    + unfold trace. rewrite Hrun. discriminate.
    + intros Hfail. destruct (job_run_stage_failed Hrun Hfail) as (msg & _ & ->).
      reflexivity.
  - intros data Hjson Hall. rewrite <- outcome_respond.
    unfold outcome. rewrite (missing_fields_exit h req w Hjson Hall). reflexivity.
  - intros items v key Hjson Hall Hn Hhash Hunknown. rewrite <- outcome_respond.
    pose proof (variant_name_exit h req w Hjson Hall Hn) as Hexit.
    rewrite Hhash in Hexit. unfold outcome. rewrite (Hexit Hunknown). reflexivity.
  - destruct (process_variant_exits h req w)
      as [(r & Hearly & Hr & _) | (vu & au & wf & vn & cfg & Hacc & _)].
    + rewrite Hr. destruct Hearly; cbn; discriminate.
    + intros _. exists vu, au, wf, vn. exact Hacc.
  - intros vu au wf vn Hacc.
    destruct (accepted_run h w Hacc) as (config & Hcfg & Hrun).
    destruct (job_run_status Hrun)
      as [(e & Hr & Hc & Hf) | [(msg & _ & Hr & Hf & Hc) | (size & ts & Hr & Hf & Hc)]];
      rewrite Hc, Hf.
    + rewrite Hr. cbn. repeat split; intros; try reflexivity; try discriminate.
      destruct H; discriminate.
    + rewrite Hr. cbn. repeat split; intros; try reflexivity; try discriminate.
      destruct H; discriminate.
    + destruct (job_run_success_trace Hrun Hr)
        as (tv & ta & a1 & a2 & a3 & rm & Hv & Ha & H1 & H2 & H3 & Htr).
      rewrite Hr. cbn [respond snd].
      split; [split; discriminate |].
      split; [split; discriminate |].
      split; [split; [intros _; split; reflexivity | reflexivity] |].
      intros _. exists config, tv, ta, a1, a2, a3, size, rm, ts.
      do 6 (split; [assumption |]). split; [exact Htr | reflexivity].
Qed.

Lemma status_codes_witness :
  snd (outcome (Sim.machine offline) (process_variant josh_request) []) = 400%Z
  /\ outcome (Sim.machine healthy) (process_variant nope_request) []
     = (ErrorBody "Unknown variant: nope", 400%Z)
  /\ (snd (outcome (Sim.machine healthy) (process_variant josh_request) []) = 200%Z
      <-> stage_failed (trace (Sim.machine healthy) (process_variant josh_request) []) = false
          /\ crashed (trace (Sim.machine healthy) (process_variant josh_request) []) = false).
Proof.
  destruct (status_codes (Sim.machine offline) [] josh_request) as (_ & Hfail & _).
  destruct (status_codes (Sim.machine healthy) [] nope_request) as (_ & _ & _ & Hunk & _).
  destruct (status_codes (Sim.machine healthy) [] josh_request)
    as (_ & _ & _ & _ & _ & Hacc).
  split; [| split].
  - apply Hfail. vm_compute. reflexivity.
  - exact (Hunk _ (JStr "nope") (SStr "nope") eq_refl eq_refl eq_refl eq_refl eq_refl).
  - exact (proj1 (proj2 (proj2 (Hacc _ _ _ _ josh_request_accepted)))).
Defined.

(** ** C6 *)

(** C6: [merge_audio_video] spawns exactly one command, with a timeout
    of 600 seconds: ffmpeg on the two inputs, the video stream copied
    ([-c:v copy]), the audio re-encoded to aac ([-c:a aac]), the first
    video stream of input 0 and the first audio stream of input 1 mapped,
    [-shortest], and the destination overwritten.  It returns [True]
    exactly when the command came back with exit status 0: a non-zero
    status and an exception of [subprocess.run] (the timeout among them)
    give [False]; and a run of the handler in which the merge command
    does not exit with status 0 is answered 400 "Failed to merge audio
    and video". *)
Theorem merge_invocation {W : Type} (h : handler W) (w : W)
        (video_path audio_path output_path : string) :
  let cmd := merge_audio_video_cmd video_path audio_path output_path in
  cmd = [ "ffmpeg"; "-i"; video_path; "-i"; audio_path;
          "-c:v"; "copy"; "-c:a"; "aac";
          "-map"; "0:v:0"; "-map"; "1:a:0"; "-shortest"; "-y"; output_path ]
  /\ (exists answer,
        runs (trace h (merge_audio_video video_path audio_path output_path) w)
        = [(cmd, 600%Z, answer)]
        /\ trace h (merge_audio_video video_path audio_path output_path) w
           = [Event (SubprocessRun cmd 600) answer]
        /\ outcome h (merge_audio_video video_path audio_path output_path) w
           = exited_zero answer)
  /\ (forall c, returncode c <> 0%Z -> exited_zero (Ok c) = false)
  /\ (forall e, exited_zero (Raised e) = false)
  /\ (forall (req : request) vu au wf vn answer,
        accepted req vu au wf vn ->
        In (merge_audio_video_cmd
              (PosixPath.join (work_dir_of wf vn) ["video_filtered.mp4"])
              (PosixPath.join (work_dir_of wf vn) ["audio_speed.mp3"])
              (output_file_of wf vn), 600%Z, answer)
           (runs (trace h (process_variant req) w)) ->
        exited_zero answer = false ->
        outcome h (process_variant req) w
        = (ErrorBody "Failed to merge audio and video", 400%Z)).
Proof.
  intros cmd. split; [reflexivity | split; [| split; [| split]]].
  - unfold trace, outcome. rewrite merge_audio_video_run. cbv zeta.
    fold cmd. destruct (@h _ (SubprocessRun cmd 600) w) as [answer w1].
    exists answer. repeat split; reflexivity.
  - intros c Hc. cbn. apply Z.eqb_neq. exact Hc.
  - reflexivity.
  - intros req vu au wf vn answer Hacc Hin Hfail.
    destruct (accepted_run h w Hacc) as (config & _ & Hrun).
    rewrite outcome_respond.
    exact (job_run_merge_failed Hrun answer Hin Hfail).
Qed.

Lemma merge_invocation_witness :
  outcome (Sim.machine (Sim.World (Sim.serves ["abc"]) (Sim.ffmpeg_hangs "-shortest" 10) "T"))
          (process_variant josh_request) []
  = (ErrorBody "Failed to merge audio and video", 400%Z).
Proof.
  destruct (merge_invocation
              (Sim.machine (Sim.World (Sim.serves ["abc"])
                                      (Sim.ffmpeg_hangs "-shortest" 10) "T"))
              [] "v" "a" "o") as (_ & _ & _ & _ & H).
  apply (H josh_request _ _ _ _
           (Raised (Exn "TimeoutExpired" "Command timed out"))
           josh_request_accepted).
  - vm_compute. right; right; left. reflexivity.
  - reflexivity.
Defined.

(** ** C7 *)

(** C7: [apply_video_filter] spawns exactly one command, with a timeout
    of 600 seconds.  With the filter "none" it is ffmpeg re-encoding the
    video with libx264 at crf 23, preset fast, and no [-vf] argument; with
    any other filter the same command with [-vf] followed by the filter
    as given.  It returns [True] exactly when the command came back with
    exit status 0; a run of the handler in which the filter command does
    not is answered 400 "Failed to apply video filter". *)
Theorem filter_invocation {W : Type} (h : handler W) (w : W)
        (video_path filter_spec output_path : string) :
  let cmd := apply_video_filter_cmd video_path filter_spec output_path in
  (filter_spec = "none" ->
   cmd = [ "ffmpeg"; "-i"; video_path;
           "-c:v"; "libx264"; "-crf"; "23"; "-preset"; "fast"; "-y"; output_path ])
  /\ (filter_spec <> "none" ->
      cmd = [ "ffmpeg"; "-i"; video_path; "-vf"; filter_spec;
              "-c:v"; "libx264"; "-crf"; "23"; "-preset"; "fast"; "-y"; output_path ])
  /\ (exists answer,
        trace h (apply_video_filter video_path filter_spec output_path) w
        = [Event (SubprocessRun cmd 600) answer]
        /\ outcome h (apply_video_filter video_path filter_spec output_path) w
           = exited_zero answer)
  /\ (forall c, returncode c <> 0%Z -> exited_zero (Ok c) = false)
  /\ (forall e, exited_zero (Raised e) = false)
  /\ (forall (req : request) vu au wf vn config answer,
        accepted req vu au wf vn ->
        assoc vn VARIANTS = Some config ->
        In (apply_video_filter_cmd
              (PosixPath.join (work_dir_of wf vn) ["source_video.mp4"])
              (filter config)
              (PosixPath.join (work_dir_of wf vn) ["video_filtered.mp4"]), 600%Z, answer)
           (runs (trace h (process_variant req) w)) ->
        exited_zero answer = false ->
        outcome h (process_variant req) w
        = (ErrorBody "Failed to apply video filter", 400%Z)).
Proof.
  intros cmd. subst cmd. unfold apply_video_filter_cmd.
  split; [| split; [| split; [| split; [| split]]]].
  - intros ->. reflexivity.
  - intros Hne. apply String.eqb_neq in Hne. rewrite Hne. reflexivity.
  - unfold trace, outcome. rewrite apply_video_filter_run. cbv zeta.
    unfold apply_video_filter_cmd.
    destruct (@h _ (SubprocessRun _ 600) w) as [answer w1].
    exists answer. split; reflexivity.
  - intros c Hc. cbn. apply Z.eqb_neq. exact Hc.
  - reflexivity.
  - intros req vu au wf vn config answer Hacc Hcfg Hin Hfail.
    destruct (accepted_run h w Hacc) as (config' & Hcfg' & Hrun).
    rewrite Hcfg in Hcfg'. injection Hcfg' as <-.
    rewrite outcome_respond.
    exact (job_run_filter_failed Hrun answer Hin Hfail).
Qed.

Lemma filter_invocation_witness :
  apply_video_filter_cmd "in.mp4" "none" "out.mp4"
  = [ "ffmpeg"; "-i"; "in.mp4";
      "-c:v"; "libx264"; "-crf"; "23"; "-preset"; "fast"; "-y"; "out.mp4" ]
  /\ apply_video_filter_cmd "in.mp4" "eq=gamma=1.01" "out.mp4"
     = [ "ffmpeg"; "-i"; "in.mp4"; "-vf"; "eq=gamma=1.01";
         "-c:v"; "libx264"; "-crf"; "23"; "-preset"; "fast"; "-y"; "out.mp4" ]
  /\ outcome (Sim.machine (Sim.World (Sim.serves ["abc"]) (Sim.ffmpeg_rejects "-vf" 10) "T"))
             (process_variant josh_request) []
     = (ErrorBody "Failed to apply video filter", 400%Z).
Proof.
  split; [| split].
  - destruct (filter_invocation (Sim.machine healthy) [] "in.mp4" "none" "out.mp4")
      as (H & _).
    exact (H eq_refl).
  - destruct (filter_invocation (Sim.machine healthy) [] "in.mp4" "eq=gamma=1.01" "out.mp4")
      as (_ & H & _).
    apply H. discriminate.
  - destruct (filter_invocation
                (Sim.machine (Sim.World (Sim.serves ["abc"])
                                        (Sim.ffmpeg_rejects "-vf" 10) "T"))
                [] "v" "f" "o") as (_ & _ & _ & _ & _ & H).
    apply (H josh_request _ _ _ _ (Variant "Rsz5u2Huh1hPlPr0oxRQ" 1.01 "eq=contrast=1.02")
             (Ok (Completed 1 "" "Conversion failed!")) josh_request_accepted eq_refl).
    + vm_compute. right; left. reflexivity.
    + reflexivity.
Defined.

(** ** C8 *)

Lemma error_status_range (code : Z) :
  is_error_status code = true <-> (400 <= code < 600)%Z.
Proof. unfold is_error_status. rewrite andb_true_iff, Z.leb_le, Z.ltb_lt. tauto. Qed.

Lemma write_chunks_accepted {W : Type} (h : handler W) (path : string)
      (cs : list string) (w : W) :
  accepts_writes h -> outcome h (write_chunks path cs) w = Ok tt.
Proof.
  intros Hw. unfold outcome. revert w.
  induction cs as [| c rest IH]; intros w; cbn; [reflexivity |].
  destruct (Hw w) as (_ & Hwrite & _). specialize (Hwrite path c).
  destruct (@h _ (FileWrite path c) w) as [[[] | e] w1]; cbn in Hwrite |- *;
    [| discriminate Hwrite].
  specialize (IH w1). destruct (interp h (write_chunks path rest) w1) as [[r w2] tr].
  exact IH.
Qed.

(** A status that [raise_for_status] lets through, a body that arrives
    whole and a destination that takes it: the fetch succeeds. *)
Lemma download_file_succeeds {W : Type} (h : handler W) (url : value) (dest : string)
      (w w1 : W) (resp : response) :
  @h _ (RequestsGet url 300) w = (Ok resp, w1) ->
  is_error_status (status_code resp) = false ->
  broken resp = None ->
  accepts_writes h ->
  outcome h (download_file url dest) w = true.
Proof.
  intros Hget Hst Hb Hw.
  unfold outcome, download_file, try_except. cbn. rewrite Hget. cbn.
  unfold raise_for_status. rewrite Hst. cbn.
  destruct (Hw w1) as (Hopen & _ & _). specialize (Hopen dest).
  destruct (@h _ (OpenWb dest) w1) as [[[] | e] w2]; cbn in Hopen |- *;
    [| discriminate Hopen].
  unfold pbind, try_finally. rewrite !interp_bind.
  pose proof (write_chunks_accepted dest (chunks resp) w2 Hw) as Hchunks.
  unfold outcome in Hchunks.
  destruct (interp h (write_chunks dest (chunks resp)) w2) as [[r w3] twc].
  cbn in Hchunks. subst r. unfold end_of_body. rewrite Hb. cbn.
  destruct (Hw w3) as (_ & _ & Hclose). specialize (Hclose dest).
  destruct (@h _ (FileClose dest) w3) as [[[] | e] w4]; cbn in Hclose |- *;
    [reflexivity | discriminate Hclose].
Qed.

(** C8 as stated fails: not every status other than a success status is
    a failed fetch.  A URL answered 304 is saved like a 200: the fetch
    returns [True], the three encoder commands are spawned, and the job
    is answered 200. *)
Lemma not_modified_counts_as_fetched :
  is_error_status 304 = false
  /\ outcome (Sim.machine (Sim.World (Sim.answers_status 304) (Sim.ffmpeg_writes 10) "T"))
             (download_file (JStr "http://cdn/v.mp4") "/tmp/v") [] = true
  /\ outcome (Sim.machine (Sim.World (Sim.answers_status 304) (Sim.ffmpeg_writes 10) "T"))
             (process_variant josh_request) []
     = (SuccessBody "success" "josh" "/tmp/downloads/wf1_josh.mp4"
                    "https://worker.example/download/wf1_josh.mp4" 10 "T", 200%Z)
  /\ length (runs (trace (Sim.machine (Sim.World (Sim.answers_status 304)
                                                 (Sim.ffmpeg_writes 10) "T"))
                         (process_variant josh_request) [])) = 3%nat.
Proof. repeat split; vm_compute; reflexivity. Qed.

(** C8 (amended): [download_file] returns [False] whenever the fetch
    fails, in whatever way: [requests.get] raising (no connection,
    timeout), an error status, a body that breaks off, a destination that
    cannot be written; it returns [True] only when none of this happened.
    The error statuses are those [raise_for_status] rejects, 400 to 599;
    any other status (1xx, 3xx, 600 and above, as well as 2xx) is saved
    like a success when the body arrives whole and the destination takes
    it.  A run of the handler in which a fetch failed is answered 400
    "Failed to download video" or "Failed to download audio", and no
    command is spawned in it: neither the speed adjustment, nor the
    filter, nor the merge. *)
Theorem fetch_failure_stops_job {W : Type} (h : handler W) (w : W) :
  (forall url dest_path,
      (forall e w1,
          @h _ (RequestsGet url 300) w = (Raised e, w1) ->
          outcome h (download_file url dest_path) w = false)
      /\ (forall resp w1,
             @h _ (RequestsGet url 300) w = (Ok resp, w1) ->
             is_error_status (status_code resp) = true ->
             outcome h (download_file url dest_path) w = false)
      /\ outcome h (download_file url dest_path) w
         = negb (existsb fetch_failed (trace h (download_file url dest_path) w))
      /\ (forall resp w1,
             @h _ (RequestsGet url 300) w = (Ok resp, w1) ->
             (status_code resp < 400 \/ 600 <= status_code resp)%Z ->
             broken resp = None ->
             accepts_writes h ->
             outcome h (download_file url dest_path) w = true))
  /\ (forall code, is_error_status code = true <-> (400 <= code < 600)%Z)
  /\ (forall req : request,
         existsb fetch_failed (trace h (process_variant req) w) = true ->
         (outcome h (process_variant req) w = (ErrorBody "Failed to download video", 400%Z)
          \/ outcome h (process_variant req) w
             = (ErrorBody "Failed to download audio", 400%Z))
         /\ runs (trace h (process_variant req) w) = []).
Proof.
  split; [| split].
  - intros url dest_path. split; [| split; [| split]].
    + intros e w1 Hget. unfold outcome, download_file, try_except. cbn.
      rewrite Hget. reflexivity.
    + intros resp w1 Hget Hstatus.
      unfold outcome, download_file, try_except, raise_for_status. cbn.
      rewrite Hget. cbn. rewrite Hstatus. reflexivity.
    + destruct (download_file_run h url dest_path w) as (_ & _ & Hfail).
      rewrite Hfail, negb_involutive. reflexivity.
    + intros resp w1 Hget Hcode Hb Hw.
      apply (@download_file_succeeds _ h url dest_path w w1 resp Hget);
        [| exact Hb | exact Hw].
      destruct (is_error_status (status_code resp)) eqn:Hst; [| reflexivity].
      apply error_status_range in Hst. lia.
  - exact error_status_range.
  - intros req Hfail.
    destruct (process_variant_exits h req w)
      as [(r & _ & _ & Hrun) | (vu & au & wf & vn & cfg & _ & _ & Hrun)].
    + unfold trace in Hfail. rewrite Hrun in Hfail. discriminate Hfail.
    + rewrite outcome_respond.
      destruct (job_run_fetch_failed Hrun Hfail) as [[-> | ->] Hruns];
        (split; [| exact Hruns]); [left | right]; reflexivity.
Qed.

Lemma fetch_failure_stops_job_witness :
  outcome (Sim.machine offline) (download_file (JStr "http://cdn/v.mp4") "/tmp/v") [] = false
  /\ outcome (Sim.machine (Sim.World (Sim.answers_status 404) (Sim.ffmpeg_writes 10) "T"))
             (download_file (JStr "http://cdn/v.mp4") "/tmp/v") [] = false
  /\ runs (trace (Sim.machine offline) (process_variant josh_request) []) = []
  /\ outcome (Sim.sink (Sim.World (Sim.answers_status 304) (Sim.ffmpeg_writes 10) "T"))
             (download_file (JStr "http://cdn/v.mp4") "/tmp/v") tt = true.
Proof.
  split; [| split; [| split]].
  - destruct (fetch_failure_stops_job (Sim.machine offline) []) as [H _].
    destruct (H (JStr "http://cdn/v.mp4") "/tmp/v") as (Hraise & _).
    exact (Hraise _ _ eq_refl).
  - destruct (fetch_failure_stops_job
                (Sim.machine (Sim.World (Sim.answers_status 404) (Sim.ffmpeg_writes 10) "T"))
                []) as [H _].
    destruct (H (JStr "http://cdn/v.mp4") "/tmp/v") as (_ & Hstatus & _).
    exact (Hstatus _ _ eq_refl eq_refl).
  - destruct (fetch_failure_stops_job (Sim.machine offline) []) as (_ & _ & H).
    destruct (H josh_request) as [_ Hruns]; [vm_compute; reflexivity | exact Hruns].
  - destruct (fetch_failure_stops_job
                (Sim.sink (Sim.World (Sim.answers_status 304) (Sim.ffmpeg_writes 10) "T"))
                tt) as [H _].
    destruct (H (JStr "http://cdn/v.mp4") "/tmp/v") as (_ & _ & _ & Hsaved).
    apply (Hsaved _ _ eq_refl); [left; reflexivity | reflexivity |].
    intros []. repeat split; reflexivity.
Defined.

(** ** C9 *)

Lemma assoc_In {A : Type} (key : string) (items : list (string * A)) (v : A) :
  assoc key items = Some v -> In (key, v) items.
Proof.
  induction items as [| [k a] rest IH]; cbn; [discriminate |].
  destruct (String.eqb_spec k key) as [-> | _].
  - intros [= ->]. left. reflexivity.
  - intros H. right. exact (IH H).
Qed.

(** C9: the catalog has the five variants pablo, josh, michael, ryan and
    brad, and the speed of each lies in [0.98, 1.02], hence in the range
    [0.5, 2.0] that atempo accepts. *)
Theorem catalog_speeds_in_range :
  map fst VARIANTS = ["pablo"; "josh"; "michael"; "ryan"; "brad"]
  /\ forall name config,
       assoc name VARIANTS = Some config ->
       (0.5 <= speed config /\ speed config <= 2.0)%Q
       /\ (0.98 <= speed config /\ speed config <= 1.02)%Q.
Proof.
  split; [reflexivity |].
  intros name config Hget. apply assoc_In in Hget.
  assert (Hall : Forall (fun p : string * variant =>
                           ((0.5 <= speed (snd p) /\ speed (snd p) <= 2.0)
                            /\ (0.98 <= speed (snd p) /\ speed (snd p) <= 1.02))%Q)
                        VARIANTS).
  { unfold VARIANTS. repeat constructor; cbn; unfold Qle; cbn; lia. }
  rewrite Forall_forall in Hall. exact (Hall _ Hget).
Qed.

Lemma catalog_speeds_in_range_witness :
  (0.98 <= 1.01 /\ 1.01 <= 1.02)%Q.
Proof.
  destruct catalog_speeds_in_range as [_ H].
  exact (proj2 (H "josh" (Variant "Rsz5u2Huh1hPlPr0oxRQ" 1.01 "eq=contrast=1.02") eq_refl)).
Defined.

(** ** C10 *)

(** C10 as stated fails: a body that holds the four fields, with a JSON
    array as variant name, is not answered 400: the array cannot be
    hashed, [variant_name not in VARIANTS] raises, the answer is 500. *)
Lemma unhashable_variant_answers_500 :
  (exists items, json list_variant_request = Ok (JObj items)
                 /\ assoc "variant_name" items = Some (JArr [JStr "josh"]))
  /\ catalog_key (JArr [JStr "josh"]) = false
  /\ interp (Sim.machine healthy) (process_variant list_variant_request) []
     = ((ErrorBody "unhashable type: 'list'", 500%Z), [], []).
Proof.
  split; [eexists; split; reflexivity | split; vm_compute; reflexivity].
Qed.

(** C10 (amended): a /merge request whose body is a JSON object lacking
    one of the four fields is answered 400 "Missing required fields"; one
    that holds them, with a variant name that is not a catalog key, is
    answered 400 "Unknown variant" when the name is a string, a number,
    a boolean or null, and 500 when it is an array or an object (which
    cannot be hashed).  In each case the handler makes no call at all: no
    directory is created, nothing is downloaded, no process is spawned,
    and the environment is left as it was. *)
Theorem rejected_without_side_effect {W : Type} (h : handler W) (w : W)
        (req : request) (items : list (string * value)) :
  json req = Ok (JObj items) ->
  (forallb (fun f => has_key f items) required_fields = false ->
   interp h (process_variant req) w
   = ((ErrorBody "Missing required fields", 400%Z), w, []))
  /\ (forall v,
        forallb (fun f => has_key f items) required_fields = true ->
        assoc "variant_name" items = Some v ->
        catalog_key v = false ->
        match hash v with
        | Ok key =>
            interp h (process_variant req) w
            = ((ErrorBody ("Unknown variant: " ++ str key), 400%Z), w, [])
        | Raised e =>
            interp h (process_variant req) w = ((ErrorBody (exn_str e), 500%Z), w, [])
        end).
Proof.
  intros Hjson. split.
  - intros Hmissing. apply (missing_fields_exit h req w Hjson).
    rewrite all_in_obj, Hmissing. reflexivity.
  - intros v Hpresent Hn Hcat.
    assert (Hall : all_in required_fields (JObj items) = Ok true)
      by (rewrite all_in_obj, Hpresent; reflexivity).
    pose proof (variant_name_exit h req w Hjson Hall Hn) as Hexit.
    destruct v as [| b | n | s | l | o]; cbn [hash] in *;
      try exact Hexit; apply Hexit; try reflexivity.
    exact Hcat.
Qed.

Lemma rejected_without_side_effect_witness :
  interp (Sim.machine healthy)
         (process_variant (Request (Ok (JObj [("video_url", JStr "http://cdn/v.mp4")]))
                                   "worker.example")) []
  = ((ErrorBody "Missing required fields", 400%Z), [], [])
  /\ interp (Sim.machine healthy) (process_variant nope_request) []
     = ((ErrorBody "Unknown variant: nope", 400%Z), [], []).
Proof.
  split.
  - destruct (rejected_without_side_effect (Sim.machine healthy) []
                (Request (Ok (JObj [("video_url", JStr "http://cdn/v.mp4")])) "worker.example")
                eq_refl) as [H _].
    exact (H eq_refl).
  - destruct (rejected_without_side_effect (Sim.machine healthy) [] nope_request eq_refl)
      as [_ H].
    exact (H (JStr "nope") eq_refl eq_refl eq_refl).
Defined.

(** ** C4 *)

(** *** Strings and paths *)

Lemma append_assoc (a b c : string) : (a ++ b) ++ c = a ++ (b ++ c).
Proof. induction a as [| x a IH]; cbn; [reflexivity | rewrite IH; reflexivity]. Qed.

Lemma length_append (a b : string) :
  String.length (a ++ b) = (String.length a + String.length b)%nat.
Proof. induction a as [| x a IH]; cbn; [reflexivity | rewrite IH; reflexivity]. Qed.

Lemma list_ascii_of_append (a b : string) :
  list_ascii_of_string (a ++ b)
  = (list_ascii_of_string a ++ list_ascii_of_string b)%list.
Proof. induction a as [| x a IH]; cbn; [reflexivity | rewrite IH; reflexivity]. Qed.

Lemma list_ascii_of_string_inj (a b : string) :
  list_ascii_of_string a = list_ascii_of_string b -> a = b.
Proof.
  intros H. rewrite <- (string_of_list_ascii_of_string a),
                    <- (string_of_list_ascii_of_string b), H.
  reflexivity.
Qed.

Module PathFacts.
Import PosixPath.

Lemma has_sep_append (a b : string) : has_sep (a ++ b) = has_sep a || has_sep b.
Proof.
  induction a as [| x a IH]; cbn; [reflexivity |].
  rewrite IH, orb_assoc. reflexivity.
Qed.

Lemma no_sep_starts (s : string) : has_sep s = false -> starts_with_sep s = false.
Proof.
  destruct s as [| x s]; cbn; [reflexivity |].
  intros H. apply orb_false_iff in H as [H _]. exact H.
Qed.

Lemma ends_with_sep_append (a b : string) :
  b <> "" -> ends_with_sep (a ++ b) = ends_with_sep b.
Proof.
  intros Hb. destruct b as [| y b]; [contradiction |].
  induction a as [| x a IH]; [reflexivity |].
  cbn [append]. rewrite <- IH. destruct a; reflexivity.
Qed.

Lemma no_sep_ends (s : string) : has_sep s = false -> ends_with_sep s = false.
Proof.
  induction s as [| x s IH]; [reflexivity |].
  cbn [has_sep]. intros H. apply orb_false_iff in H as [Hx Hs].
  destruct s as [| y s]; [exact Hx | exact (IH Hs)].
Qed.

Lemma split_append_sep (a rest : string) :
  has_sep a = false -> split (a ++ String sep rest) = a :: split rest.
Proof.
  induction a as [| x a IH]; cbn [has_sep append]; intros H.
  - reflexivity.
  - apply orb_false_iff in H as [Hx Ha].
    cbn [split]. rewrite Hx, (IH Ha). reflexivity.
Qed.

Lemma split_no_sep (a : string) : has_sep a = false -> split a = [a].
Proof.
  induction a as [| x a IH]; cbn [has_sep]; intros H; [reflexivity |].
  apply orb_false_iff in H as [Hx Ha].
  cbn [split]. rewrite Hx, (IH Ha). reflexivity.
Qed.

Lemma is_prefix_refl (p : list string) : is_prefix p p = true.
Proof.
  induction p as [| x p IH]; cbn; [reflexivity |].
  rewrite String.eqb_refl, IH. reflexivity.
Qed.

Lemma plain_spec (s : string) :
  plain s = true -> has_sep s = false /\ s <> "" /\ s <> ".".
Proof.
  unfold plain. intros H.
  apply andb_true_iff in H as [H H3]. apply andb_true_iff in H as [H1 H2].
  apply negb_true_iff in H1, H2, H3.
  apply String.eqb_neq in H2, H3. auto.
Qed.

End PathFacts.

Lemma catalog_key_names (v : string) :
  has_key v VARIANTS = true -> In v catalog_names.
Proof.
  unfold has_key, VARIANTS, catalog_names. cbn [assoc].
  repeat match goal with
         | |- context [String.eqb ?k v] =>
             destruct (String.eqb_spec k v) as [<- | _]; [intros _; cbn; tauto |]
         end.
  discriminate.
Qed.

Lemma catalog_name_facts (variant_name : string) :
  In variant_name catalog_names ->
  PosixPath.has_sep variant_name = false
  /\ (variant_name =? "") = false
  /\ (variant_name =? ".") = false
  /\ (variant_name =? "..") = false
  /\ (variant_name =? "n8n_video_processing") = false
  /\ ("n8n_video_processing" =? variant_name) = false.
Proof.
  intros Hname. unfold catalog_names in Hname. cbn [In] in Hname.
  repeat match goal with
         | H : _ \/ _ |- _ => destruct H
         | H : False |- _ => destruct H
         end;
    subst variant_name; repeat split; vm_compute; reflexivity.
Qed.

Section Paths.
Import PosixPath PathFacts.
Variables (workflow_id variant_name : string).
Hypothesis Hplain : plain workflow_id = true.
Hypothesis Hname : In variant_name catalog_names.

Lemma work_dir_of_plain :
  work_dir_of workflow_id variant_name
  = "/tmp/n8n_video_processing/" ++ workflow_id ++ "/" ++ variant_name.
Proof.
  destruct (plain_spec _ Hplain) as (Hsep & Hne & _).
  unfold work_dir_of, join. cbn [fold_left].
  assert (H1 : join_step TEMP_FOLDER workflow_id
               = "/tmp/n8n_video_processing/" ++ workflow_id).
  { unfold join_step. rewrite (no_sep_starts _ Hsep). reflexivity. }
  rewrite H1. unfold join_step.
  assert (Hv : starts_with_sep variant_name = false).
  { apply no_sep_starts. exact (proj1 (catalog_name_facts Hname)). }
  rewrite Hv.
  rewrite (ends_with_sep_append "/tmp/n8n_video_processing/" Hne).
  rewrite (no_sep_ends _ Hsep). cbn [String.eqb append orb].
  rewrite ?append_assoc. reflexivity.
Qed.

(** Where the workspace is: below the temporary folder, or, for the
    workflow id "..", beside it. *)
Lemma resolve_work_dir :
  resolve (work_dir_of workflow_id variant_name)
  = if workflow_id =? ".." then ["tmp"; variant_name]
    else ["tmp"; "n8n_video_processing"; workflow_id; variant_name].
Proof.
  destruct (plain_spec _ Hplain) as (Hsep & Hne & Hdot).
  destruct (catalog_name_facts Hname) as (Hvsep & Hv1 & Hv2 & Hv3 & _).
  rewrite work_dir_of_plain. unfold resolve.
  change ("/tmp/n8n_video_processing/" ++ workflow_id ++ "/" ++ variant_name)
    with ("" ++ String sep ("tmp" ++ String sep ("n8n_video_processing"
            ++ String sep (workflow_id ++ String sep variant_name)))).
  rewrite !split_append_sep by (reflexivity || assumption).
  rewrite (split_no_sep _ Hvsep).
  apply String.eqb_neq in Hne, Hdot.
  cbn [walk String.eqb Ascii.eqb Bool.eqb orb andb tl].
  rewrite Hne, Hdot. cbn [orb].
  destruct (workflow_id =? ".."); cbn [walk tl]; rewrite Hv1, Hv2, Hv3; reflexivity.
Qed.

Lemma output_file_of_plain :
  output_file_of workflow_id variant_name
  = "/tmp/downloads/" ++ output_filename_of workflow_id variant_name.
Proof.
  destruct (plain_spec _ Hplain) as (Hsep & Hne & _).
  unfold output_file_of, join. cbn [fold_left]. unfold join_step.
  assert (Hs : starts_with_sep (output_filename_of workflow_id variant_name) = false).
  { unfold output_filename_of. destruct workflow_id as [| c s]; [contradiction |].
    cbn in *. apply orb_false_iff in Hsep as [Hc _]. exact Hc. }
  rewrite Hs. reflexivity.
Qed.

Lemma output_filename_facts :
  let name := output_filename_of workflow_id variant_name in
  has_sep name = false
  /\ (name =? "") = false /\ (name =? ".") = false /\ (name =? "..") = false.
Proof.
  destruct (plain_spec _ Hplain) as (Hsep & _ & _).
  destruct (catalog_name_facts Hname) as (Hvsep & _).
  intros name.
  assert (Hlen : (5 <= String.length name)%nat).
  { unfold name, output_filename_of. rewrite !length_append. cbn. lia. }
  split; [| repeat split; apply String.eqb_neq; intros E; rewrite E in Hlen;
            cbn in Hlen; lia].
  unfold name, output_filename_of. rewrite !has_sep_append, Hsep, Hvsep. reflexivity.
Qed.

Lemma resolve_output_file :
  resolve (output_file_of workflow_id variant_name)
  = ["tmp"; "downloads"; output_filename_of workflow_id variant_name].
Proof.
  destruct output_filename_facts as (Hsep & H1 & H2 & H3).
  rewrite output_file_of_plain. unfold resolve.
  change ("/tmp/downloads/" ++ output_filename_of workflow_id variant_name)
    with ("" ++ String sep ("tmp" ++ String sep ("downloads"
            ++ String sep (output_filename_of workflow_id variant_name)))).
  rewrite !split_append_sep by reflexivity.
  rewrite (split_no_sep _ Hsep).
  cbn [walk String.eqb Ascii.eqb Bool.eqb orb andb tl].
  rewrite H1, H2, H3. reflexivity.
Qed.

End Paths.

(** The name of the output file determines the job: a variant name holds
    no underscore, so the last one is the separator. *)
Lemma output_filename_inj (wf1 wf2 v1 v2 : string) :
  In v1 catalog_names -> In v2 catalog_names ->
  output_filename_of wf1 v1 = output_filename_of wf2 v2 ->
  wf1 = wf2 /\ v1 = v2.
Proof.
  intros H1 H2 Heq. unfold output_filename_of in Heq.
  apply (f_equal list_ascii_of_string) in Heq.
  rewrite !list_ascii_of_append in Heq.
  apply (f_equal (@rev ascii)) in Heq.
  rewrite !rev_app_distr in Heq.
  unfold catalog_names in H1, H2. cbn [In] in H1, H2.
  repeat match goal with
         | H : _ \/ _ |- _ => destruct H
         | H : False |- _ => destruct H
         end;
    subst v1 v2; cbn in Heq; try discriminate Heq;
    (split; [| reflexivity]);
    apply list_ascii_of_string_inj;
    rewrite <- (rev_involutive (list_ascii_of_string wf1)),
            <- (rev_involutive (list_ascii_of_string wf2));
    f_equal; congruence.
Qed.

(** C4 as stated fails for workflow ids that are not plain names: "a"
    and "a/" name the same workspace, an absolute workflow id escapes
    the output folder and lands on the artifact of another job, and the
    workspace of the empty workflow id holds the workspaces of the
    workflow id "pablo". *)
Lemma distinct_jobs_can_collide :
  ("a", "pablo") <> ("a/", "pablo")
  /\ work_dir_of "a" "pablo" = work_dir_of "a/" "pablo"
  /\ ("a", "pablo") <> ("/tmp/downloads/a", "pablo")
  /\ output_file_of "a" "pablo" = output_file_of "/tmp/downloads/a" "pablo"
  /\ ("", "pablo") <> ("pablo", "josh")
  /\ PosixPath.overlap (work_dir_of "" "pablo") (work_dir_of "pablo" "josh") = true.
Proof.
  repeat split; try discriminate; vm_compute; reflexivity.
Qed.

(** C4 (amended): for workflow ids that are plain names (not empty, no
    "/", not ".") and variant names of the catalog, two jobs with
    distinct (workflow id, variant name) have workspaces that are
    distinct paths, neither of which lies inside the other, and output
    files that are distinct paths and distinct files; two jobs with the
    same pair have the same output file, which the merge command is told
    to overwrite. *)
Theorem plain_jobs_do_not_collide (wf1 wf2 v1 v2 : string) :
  PosixPath.plain wf1 = true ->
  PosixPath.plain wf2 = true ->
  has_key v1 VARIANTS = true ->
  has_key v2 VARIANTS = true ->
  ((wf1, v1) <> (wf2, v2) ->
   PosixPath.overlap (work_dir_of wf1 v1) (work_dir_of wf2 v2) = false
   /\ work_dir_of wf1 v1 <> work_dir_of wf2 v2
   /\ PosixPath.resolve (output_file_of wf1 v1) <> PosixPath.resolve (output_file_of wf2 v2)
   /\ output_file_of wf1 v1 <> output_file_of wf2 v2)
  /\ ((wf1, v1) = (wf2, v2) ->
      output_file_of wf1 v1 = output_file_of wf2 v2
      /\ forall video audio,
           skipn 14 (merge_audio_video_cmd video audio (output_file_of wf1 v1))
           = ["-y"; output_file_of wf2 v2]).
Proof.
  intros Hp1 Hp2 Hk1 Hk2.
  apply catalog_key_names in Hk1, Hk2.
  split.
  - intros Hne.
    assert (Hover : PosixPath.overlap (work_dir_of wf1 v1) (work_dir_of wf2 v2) = false).
    { unfold PosixPath.overlap.
      rewrite (@resolve_work_dir _ _ Hp1 Hk1), (@resolve_work_dir _ _ Hp2 Hk2).
      destruct (catalog_name_facts Hk1) as (_ & _ & _ & _ & Ha1 & Hb1).
      destruct (catalog_name_facts Hk2) as (_ & _ & _ & _ & Ha2 & Hb2).
      assert (Hpair : (wf1 =? wf2) && (v1 =? v2) = false).
      { destruct (String.eqb_spec wf1 wf2) as [-> | _]; [| reflexivity].
        destruct (String.eqb_spec v1 v2) as [-> | _]; [| reflexivity].
        contradiction Hne. reflexivity. }
      destruct (String.eqb_spec wf1 "..") as [E1 | _],
               (String.eqb_spec wf2 "..") as [E2 | _];
        cbn [PosixPath.is_prefix]; rewrite ?String.eqb_refl; cbn [andb].
      - subst wf1 wf2. rewrite String.eqb_refl in Hpair. cbn [andb] in Hpair.
        rewrite (String.eqb_sym v2 v1), Hpair. reflexivity.
      - rewrite Ha1, Hb1. reflexivity.
      - rewrite Ha2, Hb2. reflexivity.
      - rewrite (String.eqb_sym wf2 wf1), (String.eqb_sym v2 v1).
        destruct (wf1 =? wf2); [| reflexivity].
        cbn [andb] in Hpair |- *. rewrite Hpair. reflexivity. }
    assert (Hout : PosixPath.resolve (output_file_of wf1 v1)
                   <> PosixPath.resolve (output_file_of wf2 v2)).
    { rewrite (@resolve_output_file _ _ Hp1 Hk1), (@resolve_output_file _ _ Hp2 Hk2).
      intros Heq. injection Heq as Heq.
      destruct (output_filename_inj _ _ Hk1 Hk2 Heq) as [-> ->].
      contradiction Hne. reflexivity. }
    split; [exact Hover | split; [| split; [exact Hout |]]].
    + intros Heq. unfold PosixPath.overlap in Hover. rewrite Heq in Hover.
      rewrite PathFacts.is_prefix_refl in Hover. discriminate Hover.
    + intros Heq. apply Hout. rewrite Heq. reflexivity.
  - intros Heq. injection Heq as -> ->. split; reflexivity.
Qed.

Lemma plain_jobs_do_not_collide_witness :
  PosixPath.overlap (work_dir_of "wf1" "josh") (work_dir_of "wf1" "pablo") = false
  /\ output_file_of "wf1" "josh" <> output_file_of "wf2" "josh".
Proof.
  split.
  - destruct (plain_jobs_do_not_collide "wf1" "wf1" "josh" "pablo"
                eq_refl eq_refl eq_refl eq_refl) as [H _].
    apply H. discriminate.
  - destruct (plain_jobs_do_not_collide "wf1" "wf2" "josh" "josh"
                eq_refl eq_refl eq_refl eq_refl) as [H _].
    apply H. discriminate.
Defined.

(* ================================================================== *)
(** * Further properties of the code                                    *)
(* ================================================================== *)

(** ** Calls a program can make *)

Section AllCalls.
Variable P : forall X : Type, call X -> Prop.

Lemma all_calls_bind {A B : Type} (p : prog A) (f : A -> prog B) :
  all_calls P p -> (forall a, all_calls P (f a)) -> all_calls P (bind p f).
Proof.
  intros Hp Hf. induction Hp as [a | X c k Hc _ IH]; cbn.
  - apply Hf.
  - constructor; [exact Hc | exact IH].
Qed.

Lemma all_calls_pbind {A B : Type} (p : py A) (f : A -> py B) :
  all_calls P p -> (forall a, all_calls P (f a)) -> all_calls P (pbind p f).
Proof.
  intros Hp Hf. apply all_calls_bind; [exact Hp |].
  intros [a | e]; [apply Hf | constructor].
Qed.

Lemma all_calls_try_except {A : Type} (body : py A) (on_error : exn -> prog A) :
  all_calls P body -> (forall e, all_calls P (on_error e)) ->
  all_calls P (try_except body on_error).
Proof.
  intros Hb He. apply all_calls_bind; [exact Hb |].
  intros [a | e]; [constructor | apply He].
Qed.

Lemma all_calls_try_finally {A : Type} (body : py A) (cleanup : py unit) :
  all_calls P body -> all_calls P cleanup -> all_calls P (try_finally body cleanup).
Proof.
  intros Hb Hc. apply all_calls_bind; [exact Hb |].
  intros r. apply all_calls_bind; [exact Hc |].
  intros [u | e]; constructor.
Qed.

Lemma all_calls_total {A : Type} (p : prog A) :
  all_calls P p -> all_calls P (total p).
Proof.
  intros Hp. apply all_calls_bind; [exact Hp | intros a; constructor].
Qed.

Lemma all_calls_perform {X : Type} (c : call (result X)) :
  P c -> all_calls P (perform c).
Proof. intros Hc. constructor; [exact Hc | intros x; constructor]. Qed.

Lemma all_calls_ask {X : Type} (c : call X) :
  P c -> all_calls P (ask c).
Proof. intros Hc. constructor; [exact Hc | intros x; constructor]. Qed.

Lemma all_calls_lift {A : Type} (r : result A) : all_calls P (lift r).
Proof. constructor. Qed.

Lemma all_calls_trace {W A : Type} (h : handler W) (p : prog A) (w : W) :
  all_calls P p -> Forall (on_call P) (trace h p w).
Proof.
  intros Hp. revert w. unfold trace.
  induction Hp as [a | X c k Hc _ IH]; intros w; cbn.
  - constructor.
  - destruct (@h X c w) as [x w1]. specialize (IH x w1).
    destruct (interp h (k x) w1) as [[a w2] tr]. cbn in *.
    constructor; [exact Hc | exact IH].
Qed.

End AllCalls.

Lemma all_calls_weaken {A : Type} (P Q : forall X : Type, call X -> Prop) (p : prog A) :
  (forall X (c : call X), P X c -> Q X c) -> all_calls P p -> all_calls Q p.
Proof.
  intros HPQ Hp. induction Hp as [a | X c k Hc _ IH]; constructor; auto.
Qed.

Lemma download_file_calls (url : value) (dest : string) :
  all_calls (fetch_call url dest) (download_file url dest).
Proof.
  unfold download_file.
  apply all_calls_try_except; [| intros e; constructor].
  apply all_calls_pbind; [apply all_calls_perform; cbn; auto |].
  intros resp. apply all_calls_pbind.
  { unfold raise_for_status. destruct (is_error_status (status_code resp)); constructor. }
  intros _. apply all_calls_pbind; [apply all_calls_perform; reflexivity |].
  intros _. apply all_calls_pbind; [| intros _; constructor].
  apply all_calls_try_finally; [| apply all_calls_perform; reflexivity].
  apply all_calls_pbind.
  - induction (chunks resp) as [| chunk rest IH]; cbn [write_chunks]; [constructor |].
    apply all_calls_pbind; [apply all_calls_perform; reflexivity | intros _; exact IH].
  - intros _. unfold end_of_body. destruct (broken resp); constructor.
Qed.

Lemma pbind_lift_ok {A B : Type} (a : A) (f : A -> py B) :
  pbind (lift (Ok a)) f = f a.
Proof. reflexivity. Qed.

Lemma encoder_calls (P : forall X : Type, call X -> Prop) {A : Type}
      (cmd : list string) (timeout : Z) (k : completed -> py A) :
  P _ (SubprocessRun cmd timeout) ->
  (forall c, all_calls P (k c)) ->
  all_calls P (pbind (perform (SubprocessRun cmd timeout)) k).
Proof.
  intros Hc Hk. apply all_calls_pbind; [apply all_calls_perform; exact Hc | exact Hk].
Qed.

Lemma process_variant_calls (req : request) (video_url audio_url : value)
      (workflow_id variant_name : string) :
  accepted req video_url audio_url workflow_id variant_name ->
  all_calls (job_call video_url audio_url workflow_id variant_name) (process_variant req).
Proof.
  intros (items & Hjson & Hv & Ha & Hn & Hw & Hkey).
  destruct (assoc_has_key _ _ Hkey) as [config Hcfg].
  assert (Hall : all_in required_fields (JObj items) = Ok true).
  { rewrite all_in_obj. cbn. unfold has_key. rewrite Hv, Ha, Hn, Hw. reflexivity. }
  unfold process_variant. apply all_calls_try_except; [| intros e; constructor].
  unfold process_variant_try, getitem.
  rewrite Hjson, pbind_lift_ok, Hall, pbind_lift_ok. cbn [negb].
  rewrite Hv, pbind_lift_ok, Ha, pbind_lift_ok, Hn, pbind_lift_ok, Hw, pbind_lift_ok.
  cbn [hash]. rewrite pbind_lift_ok. cbn [in_VARIANTS]. rewrite Hkey. cbn [negb fspath].
  rewrite !pbind_lift_ok.
  apply all_calls_pbind; [apply all_calls_perform; reflexivity | intros _].
  apply all_calls_pbind.
  { apply all_calls_total.
    apply (all_calls_weaken (P := fetch_call video_url (video_file workflow_id variant_name)));
      [| apply download_file_calls].
    intros X c Hc. destruct c; cbn in Hc |- *; try contradiction; left; exact Hc. }
  intros okv. destruct okv; cbn [negb]; [| constructor].
  apply all_calls_pbind.
  { apply all_calls_total.
    apply (all_calls_weaken (P := fetch_call audio_url (audio_file workflow_id variant_name)));
      [| apply download_file_calls].
    intros X c Hc. destruct c; cbn in Hc |- *; try contradiction; right; exact Hc. }
  intros oka. destruct oka; cbn [negb]; [| constructor].
  unfold VARIANTS_getitem. rewrite Hcfg, pbind_lift_ok.
  apply all_calls_pbind.
  { apply all_calls_total. unfold adjust_audio_speed.
    apply all_calls_try_except; [| intros e; constructor].
    apply encoder_calls; [cbn; auto |].
    intros c. destruct (negb (returncode c =? 0)%Z); constructor. }
  intros ok1. destruct ok1; cbn [negb]; [| constructor].
  apply all_calls_pbind.
  { apply all_calls_total. unfold apply_video_filter.
    apply all_calls_try_except; [| intros e; constructor].
    apply encoder_calls.
    - unfold apply_video_filter_cmd. destruct (filter config =? "none"); cbn; auto.
    - intros c. destruct (negb (returncode c =? 0)%Z); constructor. }
  intros ok2. destruct ok2; cbn [negb]; [| constructor].
  apply all_calls_pbind.
  { apply all_calls_total. unfold merge_audio_video.
    apply all_calls_try_except; [| intros e; constructor].
    apply encoder_calls; [cbn; auto |].
    intros c. destruct (negb (returncode c =? 0)%Z); constructor. }
  intros ok3. destruct ok3; cbn [negb]; [| constructor].
  apply all_calls_pbind; [apply all_calls_ask; reflexivity | intros found].
  destruct found; cbn [negb]; [| constructor].
  apply all_calls_pbind; [apply all_calls_perform; reflexivity | intros size].
  apply all_calls_pbind.
  { apply all_calls_total. apply all_calls_try_except; [| intros e; constructor].
    apply all_calls_perform. reflexivity. }
  intros _. apply all_calls_pbind; [apply all_calls_ask; exact I | intros ts; constructor].
Qed.

(** ** [download_file] *)

Section Download.
Context {W : Type} (h : handler W).

Lemma write_chunks_writes (path : string) (cs : list string) (w : W) :
  opened (trace h (write_chunks path cs) w) = []
  /\ closed (trace h (write_chunks path cs) w) = []
  /\ (forall u, outcome h (write_chunks path cs) w = Ok u ->
      trace h (write_chunks path cs) w
      = map (fun chunk => Event (FileWrite path chunk) (Ok tt)) cs).
Proof.
  unfold trace, outcome. revert w.
  induction cs as [| c rest IH]; intros w; cbn.
  - repeat split; reflexivity.
  - destruct (@h _ (FileWrite path c) w) as [[[] | e] w1]; cbn.
    + specialize (IH w1).
      destruct (interp h (write_chunks path rest) w1) as [[r w2] tr].
      cbn in *. destruct IH as (Ho & Hc & Hs). repeat split; try assumption.
      intros u Hu. rewrite (Hs u Hu). reflexivity.
    + repeat split; try reflexivity. intros u Hu. discriminate Hu.
Qed.

Lemma download_file_saved (url : value) (dest : string) (w : W) :
  outcome h (download_file url dest) w = true ->
  exists resp,
    trace h (download_file url dest) w = saved url dest resp
    /\ is_error_status (status_code resp) = false
    /\ broken resp = None
    /\ written (trace h (download_file url dest) w)
       = map (fun chunk => (dest, chunk)) (chunks resp).
Proof.
  unfold trace, outcome, download_file, try_except. cbn.
  destruct (@h _ (RequestsGet url 300) w) as [[resp | e] w1]; cbn; [| discriminate].
  unfold raise_for_status.
  destruct (is_error_status (status_code resp)) eqn:Hst; cbn; [discriminate |].
  destruct (@h _ (OpenWb dest) w1) as [[[] | e] w2]; cbn; [| discriminate].
  unfold pbind, try_finally. rewrite !interp_bind.
  destruct (write_chunks_writes dest (chunks resp) w2) as (_ & _ & Hsaved).
  unfold trace, outcome in Hsaved.
  destruct (interp h (write_chunks dest (chunks resp)) w2) as [[r w3] twc].
  cbn in Hsaved. unfold end_of_body.
  destruct r as [[] | e]; cbn;
    [destruct (broken resp) as [e |] eqn:Hb; cbn |];
    (destruct (@h _ (FileClose dest) w3) as [[[] | e'] w4]; cbn; try discriminate).
  intros _. exists resp. rewrite (Hsaved tt eq_refl), !app_nil_r.
  unfold saved. repeat split; try assumption.
  unfold written. cbn [collect pick_written]. rewrite collect_app.
  cbn [collect pick_written]. rewrite app_nil_r.
  generalize (chunks resp). clear.
  intros cs. induction cs as [| c rest IH]; cbn; [reflexivity | rewrite IH; reflexivity].
Qed.

Lemma saved_not_failed (url : value) (dest : string) (resp : response) :
  is_error_status (status_code resp) = false ->
  broken resp = None ->
  existsb fetch_failed (saved url dest resp) = false.
Proof.
  intros Hst Hb. unfold saved. cbn [existsb fetch_failed raised].
  rewrite Hst, Hb, existsb_app. cbn [existsb fetch_failed raised orb].
  rewrite orb_false_r.
  generalize (chunks resp). intros cs.
  induction cs as [| c rest IH]; cbn; [reflexivity | exact IH].
Qed.

(** X2: [download_file] returns [True] exactly when its run was: one GET
    of the URL with a timeout of 300 seconds, answered with a status
    outside 400..599 (a 2xx, and just as well a 1xx, a 3xx or a status of
    600 and above) and a body that did not break off; the destination
    opened; every chunk of the body written to it, in the order received;
    the destination closed; nothing else. *)
Theorem download_saves_body (url : value) (dest : string) (w : W) :
  outcome h (download_file url dest) w = true
  <-> exists resp,
        trace h (download_file url dest) w = saved url dest resp
        /\ (status_code resp < 400 \/ 600 <= status_code resp)%Z
        /\ broken resp = None
        /\ written (trace h (download_file url dest) w)
           = map (fun chunk => (dest, chunk)) (chunks resp).
Proof.
  split.
  - intros Hok. destruct (download_file_saved url dest w Hok) as (resp & Htr & Hst & Hb & Hw).
    exists resp. split; [exact Htr | split; [| split; [exact Hb | exact Hw]]].
    unfold is_error_status in Hst. apply andb_false_iff in Hst as [Hst | Hst].
    + left. apply Z.leb_gt in Hst. exact Hst.
    + right. apply Z.ltb_ge in Hst. exact Hst.
  - intros (resp & Htr & Hcode & Hb & _).
    assert (Hst : is_error_status (status_code resp) = false).
    { unfold is_error_status. apply andb_false_iff.
      destruct Hcode as [Hlt | Hge]; [left; apply Z.leb_gt | right; apply Z.ltb_ge];
        assumption. }
    destruct (download_file_run h url dest w) as (_ & _ & Hfail).
    rewrite Htr, (@saved_not_failed url dest resp Hst Hb) in Hfail.
    destruct (outcome h (download_file url dest) w); [reflexivity | discriminate Hfail].
Qed.

Lemma download_file_shape (url : value) (dest : string) (w : W) :
  let tr := trace h (download_file url dest) w in
  (exists e w1, @h _ (RequestsGet url 300) w = (Raised e, w1)
                /\ tr = [Event (RequestsGet url 300) (Raised e)])
  \/ (exists resp w1, @h _ (RequestsGet url 300) w = (Ok resp, w1)
                      /\ is_error_status (status_code resp) = true
                      /\ tr = [Event (RequestsGet url 300) (Ok resp)])
  \/ (exists resp w1 e, @h _ (RequestsGet url 300) w = (Ok resp, w1)
                        /\ is_error_status (status_code resp) = false
                        /\ tr = [Event (RequestsGet url 300) (Ok resp);
                                 Event (OpenWb dest) (Raised e)])
  \/ (exists resp w1 writes answer,
        @h _ (RequestsGet url 300) w = (Ok resp, w1)
        /\ is_error_status (status_code resp) = false
        /\ opened writes = [] /\ closed writes = []
        /\ tr = (Event (RequestsGet url 300) (Ok resp)
                 :: Event (OpenWb dest) (Ok tt)
                 :: writes ++ [Event (FileClose dest) answer])%list).
Proof.
  unfold trace, download_file, try_except. cbn.
  destruct (@h _ (RequestsGet url 300) w) as [[resp | e] w1] eqn:Hget; cbn;
    [| left; eauto].
  unfold raise_for_status.
  destruct (is_error_status (status_code resp)) eqn:Hst; cbn.
  { right; left. eauto. }
  destruct (@h _ (OpenWb dest) w1) as [[[] | e] w2]; cbn.
  2: { right; right; left. exists resp, w1, e. auto. }
  right; right; right.
  unfold pbind, try_finally. rewrite !interp_bind.
  destruct (write_chunks_writes dest (chunks resp) w2) as (Hopen & Hclosed & _).
  unfold trace in Hopen, Hclosed.
  destruct (interp h (write_chunks dest (chunks resp)) w2) as [[r w3] twc].
  cbn [fst snd] in Hopen, Hclosed. unfold end_of_body.
  destruct r as [[] | e]; cbn;
    [destruct (broken resp) as [e |]; cbn |];
    (destruct (@h _ (FileClose dest) w3) as [answer w4];
     exists resp, w1, twc, answer;
     destruct answer as [[] | e']; cbn; rewrite ?app_nil_r; auto).
Qed.

(** X3: in every run of [download_file] the destination is closed
    exactly when it was opened, also when a write fails or the body breaks
    off; it is the only file opened, and closing it is then the last call.
    When the request fails or is answered with an error status, the
    destination is not opened and nothing is written. *)
Theorem download_closes_what_it_opens (url : value) (dest : string) (w : W) :
  let tr := trace h (download_file url dest) w in
  closed tr = opened tr
  /\ (opened tr = [] \/ opened tr = [dest])
  /\ (opened tr = [] -> written tr = [])
  /\ (opened tr = [dest] ->
      exists before answer, tr = (before ++ [Event (FileClose dest) answer])%list)
  /\ (forall e w1, @h _ (RequestsGet url 300) w = (Raised e, w1) -> opened tr = [])
  /\ (forall resp w1,
        @h _ (RequestsGet url 300) w = (Ok resp, w1) ->
        is_error_status (status_code resp) = true -> opened tr = []).
Proof.
  intros tr.
  destruct (download_file_shape url dest w)
    as [(e & w1 & Hget & Htr) | [(resp & w1 & Hget & Hst & Htr)
        | [(resp & w1 & e & Hget & Hst & Htr)
          | (resp & w1 & writes & answer & Hget & Hst & Hopen & Hclosed & Htr)]]];
    fold tr in Htr; rewrite Htr.
  - repeat split; auto; discriminate.
  - repeat split; auto; discriminate.
  - repeat split; auto; discriminate.
  - assert (Ho : opened (Event (RequestsGet url 300) (Ok resp)
                         :: Event (OpenWb dest) (Ok tt)
                         :: writes ++ [Event (FileClose dest) answer])%list = [dest]).
    { unfold opened. cbn [collect pick_opened]. rewrite collect_app.
      fold (opened writes). rewrite Hopen. reflexivity. }
    assert (Hc : closed (Event (RequestsGet url 300) (Ok resp)
                         :: Event (OpenWb dest) (Ok tt)
                         :: writes ++ [Event (FileClose dest) answer])%list = [dest]).
    { unfold closed. cbn [collect pick_closed]. rewrite collect_app.
      fold (closed writes). rewrite Hclosed. reflexivity. }
    rewrite Ho, Hc.
    split; [reflexivity |]. split; [right; reflexivity |]. split; [discriminate |].
    split; [intros _; eexists (_ :: _ :: writes)%list, answer; reflexivity |].
    split.
    + intros e w' He. rewrite Hget in He. discriminate He.
    + intros r w' Hr Herr. rewrite Hget in Hr. injection Hr as <- _. congruence.
Qed.

End Download.

(** ** Paths of a job *)

Lemma append_empty (a b : string) : a ++ b = "" -> b = "".
Proof. destruct a; cbn; [auto | discriminate]. Qed.

Lemma join_step_component (path b : string) :
  PosixPath.starts_with_sep b = false ->
  b <> "" ->
  PosixPath.ends_with_sep b = false ->
  (PosixPath.join_step path b =? "") = false
  /\ PosixPath.ends_with_sep (PosixPath.join_step path b) = false.
Proof.
  intros Hstart Hne Hend. unfold PosixPath.join_step. rewrite Hstart.
  assert (Hslash : PosixPath.ends_with_sep ("/" ++ b) = false).
  { destruct b; [contradiction | exact Hend]. }
  destruct ((path =? "") || PosixPath.ends_with_sep path); split.
  - apply String.eqb_neq. intros E. apply append_empty in E. contradiction.
  - rewrite (PathFacts.ends_with_sep_append path Hne). exact Hend.
  - apply String.eqb_neq. intros E. apply append_empty in E. discriminate E.
  - rewrite PathFacts.ends_with_sep_append by discriminate. exact Hslash.
Qed.

Lemma work_dir_component (workflow_id variant_name : string) :
  has_key variant_name VARIANTS = true ->
  (work_dir workflow_id variant_name =? "") = false
  /\ PosixPath.ends_with_sep (work_dir workflow_id variant_name) = false.
Proof.
  intros Hkey. apply catalog_key_names in Hkey.
  destruct (catalog_name_facts Hkey) as (Hsep & Hempty & _).
  unfold work_dir, work_dir_of, PosixPath.join. cbn [fold_left].
  apply join_step_component.
  - exact (PathFacts.no_sep_starts _ Hsep).
  - apply String.eqb_neq. exact Hempty.
  - exact (PathFacts.no_sep_ends _ Hsep).
Qed.

Lemma source_files_in_workspace (workflow_id variant_name : string) :
  has_key variant_name VARIANTS = true ->
  video_file workflow_id variant_name
  = work_dir workflow_id variant_name ++ "/source_video.mp4"
  /\ audio_file workflow_id variant_name
     = work_dir workflow_id variant_name ++ "/source_audio.mp3".
Proof.
  intros Hkey. destruct (@work_dir_component workflow_id variant_name Hkey) as [Hne Hend].
  unfold video_file, audio_file, PosixPath.join.
  cbn [fold_left]. unfold PosixPath.join_step.
  cbn [PosixPath.starts_with_sep Ascii.eqb Bool.eqb PosixPath.sep andb].
  rewrite Hne, Hend. cbn [orb]. split; reflexivity.
Qed.

(** X5: whatever the workflow id (any string), the four intermediate
    files of a job for a catalog variant lie directly inside its
    workspace directory: each path is the workspace path, one separator,
    and the fixed file name. *)
Theorem intermediate_files_in_workspace (workflow_id variant_name : string) :
  has_key variant_name VARIANTS = true ->
  video_file workflow_id variant_name
  = work_dir workflow_id variant_name ++ "/source_video.mp4"
  /\ audio_file workflow_id variant_name
     = work_dir workflow_id variant_name ++ "/source_audio.mp3"
  /\ audio_speed_file workflow_id variant_name
     = work_dir workflow_id variant_name ++ "/audio_speed.mp3"
  /\ video_filtered_file workflow_id variant_name
     = work_dir workflow_id variant_name ++ "/video_filtered.mp4".
Proof.
  intros Hkey. destruct (@work_dir_component workflow_id variant_name Hkey) as [Hne Hend].
  unfold video_file, audio_file, audio_speed_file, video_filtered_file, PosixPath.join.
  cbn [fold_left]. unfold PosixPath.join_step.
  cbn [PosixPath.starts_with_sep Ascii.eqb Bool.eqb PosixPath.sep andb].
  rewrite Hne, Hend. cbn [orb]. repeat split; reflexivity.
Qed.

Lemma intermediate_files_in_workspace_witness :
  video_file "/srv/jobs/42/" "ryan" = "/srv/jobs/42/ryan/source_video.mp4".
Proof.
  exact (proj1 (@intermediate_files_in_workspace "/srv/jobs/42/" "ryan" eq_refl)).
Defined.

(** ** More on the exits of the pipeline *)

Lemma fetch_pick_rmtree ev : is_fetch ev = true -> pick_rmtree ev = None.
Proof. destruct ev as [X c x]; destruct c; cbn; congruence. Qed.

Lemma fetched_cleanups (video_url audio_url : value) (workflow_id variant_name : string)
      (tv ta rest : list event) (okv oka : bool) :
  fetch_run video_url okv tv ->
  fetch_run audio_url oka ta ->
  cleanups (fetched workflow_id variant_name tv ta rest) = cleanups rest.
Proof.
  intros Hv Ha. unfold cleanups.
  rewrite (fetched_collect workflow_id variant_name rest Hv Ha pick_rmtree fetch_pick_rmtree).
  reflexivity.
Qed.

Section MoreExits.
Variables (host_name : string) (video_url audio_url : value).
Variables (workflow_id variant_name : string) (config : variant).
Variables (r : result http_response) (tr : list event).
Hypothesis Hrun :
  job_run host_name video_url audio_url workflow_id variant_name config r tr.

Ltac project :=
  repeat first
    [ erewrite fetched_runs by eassumption
    | erewrite fetched_sizes by eassumption
    | erewrite fetched_removed by eassumption
    | erewrite fetched_cleanups by eassumption ].

Ltac exit_zero :=
  repeat match goal with
         | H : exited_zero ?a = _ |- _ => rewrite H; clear H
         end.

Ltac video_only pick lemma :=
  cbn [collect pick];
  rewrite (collect_none pick _ lemma) by (eapply fetch_run_only; eassumption).

(** The commands spawned are the first ones of the three encoder
    commands, in order, and each but the last exited with status 0. *)
Lemma job_run_encoder_prefix :
  map fst (runs tr)
  = firstn (length (runs tr)) (encoder_commands workflow_id variant_name config)
  /\ forallb (fun x => exited_zero (snd x)) (removelast (runs tr)) = true
  /\ (length (runs tr) <= 3)%nat.
Proof.
  destruct Hrun; try (project; cbn; exit_zero; repeat split; (reflexivity || lia)).
  unfold runs. video_only pick_run fetch_pick_run. cbn.
  repeat split; (reflexivity || lia).
Qed.

Lemma job_run_cleanups :
  cleanups tr <> [] ->
  exists size timestamp,
    r = Ok (SuccessBody "success" variant_name (output_file workflow_id variant_name)
              ("https://" ++ host_name ++ "/download/"
                 ++ output_filename_of workflow_id variant_name)
              size timestamp, 200%Z).
Proof.
  destruct Hrun; intros Hclean;
    try (exfalso; apply Hclean; project; reflexivity);
    try (do 2 eexists; reflexivity).
  exfalso. apply Hclean. unfold cleanups.
  video_only pick_rmtree fetch_pick_rmtree. reflexivity.
Qed.

Lemma job_run_getsize_raised (e : exn) :
  sizes tr = [(output_file workflow_id variant_name, Raised e)] ->
  r = Raised e
  /\ probes tr = [(output_file workflow_id variant_name, true)]
  /\ removed tr = [].
Proof.
  destruct Hrun; intros Hs;
    try (exfalso; revert Hs; project; cbn; discriminate).
  - exfalso. revert Hs. unfold sizes.
    video_only pick_getsize fetch_pick_getsize. discriminate.
  - revert Hs. project. erewrite fetched_probes by eassumption. cbn.
    intros [= ->]. repeat split; reflexivity.
Qed.

Lemma job_run_adjust_failed (answer : result completed) :
  In (adjust_audio_speed_cmd (audio_file workflow_id variant_name) (speed config)
                             (audio_speed_file workflow_id variant_name),
      300%Z, answer) (runs tr) ->
  exited_zero answer = false ->
  r = Ok (ErrorBody "Failed to adjust audio speed", 400%Z)
  /\ length (runs tr) = 1%nat.
Proof.
  destruct Hrun; intros Hin Hfail; revert Hin; project;
    unfold runs, adjust_event, filter_event, merge_event;
    cbn [collect pick_run In];
    try (rewrite (collect_none pick_run tv fetch_pick_run)
          by (eapply fetch_run_only; eassumption));
    cbn [In];
    intros Hin;
    repeat match goal with
           | H : _ \/ _ |- _ => destruct H
           | H : False |- _ => destruct H
           | H : (_, _, _) = (_, _, _) |- _ => injection H; clear H; intros
           end;
    try (split; reflexivity);
    try discriminate;
    try congruence.
Qed.

Lemma job_run_success_merged (status variant out url : string) (size : N)
      (timestamp : string) :
  r = Ok (SuccessBody status variant out url size timestamp, 200%Z) ->
  out = output_file workflow_id variant_name
  /\ url = "https://" ++ host_name ++ "/download/"
             ++ output_filename_of workflow_id variant_name
  /\ exists answer,
       In (merge_audio_video_cmd (video_filtered_file workflow_id variant_name)
                                 (audio_speed_file workflow_id variant_name) out,
           600%Z, answer) (runs tr)
       /\ exited_zero answer = true.
Proof.
  destruct Hrun; intros Hr; try discriminate Hr.
  injection Hr as _ _ <- <- _ _.
  split; [reflexivity | split; [reflexivity |]].
  exists a3. split; [| assumption].
  project. unfold runs, adjust_event, filter_event, merge_event.
  cbn [collect pick_run In]. right; right; left. reflexivity.
Qed.

End MoreExits.

(** ** Runs of accepted requests *)

Section Jobs.
Context {W : Type} (h : handler W).
Variables (req : request) (video_url audio_url : value).
Variables (workflow_id variant_name : string).
Hypothesis Hacc : accepted req video_url audio_url workflow_id variant_name.

(** The start of a job, call by call: the workspace, then the video,
    then the audio, each step only after the one before went well. *)
Lemma job_prefix (w : W) :
  let tr := trace h (process_variant req) w in
  let resp := outcome h (process_variant req) w in
  exists mk w1,
    @h _ (Makedirs (work_dir workflow_id variant_name)) w = (mk, w1)
    /\ match mk with
       | Raised e =>
           resp = (ErrorBody (exn_str e), 500%Z)
           /\ tr = [Event (Makedirs (work_dir workflow_id variant_name)) (Raised e)]
       | Ok _ =>
           let fv := download_file video_url (video_file workflow_id variant_name) in
           let fa := download_file audio_url (audio_file workflow_id variant_name) in
           let w2 := snd (fst (interp h fv w1)) in
           let start := Event (Makedirs (work_dir workflow_id variant_name)) (Ok tt) in
           if outcome h fv w1 then
             if outcome h fa w2 then
               exists rest, tr = (start :: trace h fv w1 ++ trace h fa w2 ++ rest)%list
             else
               resp = (ErrorBody "Failed to download audio", 400%Z)
               /\ tr = (start :: trace h fv w1 ++ trace h fa w2)%list
           else
             resp = (ErrorBody "Failed to download video", 400%Z)
             /\ tr = (start :: trace h fv w1)%list
       end.
Proof.
  destruct Hacc as (items & Hjson & Hv & Ha & Hn & Hw & Hkey).
  intros tr resp. subst tr resp.
  rewrite outcome_respond, trace_respond.
  unfold outcome, trace, process_variant_try.
  assert (Hall : all_in required_fields (JObj items) = Ok true).
  { rewrite all_in_obj. cbn. unfold has_key. rewrite Hv, Ha, Hn, Hw. reflexivity. }
  unfold getitem.
  rewrite Hjson, interp_pbind_lift; cbv beta iota.
  rewrite Hall, interp_pbind_lift; cbv beta iota. cbn [negb].
  rewrite Hv, interp_pbind_lift; cbv beta iota.
  rewrite Ha, interp_pbind_lift; cbv beta iota.
  rewrite Hn, interp_pbind_lift; cbv beta iota.
  rewrite Hw, interp_pbind_lift; cbv beta iota.
  cbn [hash fspath]. rewrite interp_pbind_lift; cbv beta iota.
  cbn [in_VARIANTS]. rewrite Hkey. cbn [negb].
  rewrite !interp_pbind_lift; cbv beta iota.
  rewrite interp_pbind_perform.
  change (work_dir_of workflow_id variant_name) with (work_dir workflow_id variant_name).
  destruct (@h _ (Makedirs (work_dir workflow_id variant_name)) w) as [[[] | e] w1];
    cbv beta iota.
  2: { exists (Raised e), w1. split; [reflexivity | split; reflexivity]. }
  exists (Ok tt), w1. split; [reflexivity |]. cbv zeta.
  rewrite interp_pbind_total.
  change (PosixPath.join (work_dir workflow_id variant_name) ["source_video.mp4"])
    with (video_file workflow_id variant_name).
  change (PosixPath.join (work_dir workflow_id variant_name) ["source_audio.mp3"])
    with (audio_file workflow_id variant_name).
  destruct (interp h (download_file video_url (video_file workflow_id variant_name)) w1)
    as [[okv w2] tv].
  cbn [fst snd].
  destruct okv; cbn [negb]; cbv beta iota;
    [| cbn [interp ret fst snd respond]; rewrite app_nil_r; split; reflexivity].
  rewrite interp_pbind_total.
  destruct (interp h (download_file audio_url (audio_file workflow_id variant_name)) w2)
    as [[oka w3] ta].
  cbn [fst snd].
  destruct oka; cbn [negb]; cbv beta iota;
    [| cbn [interp ret fst snd respond]; rewrite app_nil_r; split; reflexivity].
  match goal with
  | |- context [interp h ?p w3] => destruct (interp h p w3) as [[r w4] rest]
  end.
  exists rest. reflexivity.
Qed.

(** X4: a job that gets as far as spawning a command has by then saved
    both bodies whole: after the workspace was created, the video URL was
    fetched into source_video.mp4 and then the audio URL into
    source_audio.mp3, both inside the workspace, every chunk written in
    order and each file closed, before the first command. *)
Theorem sources_saved_before_encoding (w : W) :
  runs (trace h (process_variant req) w) <> [] ->
  exists video audio rest,
    trace h (process_variant req) w
    = (Event (Makedirs (work_dir workflow_id variant_name)) (Ok tt)
       :: saved video_url (video_file workflow_id variant_name) video
       ++ saved audio_url (audio_file workflow_id variant_name) audio
       ++ rest)%list
    /\ video_file workflow_id variant_name
       = work_dir workflow_id variant_name ++ "/source_video.mp4"
    /\ audio_file workflow_id variant_name
       = work_dir workflow_id variant_name ++ "/source_audio.mp3".
Proof.
  intros Hruns.
  assert (Hkey : has_key variant_name VARIANTS = true).
  { destruct Hacc as (items & _ & _ & _ & _ & _ & Hkey). exact Hkey. }
  destruct (@source_files_in_workspace workflow_id variant_name Hkey) as (Hvf & Haf).
  destruct (job_prefix w) as (mk & w1 & _ & Hmk). cbv zeta in Hmk.
  destruct mk as [u | e].
  2: { destruct Hmk as [_ Htr]. rewrite Htr in Hruns. contradiction Hruns. reflexivity. }
  pose proof (download_file_run h video_url (video_file workflow_id variant_name) w1)
    as Hfv.
  pose proof (download_file_saved h video_url (video_file workflow_id variant_name) w1)
    as Hsv.
  destruct (outcome h (download_file video_url (video_file workflow_id variant_name)) w1).
  2: { destruct Hmk as [_ Htr]. rewrite Htr in Hruns. exfalso. apply Hruns.
       unfold runs. cbn [collect pick_run].
       apply collect_none; [exact fetch_pick_run | exact (fetch_run_only Hfv)]. }
  set (w2 := snd (fst (interp h (download_file video_url
                                   (video_file workflow_id variant_name)) w1))) in *.
  pose proof (download_file_run h audio_url (audio_file workflow_id variant_name) w2)
    as Hfa.
  pose proof (download_file_saved h audio_url (audio_file workflow_id variant_name) w2)
    as Hsa.
  destruct (outcome h (download_file audio_url (audio_file workflow_id variant_name)) w2).
  2: { destruct Hmk as [_ Htr]. rewrite Htr in Hruns. exfalso. apply Hruns.
       unfold runs. cbn [collect pick_run]. rewrite collect_app.
       rewrite (collect_none pick_run _ fetch_pick_run (fetch_run_only Hfv)).
       rewrite (collect_none pick_run _ fetch_pick_run (fetch_run_only Hfa)).
       reflexivity. }
  destruct Hmk as [rest Htr].
  destruct (Hsv eq_refl) as (video & Hvideo & _).
  destruct (Hsa eq_refl) as (audio & Haudio & _).
  exists video, audio, rest. rewrite Htr, Hvideo, Haudio.
  split; [reflexivity | split; assumption].
Qed.

(** X6: whatever the environment answers, a job makes no other calls
    than these: it creates and removes its own workspace and nothing
    else; it opens, writes and closes only source_video.mp4 and
    source_audio.mp3 of that workspace; it requests only the two URLs of
    the request, each with a timeout of 300 seconds; every command it
    spawns is ffmpeg, with a timeout of 300 or 600 seconds; it probes and
    measures only its output file. *)
Theorem job_footprint (w : W) :
  Forall (on_call (job_call video_url audio_url workflow_id variant_name))
         (trace h (process_variant req) w).
Proof.
  apply all_calls_trace. apply process_variant_calls. exact Hacc.
Qed.

(** X7: the commands a job spawns are the first ones of: the speed
    adjustment of source_audio.mp3 into audio_speed.mp3 with the speed of
    the variant, the filter of source_video.mp4 into video_filtered.mp4
    with the filter of the variant, the merge of these two outputs into
    the output file; in this order, each at most once, and a command is
    spawned only if every command before it exited with status 0. *)
Theorem encoder_runs_in_order (w : W) (config : variant) :
  assoc variant_name VARIANTS = Some config ->
  let rs := runs (trace h (process_variant req) w) in
  map fst rs = firstn (length rs) (encoder_commands workflow_id variant_name config)
  /\ forallb (fun x => exited_zero (snd x)) (removelast rs) = true
  /\ (length rs <= 3)%nat.
Proof.
  intros Hcfg rs. subst rs.
  destruct (accepted_run h w Hacc) as (config' & Hcfg' & Hrun).
  rewrite Hcfg in Hcfg'. injection Hcfg' as <-.
  exact (job_run_encoder_prefix Hrun).
Qed.

(** X8: when the workspace cannot be created, the exception of
    [os.makedirs] reaches the catch-all: the answer is 500 with its
    message, and the job made no other call. *)
Theorem makedirs_failure_answers_500 (w w1 : W) (e : exn) :
  @h _ (Makedirs (work_dir_of workflow_id variant_name)) w = (Raised e, w1) ->
  outcome h (process_variant req) w = (ErrorBody (exn_str e), 500%Z)
  /\ trace h (process_variant req) w
     = [Event (Makedirs (work_dir_of workflow_id variant_name)) (Raised e)].
Proof.
  intros Hmk. destruct (job_prefix w) as (mk & w' & Hmk' & Hcase).
  unfold work_dir in Hmk'. rewrite Hmk in Hmk'. injection Hmk' as <- <-.
  exact Hcase.
Qed.

(** X9: a failure of the cleanup does not change the answer: in every
    run in which [shutil.rmtree] was called, whatever it answered, an
    exception included, the answer is the 200 success record. *)
Theorem cleanup_failure_is_swallowed (w : W) :
  cleanups (trace h (process_variant req) w) <> [] ->
  exists size timestamp,
    outcome h (process_variant req) w
    = (SuccessBody "success" variant_name (output_file_of workflow_id variant_name)
         ("https://" ++ host req ++ "/download/"
            ++ output_filename_of workflow_id variant_name)
         size timestamp, 200%Z).
Proof.
  intros Hclean. destruct (accepted_run h w Hacc) as (config & _ & Hrun).
  destruct (job_run_cleanups Hrun Hclean) as (size & ts & Hr).
  exists size, ts. rewrite outcome_respond, Hr. reflexivity.
Qed.

(** X10: when the output file was found but [os.path.getsize] then
    raises, the answer is 500 with the message of the exception, and the
    workspace is not removed. *)
Theorem getsize_failure_answers_500 (w : W) (e : exn) :
  sizes (trace h (process_variant req) w)
  = [(output_file_of workflow_id variant_name, Raised e)] ->
  outcome h (process_variant req) w = (ErrorBody (exn_str e), 500%Z)
  /\ probes (trace h (process_variant req) w)
     = [(output_file_of workflow_id variant_name, true)]
  /\ removed (trace h (process_variant req) w) = [].
Proof.
  intros Hs. destruct (accepted_run h w Hacc) as (config & _ & Hrun).
  destruct (job_run_getsize_raised Hrun Hs) as (Hr & Hp & Hrm).
  rewrite outcome_respond, Hr. repeat split; assumption.
Qed.

End Jobs.

Lemma download_saves_body_witness :
  exists resp,
    trace (Sim.machine healthy) (download_file (JStr "http://cdn/v.mp4") "/tmp/v.mp4") []
    = saved (JStr "http://cdn/v.mp4") "/tmp/v.mp4" resp
    /\ written (trace (Sim.machine healthy)
                      (download_file (JStr "http://cdn/v.mp4") "/tmp/v.mp4") [])
       = map (fun chunk => ("/tmp/v.mp4", chunk)) (chunks resp).
Proof.
  destruct (proj1 (@download_saves_body _ (Sim.machine healthy) (JStr "http://cdn/v.mp4")
                     "/tmp/v.mp4" []) eq_refl) as (resp & Htr & _ & _ & Hw).
  exists resp. split; [exact Htr | exact Hw].
Defined.

Lemma download_closes_what_it_opens_witness :
  opened (trace (Sim.machine offline) (download_file (JStr "http://cdn/v.mp4") "/tmp/v.mp4") [])
  = []
  /\ closed (trace (Sim.machine healthy) (download_file (JStr "http://cdn/v.mp4") "/tmp/v.mp4") [])
     = opened (trace (Sim.machine healthy)
                     (download_file (JStr "http://cdn/v.mp4") "/tmp/v.mp4") []).
Proof.
  split.
  - destruct (@download_closes_what_it_opens _ (Sim.machine offline)
                (JStr "http://cdn/v.mp4") "/tmp/v.mp4" []) as (_ & _ & _ & _ & H & _).
    exact (H _ _ eq_refl).
  - exact (proj1 (@download_closes_what_it_opens _ (Sim.machine healthy)
                    (JStr "http://cdn/v.mp4") "/tmp/v.mp4" [])).
Defined.

Lemma sources_saved_before_encoding_witness :
  exists video audio rest,
    trace (Sim.machine healthy) (process_variant josh_request) []
    = (Event (Makedirs (work_dir "wf1" "josh")) (Ok tt)
       :: saved (JStr "http://cdn/v.mp4") (video_file "wf1" "josh") video
       ++ saved (JStr "http://cdn/a.mp3") (audio_file "wf1" "josh") audio
       ++ rest)%list.
Proof.
  destruct (@sources_saved_before_encoding _ (Sim.machine healthy) _ _ _ _ _
              josh_request_accepted [])
    as (video & audio & rest & H & _).
  - vm_compute. discriminate.
  - exists video, audio, rest. exact H.
Defined.

Lemma job_footprint_witness :
  Forall (on_call (job_call (JStr "http://cdn/v.mp4") (JStr "http://cdn/a.mp3") "wf1" "josh"))
         (trace (Sim.machine healthy) (process_variant josh_request) []).
Proof.
  exact (@job_footprint _ (Sim.machine healthy) _ _ _ _ _ josh_request_accepted []).
Defined.

Lemma encoder_runs_in_order_witness :
  map fst (runs (trace (Sim.machine (Sim.World (Sim.serves ["abc"])
                                               (Sim.ffmpeg_rejects "-vf" 10) "T"))
                       (process_variant josh_request) []))
  = firstn 2 (encoder_commands "wf1" "josh"
                (Variant "Rsz5u2Huh1hPlPr0oxRQ" 1.01 "eq=contrast=1.02")).
Proof.
  exact (proj1 (@encoder_runs_in_order _
                  (Sim.machine (Sim.World (Sim.serves ["abc"])
                                          (Sim.ffmpeg_rejects "-vf" 10) "T"))
                  _ _ _ _ _ josh_request_accepted [] _ eq_refl)).
Defined.

Lemma makedirs_failure_answers_500_witness :
  outcome (read_only healthy) (process_variant josh_request) []
  = (ErrorBody "Read-only file system", 500%Z).
Proof.
  exact (proj1 (@makedirs_failure_answers_500 _ (read_only healthy) _ _ _ _ _
                  josh_request_accepted [] [] _ eq_refl)).
Defined.

Lemma cleanup_failure_is_swallowed_witness :
  exists size timestamp,
    outcome (stubborn healthy) (process_variant josh_request) []
    = (SuccessBody "success" "josh" (output_file_of "wf1" "josh")
         ("https://" ++ "worker.example" ++ "/download/" ++ output_filename_of "wf1" "josh")
         size timestamp, 200%Z).
Proof.
  apply (@cleanup_failure_is_swallowed _ (stubborn healthy) _ _ _ _ _
           josh_request_accepted []).
  vm_compute. discriminate.
Defined.

Lemma getsize_failure_answers_500_witness :
  outcome (racing healthy) (process_variant josh_request) []
  = (ErrorBody "/tmp/downloads/wf1_josh.mp4", 500%Z).
Proof.
  exact (proj1 (@getsize_failure_answers_500 _ (racing healthy) _ _ _ _ _
                  josh_request_accepted []
                  (Exn "FileNotFoundError" "/tmp/downloads/wf1_josh.mp4") eq_refl)).
Defined.

(** ** [adjust_audio_speed] *)

(** X1: [adjust_audio_speed] spawns exactly one command, with a timeout
    of 300 seconds: ffmpeg on the audio file with the filter
    atempo=<speed> and the output overwritten, the speed written as
    [str] writes a float (the shortest decimal that reads back as that
    float); for the variants of the catalog the filter reads atempo=1.0,
    1.01, 0.99, 1.02 or 0.98.  It
    returns [True] exactly when the command came back with exit status 0.
    A job whose speed adjustment does not is answered 400 "Failed to
    adjust audio speed" and has spawned no other command: neither the
    filter nor the merge. *)
Theorem adjust_invocation {W : Type} (h : handler W) (w : W)
        (audio_path : string) (speed : Q) (output_path : string) :
  let cmd := adjust_audio_speed_cmd audio_path speed output_path in
  cmd = [ "ffmpeg"; "-i"; audio_path; "-af"; "atempo=" ++ float_str speed;
          "-y"; output_path ]
  /\ (exists answer,
        trace h (adjust_audio_speed audio_path speed output_path) w
        = [Event (SubprocessRun cmd 300) answer]
        /\ outcome h (adjust_audio_speed audio_path speed output_path) w
           = exited_zero answer)
  /\ (forall name config,
        assoc name VARIANTS = Some config ->
        In (float_str (App.speed config)) ["1.0"; "1.01"; "0.99"; "1.02"; "0.98"])
  /\ (forall (req : request) vu au wf vn config answer,
        accepted req vu au wf vn ->
        assoc vn VARIANTS = Some config ->
        In (adjust_audio_speed_cmd (audio_file wf vn) (App.speed config)
                                   (audio_speed_file wf vn), 300%Z, answer)
           (runs (trace h (process_variant req) w)) ->
        exited_zero answer = false ->
        outcome h (process_variant req) w
        = (ErrorBody "Failed to adjust audio speed", 400%Z)
        /\ length (runs (trace h (process_variant req) w)) = 1%nat).
Proof.
  intros cmd. split; [reflexivity | split; [| split]].
  - unfold trace, outcome. rewrite adjust_audio_speed_run. cbv zeta. fold cmd.
    destruct (@h _ (SubprocessRun cmd 300) w) as [answer w1].
    exists answer. split; reflexivity.
  - intros name config Hget. apply assoc_In in Hget.
    unfold VARIANTS in Hget. cbn [In] in Hget.
    repeat match goal with
           | H : _ \/ _ |- _ => destruct H
           | H : False |- _ => destruct H
           | H : (_, _) = (_, _) |- _ => injection H as _ <-
           end; vm_compute; tauto.
  - intros req vu au wf vn config answer Hacc Hcfg Hin Hfail.
    destruct (accepted_run h w Hacc) as (config' & Hcfg' & Hrun).
    rewrite Hcfg in Hcfg'. injection Hcfg' as <-.
    destruct (job_run_adjust_failed Hrun answer Hin Hfail) as [Hr Hlen].
    rewrite outcome_respond, Hr. split; [reflexivity | exact Hlen].
Qed.

Lemma adjust_invocation_witness :
  outcome (Sim.machine (Sim.World (Sim.serves ["abc"]) (Sim.ffmpeg_hangs "-af" 10) "T"))
          (process_variant josh_request) []
  = (ErrorBody "Failed to adjust audio speed", 400%Z)
  /\ In (float_str 1.01) ["1.0"; "1.01"; "0.99"; "1.02"; "0.98"].
Proof.
  destruct (adjust_invocation
              (Sim.machine (Sim.World (Sim.serves ["abc"]) (Sim.ffmpeg_hangs "-af" 10) "T"))
              [] "a" 1 "o") as (_ & _ & Hfmt & H).
  split.
  - apply (H josh_request _ _ _ _ (Variant "Rsz5u2Huh1hPlPr0oxRQ" 1.01 "eq=contrast=1.02")
             (Raised (Exn "TimeoutExpired" "Command timed out"))
             josh_request_accepted eq_refl).
    + vm_compute. left. reflexivity.
    + reflexivity.
  - exact (Hfmt "josh" (Variant "Rsz5u2Huh1hPlPr0oxRQ" 1.01 "eq=contrast=1.02") eq_refl).
Defined.

(** ** Validation: the bodies that are no mapping *)

(** X11: a request whose body is not a JSON object never starts a job
    and makes no call.  A body that cannot be parsed is answered 500 with
    the message of the parser; null, a number or a boolean is answered
    500 (the membership test raises); an array or a string is answered
    400 "Missing required fields", unless it holds all four field names
    (as elements, as substrings), and then 500 (it cannot be indexed by a
    name). *)
Theorem non_object_body_starts_nothing {W : Type} (h : handler W) (w : W)
        (req : request) :
  match json req with
  | Raised e =>
      interp h (process_variant req) w = ((ErrorBody (exn_str e), 500%Z), w, [])
  | Ok (JObj _) => True
  | Ok data =>
      exists resp,
        interp h (process_variant req) w = (resp, w, [])
        /\ match data with
           | JArr _ | JStr _ =>
               match all_in required_fields data with
               | Ok false => resp = (ErrorBody "Missing required fields", 400%Z)
               | _ => snd resp = 500%Z
               end
           | _ => snd resp = 500%Z
           end
  end.
Proof.
  unfold process_variant, process_variant_try, try_except, lift.
  destruct (json req) as [data | e]; [| reflexivity].
  destruct data as [| b | n | s | l | items]; try exact I;
    cbn [pbind bind];
    try (eexists; split; reflexivity).
  - destruct (all_in required_fields (JStr s)) as [[|] | e];
      eexists; split; reflexivity.
  - destruct (all_in required_fields (JArr l)) as [[|] | e];
      eexists; split; reflexivity.
Qed.

(** X12: a body that holds the four fields and a variant of the catalog,
    with a workflow id that is not a string, is answered 500: joining the
    workspace path raises before anything was created or fetched. *)
Theorem non_string_workflow_id_answers_500 {W : Type} (h : handler W) (w : W)
        (req : request) (items : list (string * value)) (variant_name : string)
        (workflow_id : value) :
  json req = Ok (JObj items) ->
  forallb (fun f => has_key f items) required_fields = true ->
  assoc "variant_name" items = Some (JStr variant_name) ->
  has_key variant_name VARIANTS = true ->
  assoc "workflow_id" items = Some workflow_id ->
  (forall s, workflow_id <> JStr s) ->
  exists msg,
    interp h (process_variant req) w = ((ErrorBody msg, 500%Z), w, []).
Proof.
  intros Hjson Hpresent Hn Hkey Hw Hns.
  assert (Hall : all_in required_fields (JObj items) = Ok true)
    by (rewrite all_in_obj, Hpresent; reflexivity).
  cbn [forallb required_fields] in Hpresent.
  apply andb_true_iff in Hpresent as [Kv Hpresent].
  apply andb_true_iff in Hpresent as [Ka _].
  apply assoc_has_key in Kv as [vu Kv]. apply assoc_has_key in Ka as [au Ka].
  unfold process_variant, process_variant_try, try_except, lift, getitem.
  rewrite Hjson. cbn [pbind bind]. rewrite Hall. cbn [pbind bind negb].
  rewrite Kv, Ka, Hn, Hw. cbn [pbind bind hash in_VARIANTS]. rewrite Hkey.
  cbn [negb].
  destruct workflow_id as [| b | n | s | l | o]; cbn [fspath pbind bind];
    try (eexists; reflexivity).
  contradiction (Hns s). reflexivity.
Qed.

Lemma non_string_workflow_id_answers_500_witness :
  exists msg,
    interp (Sim.machine healthy)
           (process_variant (Sim.merge_request (JStr "http://cdn/v.mp4")
                                               (JStr "http://cdn/a.mp3")
                                               (JStr "josh") (JNum 7))) []
    = ((ErrorBody msg, 500%Z), [], []).
Proof.
  apply (@non_string_workflow_id_answers_500 _ (Sim.machine healthy) []
           (Sim.merge_request (JStr "http://cdn/v.mp4") (JStr "http://cdn/a.mp3")
                              (JStr "josh") (JNum 7))
           [ ("video_url", JStr "http://cdn/v.mp4"); ("audio_url", JStr "http://cdn/a.mp3");
             ("variant_name", JStr "josh"); ("workflow_id", JNum 7) ]
           "josh" (JNum 7) eq_refl eq_refl eq_refl eq_refl eq_refl).
  intros s. discriminate.
Defined.

(** ** Where the workspace is *)

(** X13: where the workspace of a catalog variant lies depends on the
    workflow id.  For a plain name other than ".." it is the directory
    TEMP_FOLDER/<workflow id>/<variant>; for ".." it is /tmp/<variant>,
    beside TEMP_FOLDER; for a workflow id that starts with "/" the
    temporary folder is dropped and the workspace is
    <workflow id>/<variant> wherever that is. *)
Theorem workspace_location (workflow_id variant_name : string) :
  has_key variant_name VARIANTS = true ->
  (PosixPath.plain workflow_id = true ->
   workflow_id <> ".." ->
   PosixPath.resolve (work_dir_of workflow_id variant_name)
   = ["tmp"; "n8n_video_processing"; workflow_id; variant_name])
  /\ PosixPath.resolve (work_dir_of ".." variant_name) = ["tmp"; variant_name]
  /\ (PosixPath.starts_with_sep workflow_id = true ->
      work_dir_of workflow_id variant_name = PosixPath.join workflow_id [variant_name]).
Proof.
  intros Hkey. pose proof (catalog_key_names _ Hkey) as Hname.
  split; [| split].
  - intros Hplain Hne. rewrite (@resolve_work_dir _ _ Hplain Hname).
    apply String.eqb_neq in Hne. rewrite Hne. reflexivity.
  - exact (@resolve_work_dir ".." variant_name eq_refl Hname).
  - intros Habs. unfold work_dir_of, PosixPath.join. cbn [fold_left].
    unfold PosixPath.join_step at 2. rewrite Habs. reflexivity.
Qed.

Lemma workspace_location_witness :
  PosixPath.resolve (work_dir_of "wf1" "brad") = ["tmp"; "n8n_video_processing"; "wf1"; "brad"]
  /\ work_dir_of "/etc" "brad" = "/etc/brad".
Proof.
  destruct (@workspace_location "wf1" "brad" eq_refl) as (H & _).
  destruct (@workspace_location "/etc" "brad" eq_refl) as (_ & _ & H').
  split; [apply H; [reflexivity | discriminate] | exact (H' eq_refl)].
Defined.

(** ** The other endpoints *)

Lemma has_key_In {A : Type} (key : string) (items : list (string * A)) :
  has_key key items = true <-> In key (map fst items).
Proof.
  unfold has_key. induction items as [| [k a] rest IH]; cbn.
  - split; [discriminate | contradiction].
  - destruct (String.eqb_spec k key) as [-> | Hne].
    + split; [left; reflexivity | reflexivity].
    + rewrite IH. split; [right; assumption | intros [E | H]; [contradiction | exact H]].
Qed.

(** X14: /variants and /merge agree: the answer of /variants is 200, and
    a name is in its list exactly when the validation of /merge takes it
    as a known variant, which is exactly when its details hold an entry
    for it; no name is listed twice. *)
Theorem listed_variants_are_the_accepted_ones :
  let names := fst (fst get_variants) in
  let details := snd (fst get_variants) in
  snd get_variants = 200%Z
  /\ NoDup names
  /\ forall name,
       (In name names <-> in_VARIANTS (SStr name) = true)
       /\ (In name names <-> exists config, assoc name details = Some config).
Proof.
  cbn [get_variants fst snd]. split; [reflexivity | split].
  - unfold VARIANTS. cbn [map fst].
    repeat constructor; cbn [In]; intuition discriminate.
  - intros name. cbn [in_VARIANTS]. split.
    + symmetry. apply has_key_In.
    + rewrite <- has_key_In. unfold has_key.
      destruct (assoc name VARIANTS) as [config |].
      * split; [intros _; eauto | reflexivity].
      * split; [discriminate | intros [config H]; discriminate H].
Qed.

(** X15: /health never fails: whatever the environment does, it spawns
    ffmpeg -version once with a timeout of 5 seconds, reads the clock, and
    answers 200 with status "ok"; [ffmpeg_available] is true exactly when
    the command came back with exit status 0, and false when it could not
    be spawned or timed out. *)
Theorem health_never_fails {W : Type} (h : handler W) (w : W) :
  exists answer timestamp,
    trace h health w
    = [Event (SubprocessRun ["ffmpeg"; "-version"] 5) answer; Event Now timestamp]
    /\ outcome h health w = (HealthBody "ok" (exited_zero answer) timestamp, 200%Z).
Proof.
  unfold trace, outcome, health, try_except. cbn.
  destruct (@h _ (SubprocessRun ["ffmpeg"; "-version"] 5) w) as [[c | e] w1]; cbn;
    destruct (@h _ Now w1) as [ts w2]; cbn; eauto.
Qed.

(** ** [download_file_endpoint] *)

Lemma output_filename_entry (workflow_id variant_name : string) :
  PosixPath.has_sep workflow_id = false ->
  has_key variant_name VARIANTS = true ->
  entry_name (output_filename_of workflow_id variant_name) = true.
Proof.
  intros Hsep Hkey. apply catalog_key_names in Hkey.
  destruct (catalog_name_facts Hkey) as (Hvsep & _).
  set (name := output_filename_of workflow_id variant_name).
  assert (Hlen : (5 <= String.length name)%nat).
  { unfold name, output_filename_of. rewrite !length_append. cbn. lia. }
  assert (Hs : PosixPath.has_sep name = false).
  { unfold name, output_filename_of.
    rewrite !PathFacts.has_sep_append, Hsep, Hvsep. reflexivity. }
  assert (Hne : forall s, (String.length s <= 2)%nat -> (name =? s) = false).
  { intros s Hshort. apply String.eqb_neq. intros E. rewrite E in Hlen. lia. }
  unfold entry_name. rewrite Hs, !Hne by (cbn; lia). reflexivity.
Qed.

Lemma resolve_entry (name : string) :
  entry_name name = true ->
  PosixPath.resolve (PosixPath.join UPLOAD_FOLDER [name]) = ["tmp"; "downloads"; name].
Proof.
  unfold entry_name. intros H.
  apply andb_true_iff in H as [H H4]. apply andb_true_iff in H as [H H3].
  apply andb_true_iff in H as [H1 H2].
  apply negb_true_iff in H1, H2, H3, H4.
  assert (Hjoin : PosixPath.join UPLOAD_FOLDER [name] = "/tmp/downloads/" ++ name).
  { unfold PosixPath.join. cbn [fold_left]. unfold PosixPath.join_step.
    rewrite (PathFacts.no_sep_starts _ H1). reflexivity. }
  rewrite Hjoin. unfold PosixPath.resolve.
  change ("/tmp/downloads/" ++ name)
    with ("" ++ String PosixPath.sep ("tmp" ++ String PosixPath.sep ("downloads"
            ++ String PosixPath.sep name))).
  rewrite !PathFacts.split_append_sep by reflexivity.
  rewrite (PathFacts.split_no_sep _ H1).
  cbn [PosixPath.walk String.eqb Ascii.eqb Bool.eqb orb andb tl].
  rewrite H2, H3, H4. reflexivity.
Qed.

Lemma download_endpoint_run {W R : Type} (h : handler W) (w : W)
      (send_file : string -> string -> result R) (filename : string) :
  exists found,
    trace h (download_file_endpoint send_file filename) w
    = [Event (PathExists (PosixPath.join UPLOAD_FOLDER [filename])) found]
    /\ outcome h (download_file_endpoint send_file filename) w
       = if found
         then match send_file (PosixPath.join UPLOAD_FOLDER [filename]) filename with
              | Ok r => Attachment r
              | Raised e => DownloadError (exn_str e) 500
              end
         else DownloadError "File not found" 404.
Proof.
  unfold trace, outcome, download_file_endpoint, try_except. cbv zeta.
  generalize (PosixPath.join UPLOAD_FOLDER [filename]). intros path. cbn.
  destruct (@h _ (PathExists path) w) as [found w1].
  exists found. destruct found; cbn; [| split; reflexivity].
  destruct (send_file path filename) as [r | e]; cbn; split; reflexivity.
Qed.

(** X16: /download/<filename> never raises and touches the file system
    once: it probes UPLOAD_FOLDER joined with the name.  A missing file is
    answered 404 "File not found" and [send_file] is not consulted; an
    exception of [send_file] is answered 500 with its message; otherwise
    the response of [send_file] for that path is returned.  For a name
    that is an entry name (no separator, not empty, not "." or "..") the
    path probed is the entry of that name in UPLOAD_FOLDER. *)
Theorem download_endpoint_replies {W R : Type} (h : handler W) (w : W)
        (send_file : string -> string -> result R) (filename : string) :
  let path := PosixPath.join UPLOAD_FOLDER [filename] in
  (exists found,
      trace h (download_file_endpoint send_file filename) w
      = [Event (PathExists path) found]
      /\ outcome h (download_file_endpoint send_file filename) w
         = if found
           then match send_file path filename with
                | Ok r => Attachment r
                | Raised e => DownloadError (exn_str e) 500
                end
           else DownloadError "File not found" 404)
  /\ (entry_name filename = true ->
      PosixPath.resolve path = ["tmp"; "downloads"; filename]).
Proof.
  intros path. split; [apply download_endpoint_run | apply resolve_entry].
Qed.

Lemma download_endpoint_replies_witness :
  PosixPath.resolve (PosixPath.join UPLOAD_FOLDER ["wf1_josh.mp4"])
  = ["tmp"; "downloads"; "wf1_josh.mp4"].
Proof.
  exact (proj2 (@download_endpoint_replies _ unit (Sim.machine healthy) []
                  (fun _ _ => Ok tt) "wf1_josh.mp4") eq_refl).
Defined.

(** ** From the download URL back to the route *)

Module UrlFacts.
Import Url.

Lemma all_chars_append (P : ascii -> bool) (a b : string) :
  all_chars P (a ++ b) = all_chars P a && all_chars P b.
Proof.
  induction a as [| c a IH]; cbn; [reflexivity | rewrite IH, andb_assoc; reflexivity].
Qed.

Lemma all_chars_weaken (P Q : ascii -> bool) (s : string) :
  (forall c, P c = true -> Q c = true) ->
  all_chars P s = true -> all_chars Q s = true.
Proof.
  intros HPQ. induction s as [| c s IH]; cbn; [reflexivity |].
  intros H. apply andb_true_iff in H as [Hc Hs]. rewrite (HPQ c Hc), (IH Hs). reflexivity.
Qed.

Lemma is_host_chars (s : string) : is_host s = true -> all_chars host_char s = true.
Proof.
  destruct s as [| c s]; cbn [is_host]; [discriminate |].
  intros H. apply andb_true_iff in H as [_ H]. exact H.
Qed.

Lemma prefix_append (a b : string) : prefix a (a ++ b) = true.
Proof.
  induction a as [| c a IH]; cbn; [destruct b; reflexivity |].
  destruct (ascii_dec c c) as [_ | Hne]; [exact IH | contradiction].
Qed.

Lemma drop_append (a b : string) : drop (String.length a) (a ++ b) = b.
Proof. induction a as [| c a IH]; cbn; [destruct b; reflexivity | exact IH]. Qed.

Lemma drop_until_skip (stop : ascii -> bool) (a b : string) :
  all_chars (fun c => negb (stop c)) a = true ->
  drop_until stop (a ++ b) = drop_until stop b.
Proof.
  induction a as [| c a IH]; cbn; [reflexivity |].
  intros H. apply andb_true_iff in H as [Hc Ha]. apply negb_true_iff in Hc.
  rewrite Hc. exact (IH Ha).
Qed.

Lemma take_until_all (stop : ascii -> bool) (s : string) :
  all_chars (fun c => negb (stop c)) s = true -> take_until stop s = s.
Proof.
  induction s as [| c s IH]; cbn; [reflexivity |].
  intros H. apply andb_true_iff in H as [Hc Hs]. apply negb_true_iff in Hc.
  rewrite Hc, (IH Hs). reflexivity.
Qed.


Lemma unquote_plain (s : string) :
  all_chars (fun c => negb (Ascii.eqb c "%")) s = true -> unquote s = s.
Proof.
  induction s as [| c s IH]; cbn [all_chars unquote]; [reflexivity |].
  intros H. apply andb_true_iff in H as [Hc Hs]. apply negb_true_iff in Hc.
  rewrite Hc, (IH Hs). reflexivity.
Qed.

Lemma no_slash_no_sep (s : string) :
  all_chars (fun c => negb (Ascii.eqb c "/")) s = true -> PosixPath.has_sep s = false.
Proof.
  induction s as [| c s IH]; cbn; [reflexivity |].
  intros H. apply andb_true_iff in H as [Hc Hs]. apply negb_true_iff in Hc.
  unfold PosixPath.sep. rewrite Hc, (IH Hs). reflexivity.
Qed.

Ltac by_cases_on_char :=
  let c := fresh "c" in
  intros c; destruct c as [[] [] [] [] [] [] [] []]; vm_compute;
  intros; congruence.

Lemma unreserved_in_path (c : ascii) : unreserved c = true -> negb (ends_path c) = true.
Proof. revert c. by_cases_on_char. Qed.

Lemma unreserved_no_escape (c : ascii) :
  unreserved c = true -> negb (Ascii.eqb c "%") = true.
Proof. revert c. by_cases_on_char. Qed.

Lemma unreserved_no_slash (c : ascii) :
  unreserved c = true -> negb (Ascii.eqb c "/") = true.
Proof. revert c. by_cases_on_char. Qed.

Lemma host_char_in_authority (c : ascii) :
  host_char c = true -> negb (ends_authority c) = true.
Proof. revert c. by_cases_on_char. Qed.

Lemma catalog_names_unreserved (variant_name : string) :
  In variant_name catalog_names -> all_chars unreserved variant_name = true.
Proof.
  intros Hname. unfold catalog_names in Hname. cbn [In] in Hname.
  repeat match goal with
         | H : _ \/ _ |- _ => destruct H
         | H : False |- _ => destruct H
         end;
    subst variant_name; vm_compute; reflexivity.
Qed.

(** What the route receives for the path [/download/<text>] of a URL on
    a well-formed host, when the text of the path is [shown]: the text up
    to the first [?] or [#]. *)
Lemma requested_of_path (host_name text shown : string) :
  all_chars host_char host_name = true ->
  take_until ends_path ("/download/" ++ text) = "/download/" ++ shown ->
  all_chars unreserved shown = true ->
  shown <> "" ->
  requested_filename ("https://" ++ host_name ++ "/download/" ++ text) = Some shown.
Proof.
  intros Hhost Htake Hshown Hne.
  unfold requested_filename, path_of.
  rewrite prefix_append.
  change 8%nat with (String.length "https://"). rewrite drop_append.
  rewrite drop_until_skip
    by (exact (@all_chars_weaken _ _ _ host_char_in_authority Hhost)).
  change (drop_until ends_authority ("/download/" ++ text)) with ("/download/" ++ text).
  rewrite Htake.
  rewrite unquote_plain.
  2:{ rewrite all_chars_append. apply andb_true_iff. split; [reflexivity |].
      exact (@all_chars_weaken _ _ _ unreserved_no_escape Hshown). }
  unfold match_download. rewrite prefix_append.
  change 10%nat with (String.length "/download/"). rewrite drop_append.
  rewrite (no_slash_no_sep _ (@all_chars_weaken _ _ _ unreserved_no_slash Hshown)).
  destruct (String.eqb_spec shown "") as [E | _]; [contradiction | reflexivity].
Qed.

End UrlFacts.

Lemma output_filename_unreserved (workflow_id variant_name : string) :
  Url.all_chars Url.unreserved workflow_id = true ->
  has_key variant_name VARIANTS = true ->
  Url.all_chars Url.unreserved (output_filename_of workflow_id variant_name) = true.
Proof.
  intros Hwf Hkey. apply catalog_key_names in Hkey.
  unfold output_filename_of. rewrite !UrlFacts.all_chars_append, Hwf.
  rewrite (UrlFacts.catalog_names_unreserved Hkey). reflexivity.
Qed.

Lemma output_filename_not_empty (workflow_id variant_name : string) :
  output_filename_of workflow_id variant_name <> "".
Proof.
  unfold output_filename_of. intros E.
  apply (f_equal String.length) in E. rewrite !length_append in E. cbn in E. lia.
Qed.

(** X17: the file /merge advertises is the file /download serves.  For
    a workflow id of unreserved URL characters (letters, digits, [-],
    [.], [_], [~]) and a request host that is a host name or address,
    with or without a port, the
    [download_url] of a success response, when requested, reaches the
    download route with [<workflow_id>_<variant>.mp4] as file name; that
    name is one entry name; the merge command that wrote the output file
    of the response exited with status 0; and the path the download
    endpoint probes and sends for that name is that output file. *)
Theorem merged_file_is_the_one_served {W W' R : Type} (h : handler W) (w : W)
        (h' : handler W') (w' : W') (send_file : string -> string -> result R)
        (req : request) (video_url audio_url : value) (workflow_id variant_name : string)
        (status variant out url : string) (size : N) (timestamp : string) :
  accepted req video_url audio_url workflow_id variant_name ->
  Url.all_chars Url.unreserved workflow_id = true ->
  Url.is_host (host req) = true ->
  outcome h (process_variant req) w
  = (SuccessBody status variant out url size timestamp, 200%Z) ->
  let name := output_filename_of workflow_id variant_name in
  url = "https://" ++ host req ++ "/download/" ++ name
  /\ Url.requested_filename url = Some name
  /\ entry_name name = true
  /\ (exists answer,
        In (merge_audio_video_cmd (video_filtered_file workflow_id variant_name)
                                  (audio_speed_file workflow_id variant_name) out,
            600%Z, answer) (runs (trace h (process_variant req) w))
        /\ exited_zero answer = true)
  /\ exists found,
       trace h' (download_file_endpoint send_file name) w' = [Event (PathExists out) found]
       /\ (found = true ->
           outcome h' (download_file_endpoint send_file name) w'
           = match send_file out name with
             | Ok r => Attachment r
             | Raised e => DownloadError (exn_str e) 500
             end).
Proof.
  intros Hacc Hsafe Hhost Hout name. apply UrlFacts.is_host_chars in Hhost.
  assert (Hkey : has_key variant_name VARIANTS = true).
  { destruct Hacc as (items & _ & _ & _ & _ & _ & Hkey). exact Hkey. }
  assert (Hsep : PosixPath.has_sep workflow_id = false).
  { apply UrlFacts.no_slash_no_sep.
    exact (@UrlFacts.all_chars_weaken _ _ _ UrlFacts.unreserved_no_slash Hsafe). }
  pose proof (@output_filename_unreserved workflow_id variant_name Hsafe Hkey) as Hname.
  destruct (accepted_run h w Hacc) as (config & _ & Hrun).
  rewrite outcome_respond in Hout.
  destruct (outcome h (process_variant_try req) w) as [resp | e] eqn:Hr;
    [| discriminate Hout].
  cbn [respond] in Hout. subst resp.
  destruct (job_run_success_merged Hrun eq_refl) as (Ho & Hu & Hmerge).
  split; [exact Hu |].
  split.
  { rewrite Hu. apply UrlFacts.requested_of_path; try assumption.
    - apply UrlFacts.take_until_all. rewrite UrlFacts.all_chars_append.
      apply andb_true_iff. split; [reflexivity |].
      exact (@UrlFacts.all_chars_weaken _ _ _ UrlFacts.unreserved_in_path Hname).
    - apply output_filename_not_empty. }
  split; [exact (@output_filename_entry workflow_id variant_name Hsep Hkey) |].
  split; [exact Hmerge |].
  destruct (download_endpoint_run h' w' send_file name) as (found & Htr & Hres).
  change (PosixPath.join UPLOAD_FOLDER [name])
    with (output_file workflow_id variant_name) in Htr, Hres.
  rewrite <- Ho in Htr, Hres.
  exists found. split; [exact Htr |]. intros ->. exact Hres.
Qed.

Lemma merged_file_is_the_one_served_witness :
  Url.requested_filename "https://worker.example/download/wf1_josh.mp4"
  = Some "wf1_josh.mp4"
  /\ entry_name (output_filename_of "wf1" "josh") = true
  /\ exists found,
       trace (Sim.machine healthy)
             (download_file_endpoint (fun path _ => Ok path) (output_filename_of "wf1" "josh"))
             [("/tmp/downloads/wf1_josh.mp4", Sim.File 10)]
       = [Event (PathExists "/tmp/downloads/wf1_josh.mp4") found].
Proof.
  destruct (@merged_file_is_the_one_served _ _ string
              (Sim.machine healthy) [] (Sim.machine healthy)
              [("/tmp/downloads/wf1_josh.mp4", Sim.File 10)]
              (fun path _ => Ok path) josh_request _ _ "wf1" "josh"
              "success" "josh" "/tmp/downloads/wf1_josh.mp4"
              "https://worker.example/download/wf1_josh.mp4" 10%N "2024-01-01T00:00:00"
              josh_request_accepted eq_refl eq_refl eq_refl)
    as (_ & Hreq & Hentry & _ & found & Htr & _).
  split; [exact Hreq | split; [exact Hentry | exists found; exact Htr]].
Defined.



